(** * CS2 esports league manager: console and Tk front ends over one
      data-access layer.

    A shallow embedding of [app/db.py], [app/cli.py] and [app/gui.py],
    followed by the properties of the partial-update engine, the
    constraint translator and the referential selector.

    Text is modelled as [string] over the code points 0..127; a character
    above 127 stands for a non-ASCII code point and is treated as a
    caseless, non-space, non-digit symbol. *)

From Stdlib Require Import ZArith NArith Lia Ascii String.
From stdpp Require Import base option list strings gmap.

Local Open Scope string_scope.
Local Open Scope list_scope.
Local Open Scope Z_scope.

(** ** Python built-ins used by the application *)

Module Py.

Definition LF : ascii := "010"%char.

(** Characters for which [str.isspace] holds: TAB..CR, FS..US, SPACE. *)
Definition is_space (c : ascii) : bool :=
  let n := N_of_ascii c in
  (((9 <=? n) && (n <=? 13)) || ((28 <=? n) && (n <=? 32)))%N.

Fixpoint lstrip (s : string) : string :=
  match s with
  | EmptyString => EmptyString
  | String c s' => if is_space c then lstrip s' else s
  end.

Fixpoint rstrip (s : string) : string :=
  match s with
  | EmptyString => EmptyString
  | String c s' =>
      match rstrip s' with
      | EmptyString => if is_space c then EmptyString else String c EmptyString
      | t => String c t
      end
  end.

(** [s.strip()] *)
Definition strip (s : string) : string := rstrip (lstrip s).

Definition is_upper (c : ascii) : bool :=
  let n := N_of_ascii c in ((65 <=? n) && (n <=? 90))%N.

Definition lower_char (c : ascii) : ascii :=
  if is_upper c then ascii_of_N (N_of_ascii c + 32) else c.

(** [s.lower()] *)
Fixpoint lower (s : string) : string :=
  match s with
  | EmptyString => EmptyString
  | String c s' => String (lower_char c) (lower s')
  end.

(** [s.startswith(p)] *)
Fixpoint startswith (s p : string) {struct p} : bool :=
  match p with
  | EmptyString => true
  | String a p' =>
      match s with
      | EmptyString => false
      | String b s' => Ascii.eqb a b && startswith s' p'
      end
  end.

(** [needle in hay] *)
Fixpoint str_in (needle hay : string) : bool :=
  startswith hay needle ||
  match hay with
  | EmptyString => false
  | String _ hay' => str_in needle hay'
  end.

(** [s.split(sep)[0]] and [s.split(sep, 1)[0]] for a non-empty [sep]:
    the text before the leftmost occurrence of [sep], all of [s] when
    there is none. *)
Fixpoint split_head (sep s : string) : string :=
  if startswith s sep then EmptyString
  else match s with
       | EmptyString => EmptyString
       | String c s' => String c (split_head sep s')
       end.

Definition digit_val (c : ascii) : option Z :=
  let n := N_of_ascii c in
  if ((48 <=? n) && (n <=? 57))%N then Some (Z.of_N (n - 48)) else None.

(** Digits of a base-10 literal; single underscores may separate digits. *)
Fixpoint digits_from (s : string) (acc : Z) (prev_underscore : bool) : option Z :=
  match s with
  | EmptyString => if prev_underscore then None else Some acc
  | String c s' =>
      if Ascii.eqb c "_"%char then
        if prev_underscore then None else digits_from s' acc true
      else
        match digit_val c with
        | Some d => digits_from s' (10 * acc + d) false
        | None => None
        end
  end.

Definition int_literal (s : string) : option Z :=
  let '(neg, body) :=
    match s with
    | String "+"%char r => (false, r)
    | String "-"%char r => (true, r)
    | _ => (false, s)
    end in
  match body with
  | EmptyString => None
  | String c _ =>
      match digit_val c with
      | None => None
      | Some _ =>
          match digits_from body 0 false with
          | Some n => Some (if neg then - n else n)
          | None => None
          end
      end
  end.

(** [int(s)] on a [str]; [None] stands for [ValueError].  The limit on
    the number of digits of recent interpreters is not modelled. *)
Definition int (s : string) : option Z := int_literal (strip s).

Definition digit_char (d : N) : ascii := ascii_of_N (48 + d).

Fixpoint digits_of (fuel : nat) (n : N) (acc : string) : string :=
  let acc' := String (digit_char (n mod 10)) acc in
  match fuel with
  | O => acc'
  | S fuel' => if (n <? 10)%N then acc' else digits_of fuel' (n / 10) acc'
  end.

Definition str_of_N (n : N) : string :=
  digits_of (N.to_nat (N.log2 n)) n EmptyString.

(** [str(n)] for an [int], also what an f-string renders. *)
Definition str_of_int (z : Z) : string :=
  if z <? 0 then String "-"%char (str_of_N (Z.to_N (- z)))
  else str_of_N (Z.to_N z).

(** A finite [decimal.Decimal]: [coef * 10 ^ expo]. *)
Record decimal := { coef : Z; expo : Z }.

#[global] Instance decimal_eq_dec : EqDecision decimal.
Proof. solve_decision. Defined.

(** [datetime.date] as (year, month, day). *)
Definition date := (Z * Z * Z)%type.

#[global] Instance date_eq_dec : EqDecision date.
Proof. unfold date. apply _. Defined.

(** The exceptions that occur; [str_exn] is [str(e)]. *)
Inductive exn :=
| Exception (msg : string)
| ValueError (msg : string)
| EOFError
| DatabaseError (msg : string).

Definition str_exn (e : exn) : string :=
  match e with
  | Exception msg => msg
  | ValueError msg => msg
  | EOFError => EmptyString
  | DatabaseError msg => msg
  end.

(** Library calls whose parsing rules are taken as given: [None] is the
    call raising ([InvalidOperation] for [Decimal], [ValueError] for
    [strptime]). *)
Class Lib := {
  Decimal : string -> option decimal;
  strptime_ymd : string -> option date;
  isoformat : date -> string;
  repr : string -> string
}.

End Py.

(** ** The store: values, statements and their effect *)

Module Sql.

Import Py.

(** Python values that travel as statement parameters and row cells;
    [VNone] is [None] on the Python side and NULL in the store. *)
Inductive value :=
| VNone
| VInt (n : Z)
| VStr (s : string)
| VBool (b : bool)
| VDecimal (d : decimal)
| VDate (d : date).

#[global] Instance value_eq_dec : EqDecision value.
Proof. solve_decision. Defined.

(** Truth value of a Python object ([if not x], [x or y]). *)
Definition truthy (v : value) : bool :=
  match v with
  | VNone => false
  | VInt n => negb (n =? 0)
  | VStr s => negb (String.eqb s "")
  | VBool b => b
  | VDecimal d => negb (coef d =? 0)
  | VDate _ => true
  end.

Definition tuple := list value.

Definition ostr (o : option string) : value :=
  match o with Some s => VStr s | None => VNone end.
Definition oint (o : option Z) : value :=
  match o with Some n => VInt n | None => VNone end.
Definition odec (o : option decimal) : value :=
  match o with Some d => VDecimal d | None => VNone end.

(** The [updates] dictionary: insertion-ordered, one entry per key. *)
Definition dict := list (string * value).

Fixpoint dict_set (k : string) (v : value) (d : dict) : dict :=
  match d with
  | [] => [(k, v)]
  | (k', v') :: d' =>
      if String.eqb k k' then (k, v) :: d' else (k', v') :: dict_set k v d'
  end.

(** [if v is not None: updates[col] = v] *)
Definition put_if (col : string) (v : value) (updates : dict) : dict :=
  match v with
  | VNone => updates
  | _ => dict_set col v updates
  end.

(** [{k: v for k, v in fields.items() if v is not None}] *)
Definition not_none (fields : dict) : dict :=
  filter (fun kv => kv.2 <> VNone) fields.

Definition decimal_zero : decimal := {| coef := 0; expo := 0 |}.


Section Text.
Context `{Lib}.

(** Text of a value inside an f-string. *)
Definition str_value (v : value) : string :=
  match v with
  | VNone => "None"
  | VInt n => str_of_int n
  | VStr s => s
  | VBool true => "True"
  | VBool false => "False"
  | VDecimal d => str_of_int (coef d) +:+ "E" +:+ str_of_int (expo d)
  | VDate d => isoformat d
  end.

End Text.

Abbreviation row := (gmap string value).
Abbreviation table := (gmap Z (gmap string value)).
Abbreviation store := (gmap string (gmap Z (gmap string value))).

Inductive direction := Asc | Desc.
Inductive nulls := NullsDefault | NullsFirst | NullsLast.

(** One item of an ORDER BY clause. *)
Record order_key := { ok_col : string; ok_dir : direction; ok_nulls : nulls }.

Definition asc (c : string) : order_key :=
  {| ok_col := c; ok_dir := Asc; ok_nulls := NullsDefault |}.
Definition asc_nulls_last (c : string) : order_key :=
  {| ok_col := c; ok_dir := Asc; ok_nulls := NullsLast |}.
Definition desc_nulls_last (c : string) : order_key :=
  {| ok_col := c; ok_dir := Desc; ok_nulls := NullsLast |}.

(** A SELECT: the select list, the FROM/JOIN lines and the ORDER BY. *)
Record query := {
  q_select : list string;
  q_from : list string;
  q_order : list order_key
}.

(** The statements the application sends.  [Update t sets kc k] is
    [UPDATE t SET c1 = %s, ... WHERE kc = %s] with the values of [sets]
    followed by [k] as parameters. *)
Inductive stmt :=
| Select (q : query)
| Insert (tbl : string) (cols : list string) (vals : list value) (returning : string)
| Update (tbl : string) (sets : list (string * value)) (key_col : string) (key : value)
| Delete (tbl : string) (key_col : string) (key : value)
| ToggleActive (tbl : string) (key_col : string) (key : value)
| ValidateAndInsertMatch (args : list value).

(** What the application does not decide: the collation of text, the
    unordered rows a FROM/JOIN clause yields (keyed by column), the
    tuple a select list makes of such a row, and the store's verdict on
    a statement ([Some msg]: the statement raises with message [msg]). *)
Class Backend := {
  collate : string -> string -> comparison;
  relation : list string -> store -> list row;
  project : list string -> row -> tuple;
  rejects : stmt -> store -> option string
}.

Section Engine.
Context `{Backend}.

Definition decimal_cmp (a b : decimal) : comparison :=
  let e := Z.min (expo a) (expo b) in
  (coef a * 10 ^ (expo a - e)) ?= (coef b * 10 ^ (expo b - e)).

Definition date_cmp (a b : date) : comparison :=
  let '(y1, m1, d1) := a in
  let '(y2, m2, d2) := b in
  match y1 ?= y2 with
  | Eq => match m1 ?= m2 with Eq => d1 ?= d2 | c => c end
  | c => c
  end.

Definition value_cmp (a b : value) : comparison :=
  match a, b with
  | VInt x, VInt y => x ?= y
  | VStr x, VStr y => collate x y
  | VBool x, VBool y => Z.b2z x ?= Z.b2z y
  | VDecimal x, VDecimal y => decimal_cmp x y
  | VDate x, VDate y => date_cmp x y
  | _, _ => Eq
  end.

(** Without a NULLS clause, NULLs sort last ascending, first descending. *)
Definition nulls_last (k : order_key) : bool :=
  match ok_nulls k with
  | NullsLast => true
  | NullsFirst => false
  | NullsDefault => match ok_dir k with Asc => true | Desc => false end
  end.

Definition key_cmp (k : order_key) (r1 r2 : row) : comparison :=
  match default VNone (r1 !! ok_col k), default VNone (r2 !! ok_col k) with
  | VNone, VNone => Eq
  | VNone, _ => if nulls_last k then Gt else Lt
  | _, VNone => if nulls_last k then Lt else Gt
  | a, b =>
      match ok_dir k with
      | Asc => value_cmp a b
      | Desc => CompOpp (value_cmp a b)
      end
  end.

Fixpoint row_cmp (ks : list order_key) (r1 r2 : row) : comparison :=
  match ks with
  | [] => Eq
  | k :: ks' =>
      match key_cmp k r1 r2 with
      | Eq => row_cmp ks' r1 r2
      | c => c
      end
  end.

Fixpoint insert_sorted (ks : list order_key) (r : row) (l : list row) : list row :=
  match l with
  | [] => [r]
  | x :: l' =>
      match row_cmp ks r x with
      | Gt => x :: insert_sorted ks r l'
      | _ => r :: l
      end
  end.

(** ORDER BY as a stable insertion sort. *)
Definition order_by (ks : list order_key) (l : list row) : list row :=
  foldr (insert_sorted ks) [] l.

Definition fresh_key (t : table) : Z :=
  1 + map_fold (fun k _ m => Z.max k m) 0 t.

Definition apply_sets (sets : list (string * value)) (r : row) : row :=
  foldl (fun r cv => <[cv.1 := cv.2]> r) r sets.

Definition flip_active (r : row) : row :=
  match r !! "is_active" with
  | Some (VBool b) => <["is_active" := VBool (negb b)]> r
  | _ => r
  end.

Definition match_columns : list string :=
  ["tournament_id"; "team1_id"; "team2_id"; "winner_team_id"; "map_id";
   "match_date"; "best_of"; "team1_score"; "team2_score"].

Definition insert_row (tbl : string) (cols : list string) (vals : list value)
    (returning : string) (s : store) : list tuple * store :=
  let t := default ∅ (s !! tbl) in
  let k := fresh_key t in
  let r := <[returning := VInt k]> (list_to_map (zip cols vals)) in
  ([[VInt k]], <[tbl := <[k := r]> t]> s).

(** Result set and new store contents of an accepted statement. *)
Definition effect (q : stmt) (s : store) : list tuple * store :=
  match q with
  | Select qr =>
      (map (project (q_select qr)) (order_by (q_order qr) (relation (q_from qr) s)), s)
  | Insert tbl cols vals returning => insert_row tbl cols vals returning s
  | Update tbl sets _ (VInt k) => ([], alter (alter (apply_sets sets) k) tbl s)
  | Delete tbl _ (VInt k) => ([], alter (delete k) tbl s)
  | ToggleActive tbl _ (VInt k) => ([], alter (alter flip_active k) tbl s)
  | ValidateAndInsertMatch args => insert_row "matches" match_columns args "match_id" s
  | _ => ([], s)
  end.

Definition run (q : stmt) (s : store) : string + list tuple * store :=
  match rejects q s with
  | Some msg => inl msg
  | None => inr (effect q s)
  end.

End Engine.

End Sql.

(** ** db.py *)

Module Db.
Import Py Sql.

Inductive event :=
| EvConnect
| EvExecute (q : stmt)
| EvCommit
| EvRollback
| EvClose.

(** The store as the application sees it: the committed contents and
    the calls made on connections so far. *)
Record db := { committed : store; log : list event }.

(** An open connection with [autocommit = False]: the contents the
    running transaction sees. *)
Record conn := { working : store; events : list event }.

Section Calls.
Context `{Backend}.

Definition connect (d : db) : conn :=
  {| working := committed d; events := log d ++ [EvConnect] |}.

(** [cur.execute(query, params)] followed by reading the result set. *)
Definition cur_execute (q : stmt) (c : conn) : (exn + list tuple) * conn :=
  match run q (working c) with
  | inl msg =>
      (inl (DatabaseError msg),
       {| working := working c; events := events c ++ [EvExecute q] |})
  | inr (rows, s') =>
      (inr rows, {| working := s'; events := events c ++ [EvExecute q] |})
  end.

(** [with get_conn() as conn: body]: commit when the body returns,
    roll back and re-raise when it raises, close in both cases. *)
Definition get_conn {A} (body : conn -> (exn + A) * conn) (d : db) : (exn + A) * db :=
  match body (connect d) with
  | (inr a, c) =>
      (inr a, {| committed := working c; log := events c ++ [EvCommit; EvClose] |})
  | (inl e, c) =>
      (inl e, {| committed := committed d; log := events c ++ [EvRollback; EvClose] |})
  end.

Definition fetch_all (q : stmt) : db -> (exn + list tuple) * db :=
  get_conn (cur_execute q).

Definition execute (q : stmt) : db -> (exn + unit) * db :=
  get_conn (fun c =>
    match cur_execute q c with
    | (inr _, c') => (inr tt, c')
    | (inl e, c') => (inl e, c')
    end).

Definition fetch_one (q : stmt) : db -> (exn + option tuple) * db :=
  get_conn (fun c =>
    match cur_execute q c with
    | (inr rows, c') => (inr (head rows), c')
    | (inl e, c') => (inl e, c')
    end).

Definition execute_returning (q : stmt) : db -> (exn + value) * db :=
  get_conn (fun c =>
    match cur_execute q c with
    | (inr rows, c') =>
        (inr match rows with
             | (v :: _) :: _ => v
             | _ => VNone
             end, c')
    | (inl e, c') => (inl e, c')
    end).

End Calls.

(** Statements sent to the store, in order. *)
Definition statements (l : list event) : list stmt :=
  omap (fun ev => match ev with EvExecute q => Some q | _ => None end) l.

End Db.

(** ** Code with effects: a state and the exception it may raise *)

Module Eff.
Import Py.

Definition eff (S A : Type) : Type := S -> (exn + A) * S.

Definition ret {S A} (a : A) : eff S A := fun s => (inr a, s).

Definition raise {S A} (e : exn) : eff S A := fun s => (inl e, s).

(** A pure computation that returns or raises. *)
Definition lift {S A} (r : exn + A) : eff S A := fun s => (r, s).

Definition bind {S A B} (m : eff S A) (k : A -> eff S B) : eff S B :=
  fun s =>
    match m s with
    | (inr a, s') => k a s'
    | (inl e, s') => (inl e, s')
    end.

(** [try: m except Exception as e: h e] *)
Definition try_ {S A} (m : eff S A) (h : exn -> eff S A) : eff S A :=
  fun s =>
    match m s with
    | (inl e, s') => h e s'
    | r => r
    end.

Notation "'let*' x := m 'in' k" := (bind m (fun x => k))
  (at level 10, x name, m at level 100, k at level 200).

End Eff.

(** ** cli.py *)

Module Cli.
Import Py Sql Db Eff.

(** What the console shows: the prompt written by [input], a printed
    line, or the table that [print_rows] lays out. *)
Inductive out :=
| Ask (prompt : string)
| Line (s : string)
| Rows (headers : list string) (rows : list tuple).

Record world := { stdin : list string; stdout : list out; database : db }.

(** Console code: reads lines, prints, calls the store, may raise. *)
Abbreviation M := (eff world).

Definition emit (o : out) : M unit :=
  fun w => (inr tt, {| stdin := stdin w; stdout := stdout w ++ [o]; database := database w |}).

Definition print (s : string) : M unit := emit (Line s).

Definition call {A} (f : db -> (exn + A) * db) : M A :=
  fun w =>
    let '(r, d) := f (database w) in
    (r, {| stdin := stdin w; stdout := stdout w; database := d |}).

Section Console.
Context `{Lib} `{Backend}.

Fixpoint prompt_str_loop (label : string) (allow_blank : bool)
    (lines : list string) (o : list out)
    : (exn + option string) * (list string * list out) :=
  let o := o ++ [Ask (label +:+ ": ")] in
  match lines with
  | [] => (inl EOFError, ([], o))
  | l :: rest =>
      let val := strip l in
      if negb (String.eqb val "") then (inr (Some val), (rest, o))
      else if allow_blank then (inr None, (rest, o))
      else prompt_str_loop label allow_blank rest (o ++ [Line "Please enter a value."])
  end.

Fixpoint prompt_int_loop (label : string) (allow_blank : bool)
    (lines : list string) (o : list out)
    : (exn + option Z) * (list string * list out) :=
  let o := o ++ [Ask (label +:+ ": ")] in
  match lines with
  | [] => (inl EOFError, ([], o))
  | l :: rest =>
      let val := strip l in
      if String.eqb val "" && allow_blank then (inr None, (rest, o))
      else match Py.int val with
           | Some n => (inr (Some n), (rest, o))
           | None =>
               prompt_int_loop label allow_blank rest (o ++ [Line "Enter a valid integer."])
           end
  end.

Fixpoint prompt_decimal_loop (label : string) (allow_blank : bool)
    (lines : list string) (o : list out)
    : (exn + option decimal) * (list string * list out) :=
  let o := o ++ [Ask (label +:+ ": ")] in
  match lines with
  | [] => (inl EOFError, ([], o))
  | l :: rest =>
      let val := strip l in
      if String.eqb val "" && allow_blank then (inr None, (rest, o))
      else match Decimal val with
           | Some d => (inr (Some d), (rest, o))
           | None =>
               prompt_decimal_loop label allow_blank rest (o ++ [Line "Enter a valid number."])
           end
  end.

Fixpoint prompt_date_loop (label : string) (allow_blank : bool)
    (lines : list string) (o : list out)
    : (exn + option string) * (list string * list out) :=
  let o := o ++ [Ask (label +:+ " (YYYY-MM-DD): ")] in
  match lines with
  | [] => (inl EOFError, ([], o))
  | l :: rest =>
      let val := strip l in
      if String.eqb val "" && allow_blank then (inr None, (rest, o))
      else match strptime_ymd val with
           | Some dt => (inr (Some (isoformat dt)), (rest, o))
           | None =>
               prompt_date_loop label allow_blank rest
                 (o ++ [Line "Enter a valid date in YYYY-MM-DD format."])
           end
  end.

Definition prompting {A}
    (loop : list string -> list out -> (exn + A) * (list string * list out)) : M A :=
  fun w =>
    let '(r, (lines, o)) := loop (stdin w) (stdout w) in
    (r, {| stdin := lines; stdout := o; database := database w |}).

Definition prompt_str (label : string) (allow_blank : bool) : M (option string) :=
  prompting (prompt_str_loop label allow_blank).
Definition prompt_int (label : string) (allow_blank : bool) : M (option Z) :=
  prompting (prompt_int_loop label allow_blank).
Definition prompt_decimal (label : string) (allow_blank : bool) : M (option decimal) :=
  prompting (prompt_decimal_loop label allow_blank).
Definition prompt_date (label : string) (allow_blank : bool) : M (option string) :=
  prompting (prompt_date_loop label allow_blank).

Definition friendly_error (err : exn) : string :=
  let msg := str_exn err in
  let lower := Py.lower msg in
  if str_in "team_region_chk" lower then "region is required for a team"
  else if str_in "team_name" lower && str_in "already exists" lower then
    "team name must be unique"
  else if str_in "player_name_chk" lower then "player name is required"
  else if str_in "different_teams_chk" lower then "team1 and team2 must be different"
  else if str_in "winner_valid_chk" lower then "winner must be one of the two teams"
  else if str_in "active players" lower && str_in "5" lower then
    "roster cap is 5 active players"
  else split_head (String LF EmptyString) msg.

Definition print_error (context : string) (err : exn) : M unit :=
  print ("[Error] " +:+ context +:+ ": " +:+ friendly_error err).

Definition print_rows (headers : list string) (rows : list tuple) : M unit :=
  match rows with
  | [] => print "No rows."
  | _ => emit (Rows headers rows)
  end.

(** The tail every multi-field update function ends with: refuse an
    empty [updates], otherwise send one UPDATE naming its keys. *)
Definition send_updates (tbl key_col : string) (id : Z) (updates : dict)
    (done context : string) : M unit :=
  match updates with
  | [] => print "No changes provided."
  | _ =>
      try_ (let* _ := call (execute (Update tbl updates key_col (VInt id))) in print done)
           (print_error context)
  end.

(** The tail of every delete function. *)
Definition send_delete (tbl key_col : string) (id : Z) (done context : string) : M unit :=
  try_ (let* _ := call (execute (Delete tbl key_col (VInt id))) in print done)
       (print_error context).

(** *** Teams *)

Definition teams_query : query :=
  {| q_select := ["team_id"; "team_name"; "region";
                  "COALESCE(founded_year::text, '-') AS founded"];
     q_from := ["teams"];
     q_order := [asc "team_name"] |}.

Definition list_teams : M unit :=
  let* rows := call (fetch_all (Select teams_query)) in
  print_rows ["ID"; "Name"; "Region"; "Founded"] rows.

Definition create_team : M unit :=
  let* name := prompt_str "Team name" false in
  let* region := prompt_str "Region" false in
  let* founded_year := prompt_int "Founded year (blank to skip)" true in
  try_ (let* team_id := call (execute_returning
          (Insert "teams" ["team_name"; "region"; "founded_year"]
             [ostr name; ostr region; oint founded_year] "team_id")) in
        print ("Created team with id " +:+ str_value team_id +:+ "."))
       (print_error "Creating team").

(** [update_team] from the point where its prompts have returned. *)
Definition update_team_with (team_id : Z) (new_name new_region : option string)
    (new_year : option Z) : M unit :=
  let updates := [] in
  let updates := put_if "team_name" (ostr new_name) updates in
  let updates := put_if "region" (ostr new_region) updates in
  let updates := put_if "founded_year" (oint new_year) updates in
  send_updates "teams" "team_id" team_id updates "Team updated." "Updating team".

Definition update_team : M unit :=
  let* _ := list_teams in
  let* team_id := prompt_int "Enter team ID to update" false in
  match team_id with
  | None => ret tt
  | Some team_id =>
      let* new_name := prompt_str "New name (blank to keep)" true in
      let* new_region := prompt_str "New region (blank to keep)" true in
      let* new_year := prompt_int "New founded year (blank to keep)" true in
      update_team_with team_id new_name new_region new_year
  end.

Definition delete_team_with (team_id : Z) : M unit :=
  send_delete "teams" "team_id" team_id "Team deleted (if it existed)." "Deleting team".

Definition delete_team : M unit :=
  let* _ := list_teams in
  let* team_id := prompt_int "Enter team ID to delete" false in
  match team_id with
  | None => ret tt
  | Some team_id => delete_team_with team_id
  end.

(** *** Players *)

Definition players_query : query :=
  {| q_select := ["p.player_id"; "p.player_name"; "COALESCE(p.country, '-')";
                  "COALESCE(p.role, '-')"; "COALESCE(t.team_name, 'Free Agent') AS team"];
     q_from := ["players p"; "LEFT JOIN teams t ON p.team_id = t.team_id"];
     q_order := [asc "p.player_name"] |}.

Definition list_players : M unit :=
  let* rows := call (fetch_all (Select players_query)) in
  print_rows ["ID"; "Name"; "Country"; "Role"; "Team"] rows.

Definition create_player : M unit :=
  let* name := prompt_str "Player name" false in
  let* country := prompt_str "Country (blank to skip)" true in
  let* role := prompt_str "Role (blank to skip)" true in
  let* team_id := prompt_int "Team ID (blank for free agent)" true in
  try_ (let* player_id := call (execute_returning
          (Insert "players" ["player_name"; "country"; "role"; "team_id"]
             [ostr name; ostr country; ostr role; oint team_id] "player_id")) in
        print ("Created player with id " +:+ str_value player_id +:+ "."))
       (print_error "Creating player").

Definition update_player_with (player_id : Z) (new_name new_country new_role : option string)
    (new_team : option Z) : M unit :=
  let updates := [] in
  let updates := put_if "player_name" (ostr new_name) updates in
  let updates := put_if "country" (ostr new_country) updates in
  let updates := put_if "role" (ostr new_role) updates in
  let updates := put_if "team_id" (oint new_team) updates in
  send_updates "players" "player_id" player_id updates "Player updated." "Updating player".

Definition update_player : M unit :=
  let* _ := list_players in
  let* player_id := prompt_int "Enter player ID to update" false in
  match player_id with
  | None => ret tt
  | Some player_id =>
      let* new_name := prompt_str "New name (blank to keep)" true in
      let* new_country := prompt_str "New country (blank to keep)" true in
      let* new_role := prompt_str "New role (blank to keep)" true in
      let* new_team := prompt_int "New team ID (blank for free agent/keep)" true in
      update_player_with player_id new_name new_country new_role new_team
  end.

Definition delete_player_with (player_id : Z) : M unit :=
  send_delete "players" "player_id" player_id
    "Player deleted (if it existed)." "Deleting player".

Definition delete_player : M unit :=
  let* _ := list_players in
  let* player_id := prompt_int "Enter player ID to delete" false in
  match player_id with
  | None => ret tt
  | Some player_id => delete_player_with player_id
  end.

(** *** Tournaments *)

Definition tournaments_query : query :=
  {| q_select := ["tournament_id"; "name"; "organizer"; "prize_pool"; "start_date";
                  "end_date"; "location"];
     q_from := ["tournaments"];
     q_order := [desc_nulls_last "start_date"; asc "name"] |}.

Definition list_tournaments : M unit :=
  let* rows := call (fetch_all (Select tournaments_query)) in
  print_rows ["ID"; "Name"; "Organizer"; "Prize"; "Start"; "End"; "Location"] rows.

Definition create_tournament : M unit :=
  let* name := prompt_str "Tournament name" false in
  let* organizer := prompt_str "Organizer (blank to skip)" true in
  let* prize_in := prompt_decimal "Prize pool (blank for 0)" true in
  let prize := if truthy (odec prize_in) then odec prize_in else VDecimal decimal_zero in
  let* start := prompt_date "Start date" true in
  let* end_ := prompt_date "End date" true in
  let* location := prompt_str "Location (blank to skip)" true in
  try_ (let* tournament_id := call (execute_returning
          (Insert "tournaments"
             ["name"; "organizer"; "prize_pool"; "start_date"; "end_date"; "location"]
             [ostr name; ostr organizer; prize; ostr start; ostr end_; ostr location]
             "tournament_id")) in
        print ("Created tournament with id " +:+ str_value tournament_id +:+ "."))
       (print_error "Creating tournament").

Definition update_tournament_with (tournament_id : Z) (new_name new_org : option string)
    (new_prize : option decimal) (new_start new_end new_loc : option string) : M unit :=
  let updates := [] in
  let updates := put_if "name" (ostr new_name) updates in
  let updates := put_if "organizer" (ostr new_org) updates in
  let updates := put_if "prize_pool" (odec new_prize) updates in
  let updates := put_if "start_date" (ostr new_start) updates in
  let updates := put_if "end_date" (ostr new_end) updates in
  let updates := put_if "location" (ostr new_loc) updates in
  send_updates "tournaments" "tournament_id" tournament_id updates
    "Tournament updated." "Updating tournament".

Definition update_tournament : M unit :=
  let* _ := list_tournaments in
  let* tournament_id := prompt_int "Enter tournament ID to update" false in
  match tournament_id with
  | None => ret tt
  | Some tournament_id =>
      let* new_name := prompt_str "New name (blank to keep)" true in
      let* new_org := prompt_str "New organizer (blank to keep)" true in
      let* new_prize := prompt_decimal "New prize pool (blank to keep)" true in
      let* new_start := prompt_date "New start date (blank to keep)" true in
      let* new_end := prompt_date "New end date (blank to keep)" true in
      let* new_loc := prompt_str "New location (blank to keep)" true in
      update_tournament_with tournament_id new_name new_org new_prize new_start new_end new_loc
  end.

Definition delete_tournament_with (tournament_id : Z) : M unit :=
  send_delete "tournaments" "tournament_id" tournament_id
    "Tournament deleted (if it existed)." "Deleting tournament".

Definition delete_tournament : M unit :=
  let* _ := list_tournaments in
  let* tournament_id := prompt_int "Enter tournament ID to delete" false in
  match tournament_id with
  | None => ret tt
  | Some tournament_id => delete_tournament_with tournament_id
  end.

(** *** Maps *)

Definition maps_query : query :=
  {| q_select := ["map_id"; "map_name"];
     q_from := ["maps"];
     q_order := [asc "map_name"] |}.

Definition list_maps : M unit :=
  let* rows := call (fetch_all (Select maps_query)) in
  print_rows ["ID"; "Map"] rows.

Definition create_map : M unit :=
  let* name := prompt_str "Map name" false in
  try_ (let* map_id := call (execute_returning
          (Insert "maps" ["map_name"] [ostr name] "map_id")) in
        print ("Created map with id " +:+ str_value map_id +:+ "."))
       (print_error "Creating map").

Definition update_map_with (map_id : Z) (new_name : option string) : M unit :=
  match new_name with
  | None => print "No changes provided."
  | Some new_name =>
      try_ (let* _ := call (execute (Update "maps" [("map_name", VStr new_name)] "map_id" (VInt map_id))) in
            print "Map updated.")
           (print_error "Updating map")
  end.

Definition update_map : M unit :=
  let* _ := list_maps in
  let* map_id := prompt_int "Enter map ID to update" false in
  match map_id with
  | None => ret tt
  | Some map_id =>
      let* new_name := prompt_str "New map name (blank to keep)" true in
      update_map_with map_id new_name
  end.

Definition delete_map_with (map_id : Z) : M unit :=
  send_delete "maps" "map_id" map_id "Map deleted (if it existed)." "Deleting map".

Definition delete_map : M unit :=
  let* _ := list_maps in
  let* map_id := prompt_int "Enter map ID to delete" false in
  match map_id with
  | None => ret tt
  | Some map_id => delete_map_with map_id
  end.

(** *** Matches *)

Definition matches_query : query :=
  {| q_select := ["m.match_id"; "t.name AS tournament"; "tm1.team_name AS team1";
                  "tm2.team_name AS team2"; "COALESCE(tmw.team_name, 'TBD') AS winner";
                  "COALESCE(mp.map_name, '-') AS map"; "m.match_date"; "m.best_of";
                  "m.team1_score"; "m.team2_score"];
     q_from := ["matches m";
                "JOIN tournaments t ON m.tournament_id = t.tournament_id";
                "JOIN teams tm1 ON m.team1_id = tm1.team_id";
                "JOIN teams tm2 ON m.team2_id = tm2.team_id";
                "LEFT JOIN teams tmw ON m.winner_team_id = tmw.team_id";
                "LEFT JOIN maps mp ON m.map_id = mp.map_id"];
     q_order := [asc_nulls_last "m.match_date"; asc "m.match_id"] |}.

Definition list_matches : M unit :=
  let* rows := call (fetch_all (Select matches_query)) in
  print_rows ["ID"; "Tournament"; "Team1"; "Team2"; "Winner"; "Map"; "Date"; "BO"; "T1"; "T2"]
    rows.

(** [x or d] for an optional integer. *)
Definition or_int (o : option Z) (d : Z) : Z :=
  if truthy (oint o) then default d o else d.

Definition create_match : M unit :=
  let* tournament_id := prompt_int "Tournament ID" false in
  let* team1_id := prompt_int "Team 1 ID" false in
  let* team2_id := prompt_int "Team 2 ID" false in
  let* winner_id := prompt_int "Winner team ID (blank if undecided)" true in
  let* map_id := prompt_int "Map ID (blank to skip)" true in
  let* match_date := prompt_date "Match date" true in
  let* best_of_in := prompt_int "Best of (default 1, blank to skip)" true in
  let best_of := or_int best_of_in 1 in
  let* team1_score_in := prompt_int "Team 1 score (default 0, blank to skip)" true in
  let team1_score := or_int team1_score_in 0 in
  let* team2_score_in := prompt_int "Team 2 score (default 0, blank to skip)" true in
  let team2_score := or_int team2_score_in 0 in
  try_ (let* match_id := call (execute_returning
          (ValidateAndInsertMatch
             [oint tournament_id; oint team1_id; oint team2_id; oint winner_id; oint map_id;
              ostr match_date; VInt best_of; VInt team1_score; VInt team2_score])) in
        print ("Created match with id " +:+ str_value match_id +:+ "."))
       (print_error "Creating match").

Definition update_match_with (match_id : Z)
    (tournament_id team1_id team2_id winner_team_id map_id : option Z)
    (match_date : option string) (best_of team1_score team2_score : option Z) : M unit :=
  let fields :=
    [("tournament_id", oint tournament_id);
     ("team1_id", oint team1_id);
     ("team2_id", oint team2_id);
     ("winner_team_id", oint winner_team_id);
     ("map_id", oint map_id);
     ("match_date", ostr match_date);
     ("best_of", oint best_of);
     ("team1_score", oint team1_score);
     ("team2_score", oint team2_score)] in
  let updates := not_none fields in
  send_updates "matches" "match_id" match_id updates "Match updated." "Updating match".

Definition update_match : M unit :=
  let* _ := list_matches in
  let* match_id := prompt_int "Enter match ID to update" false in
  match match_id with
  | None => ret tt
  | Some match_id =>
      let* tournament_id := prompt_int "New tournament ID (blank to keep)" true in
      let* team1_id := prompt_int "New team1 ID (blank to keep)" true in
      let* team2_id := prompt_int "New team2 ID (blank to keep)" true in
      let* winner_team_id := prompt_int "New winner team ID (blank to keep)" true in
      let* map_id := prompt_int "New map ID (blank to keep)" true in
      let* match_date := prompt_date "New match date (blank to keep)" true in
      let* best_of := prompt_int "New best of (blank to keep)" true in
      let* team1_score := prompt_int "New team1 score (blank to keep)" true in
      let* team2_score := prompt_int "New team2 score (blank to keep)" true in
      update_match_with match_id tournament_id team1_id team2_id winner_team_id map_id
        match_date best_of team1_score team2_score
  end.

Definition delete_match_with (match_id : Z) : M unit :=
  send_delete "matches" "match_id" match_id "Match deleted (if it existed)." "Deleting match".

Definition delete_match : M unit :=
  let* _ := list_matches in
  let* match_id := prompt_int "Enter match ID to delete" false in
  match match_id with
  | None => ret tt
  | Some match_id => delete_match_with match_id
  end.

(** *** Tournament results *)

Definition results_query : query :=
  {| q_select := ["r.result_id"; "t.name AS tournament"; "tm.team_name"; "r.placement";
                  "r.earnings"];
     q_from := ["tournament_results r";
                "JOIN tournaments t ON r.tournament_id = t.tournament_id";
                "JOIN teams tm ON r.team_id = tm.team_id"];
     q_order := [asc_nulls_last "t.start_date"; asc "r.placement"] |}.

Definition list_results : M unit :=
  let* rows := call (fetch_all (Select results_query)) in
  print_rows ["ID"; "Tournament"; "Team"; "Place"; "Earnings"] rows.

Definition create_result : M unit :=
  let* tournament_id := prompt_int "Tournament ID" false in
  let* team_id := prompt_int "Team ID" false in
  let* placement := prompt_int "Placement (1 = winner)" false in
  let* earnings_in := prompt_decimal "Earnings (blank for 0)" true in
  let earnings :=
    if truthy (odec earnings_in) then odec earnings_in else VDecimal decimal_zero in
  try_ (let* result_id := call (execute_returning
          (Insert "tournament_results" ["tournament_id"; "team_id"; "placement"; "earnings"]
             [oint tournament_id; oint team_id; oint placement; earnings] "result_id")) in
        print ("Created tournament result with id " +:+ str_value result_id +:+ "."))
       (print_error "Creating result").

Definition update_result_with (result_id : Z) (new_tournament new_team new_place : option Z)
    (new_earnings : option decimal) : M unit :=
  let updates := [] in
  let updates := put_if "tournament_id" (oint new_tournament) updates in
  let updates := put_if "team_id" (oint new_team) updates in
  let updates := put_if "placement" (oint new_place) updates in
  let updates := put_if "earnings" (odec new_earnings) updates in
  send_updates "tournament_results" "result_id" result_id updates
    "Tournament result updated." "Updating result".

Definition update_result : M unit :=
  let* _ := list_results in
  let* result_id := prompt_int "Enter result ID to update" false in
  match result_id with
  | None => ret tt
  | Some result_id =>
      let* new_tournament := prompt_int "New tournament ID (blank to keep)" true in
      let* new_team := prompt_int "New team ID (blank to keep)" true in
      let* new_place := prompt_int "New placement (blank to keep)" true in
      let* new_earnings := prompt_decimal "New earnings (blank to keep)" true in
      update_result_with result_id new_tournament new_team new_place new_earnings
  end.

Definition delete_result_with (result_id : Z) : M unit :=
  send_delete "tournament_results" "result_id" result_id
    "Result deleted (if it existed)." "Deleting result".

Definition delete_result : M unit :=
  let* _ := list_results in
  let* result_id := prompt_int "Enter result ID to delete" false in
  match result_id with
  | None => ret tt
  | Some result_id => delete_result_with result_id
  end.

(** *** Roster *)

Definition roster_query : query :=
  {| q_select := ["r.roster_id"; "tm.team_name"; "p.player_name"; "r.is_active"];
     q_from := ["team_roster r";
                "JOIN teams tm ON r.team_id = tm.team_id";
                "JOIN players p ON r.player_id = p.player_id"];
     q_order := [asc "tm.team_name"; asc "p.player_name"] |}.

Definition list_roster : M unit :=
  let* rows := call (fetch_all (Select roster_query)) in
  print_rows ["ID"; "Team"; "Player"; "Active"] rows.

Definition add_to_roster : M unit :=
  let* team_id := prompt_int "Team ID" false in
  let* player_id := prompt_int "Player ID" false in
  let* is_active := prompt_str "Active? (y/n, default y)" true in
  let active_bool :=
    match is_active with
    | None => true
    | Some s => startswith (Py.lower s) "y"
    end in
  try_ (let* roster_id := call (execute_returning
          (Insert "team_roster" ["team_id"; "player_id"; "is_active"]
             [oint team_id; oint player_id; VBool active_bool] "roster_id")) in
        print ("Added roster entry id " +:+ str_value roster_id +:+ "."))
       (print_error "Adding to roster").

Definition toggle_roster : M unit :=
  let* _ := list_roster in
  let* roster_id := prompt_int "Roster ID to toggle" false in
  match roster_id with
  | None => ret tt
  | Some roster_id =>
      try_ (let* _ := call (execute (ToggleActive "team_roster" "roster_id" (VInt roster_id))) in
            print "Toggled roster active state.")
           (print_error "Toggling roster")
  end.

Definition remove_from_roster_with (roster_id : Z) : M unit :=
  send_delete "team_roster" "roster_id" roster_id
    "Roster entry deleted (if it existed)." "Deleting roster entry".

Definition remove_from_roster : M unit :=
  let* _ := list_roster in
  let* roster_id := prompt_int "Roster ID to delete" false in
  match roster_id with
  | None => ret tt
  | Some roster_id => remove_from_roster_with roster_id
  end.

End Console.

End Cli.

(** ** gui.py *)

Module Gui.
Import Py Sql Db Eff.

Inductive dialog :=
| ShowError (msg : string)
| ShowInfo (msg : string)
| AskYesNo (msg : string).

(** A CRUD tab and what surrounds it: the rows of its Treeview, the
    values of the selected row, the status line, its form widgets [W],
    the store, the message boxes shown so far, and the answer the user
    gives to a confirmation. *)
Record ui (W : Type) := {
  tree : list tuple;
  selection : option tuple;
  status_var : string;
  widgets : W;
  database : db;
  dialogs : list dialog;
  confirm : bool
}.
Arguments tree {W}. Arguments selection {W}. Arguments status_var {W}.
Arguments widgets {W}. Arguments database {W}. Arguments dialogs {W}.
Arguments confirm {W}.

Abbreviation G W := (eff (ui W)).

Definition friendly_error (err : exn) : string :=
  let msg := str_exn err in
  let lower := Py.lower msg in
  if str_in "team_region_chk" lower then "region is required for a team"
  else if str_in "team_name" lower && str_in "already exists" lower then
    "team name must be unique"
  else if str_in "player_name_chk" lower then "player name is required"
  else if str_in "different_teams_chk" lower then "team1 and team2 must be different"
  else if str_in "winner_valid_chk" lower then "winner must be one of the two teams"
  else if str_in "active players" lower && str_in "5" lower then
    "roster cap is 5 active players"
  else split_head (String LF EmptyString) msg.

(** [not s.strip()] *)
Definition blank (s : string) : bool := String.eqb (strip s) "".

(** [s or None] *)
Definition str_or_none (s : string) : value :=
  if String.eqb s "" then VNone else VStr s.

(** [a or b] *)
Definition or_value (a b : value) : value := if truthy a then a else b.

(** [f"{row[0]} - {row[1]}"] *)
Definition option_text `{Lib} (r : tuple) : string :=
  str_value (default VNone (r !! 0%nat)) +:+ " - " +:+ str_value (default VNone (r !! 1%nat)).

Definition combo_values `{Lib} (options : list tuple) : list string :=
  "" :: map option_text options.

Section Parsing.
Context `{Lib}.

Definition parse_int (value : option string) : exn + option Z :=
  match value with
  | None => inr None
  | Some EmptyString => inr None
  | Some s =>
      match Py.int s with
      | Some n => inr (Some n)
      | None => inl (ValueError ("invalid literal for int() with base 10: " +:+ repr s))
      end
  end.

Definition parse_decimal (value : option string) : exn + option decimal :=
  match value with
  | None => inr None
  | Some EmptyString => inr None
  | Some s =>
      match Decimal s with
      | Some d => inr (Some d)
      | None => inl (ValueError "Invalid decimal")
      end
  end.

Definition parse_date (value : option string) : exn + option date :=
  match value with
  | None => inr None
  | Some EmptyString => inr None
  | Some s =>
      match strptime_ymd s with
      | Some d => inr (Some d)
      | None => inl (ValueError "Use YYYY-MM-DD")
      end
  end.

Definition parse_combo_id (value : option string) : exn + option Z :=
  match value with
  | None => inr None
  | Some EmptyString => inr None
  | Some s =>
      match Py.int (split_head " - " s) with
      | Some n => inr (Some n)
      | None => inl (ValueError "Pick a value from the dropdown")
      end
  end.

Definition odate (o : option date) : value :=
  match o with Some d => VDate d | None => VNone end.

(** [parse_decimal(x) or Decimal("0")] *)
Definition dec_or_zero (o : option decimal) : value :=
  if truthy (odec o) then odec o else VDecimal decimal_zero.

(** [parse_int(x) or d] *)
Definition int_or (o : option Z) (d : Z) : value :=
  if truthy (oint o) then oint o else VInt d.

End Parsing.

(** *** BaseCrudFrame *)

Section Base.
Context `{Lib} `{Backend} {W : Type}.

Definition get_widgets : G W W := fun u => (inr (widgets u), u).

Definition set_widgets (w : W) : G W unit :=
  fun u => (inr tt, {| tree := tree u; selection := selection u; status_var := status_var u;
                       widgets := w; database := database u; dialogs := dialogs u;
                       confirm := confirm u |}).

Definition get_selected_id : G W value :=
  fun u => (inr match selection u with
                | Some (v :: _) => v
                | _ => VNone
                end, u).

Definition get_selected_values : G W (option tuple) :=
  fun u => (inr (selection u), u).

Definition set_selection (sel : option tuple) : G W unit :=
  fun u => (inr tt, {| tree := tree u; selection := sel; status_var := status_var u;
                       widgets := widgets u; database := database u; dialogs := dialogs u;
                       confirm := confirm u |}).

(** Replacing the rows of the Treeview drops the selection. *)
Definition set_tree (rows : list tuple) : G W unit :=
  fun u => (inr tt, {| tree := rows; selection := None; status_var := status_var u;
                       widgets := widgets u; database := database u; dialogs := dialogs u;
                       confirm := confirm u |}).

Definition set_status (msg : string) : G W unit :=
  fun u => (inr tt, {| tree := tree u; selection := selection u; status_var := msg;
                       widgets := widgets u; database := database u; dialogs := dialogs u;
                       confirm := confirm u |}).

Definition show (d : dialog) : G W unit :=
  fun u => (inr tt, {| tree := tree u; selection := selection u; status_var := status_var u;
                       widgets := widgets u; database := database u;
                       dialogs := dialogs u ++ [d]; confirm := confirm u |}).

Definition askyesno (msg : string) : G W bool :=
  fun u => (inr (confirm u),
            {| tree := tree u; selection := selection u; status_var := status_var u;
               widgets := widgets u; database := database u;
               dialogs := dialogs u ++ [AskYesNo msg]; confirm := confirm u |}).

Definition error (msg : string) : G W unit :=
  let* _ := show (ShowError (friendly_error (Exception msg))) in
  set_status msg.

Definition call {A} (f : db -> (exn + A) * db) : G W A :=
  fun u =>
    let '(r, d) := f (database u) in
    (r, {| tree := tree u; selection := selection u; status_var := status_var u;
           widgets := widgets u; database := d; dialogs := dialogs u;
           confirm := confirm u |}).

(** The body shared by the [delete] methods. *)
Definition delete_selected (what tbl key_col : string) (refresh clear_form : G W unit)
    : G W unit :=
  let* id := get_selected_id in
  if negb (truthy id) then error ("Select a " +:+ what +:+ " to delete")
  else
    let* yes := askyesno ("Delete selected " +:+ what +:+ "?") in
    if negb yes then ret tt
    else
      try_ (let* _ := call (execute (Delete tbl key_col id)) in
            let* _ := refresh in
            let* _ := clear_form in
            set_status ("Deleted " +:+ what +:+ " " +:+ str_value id))
           (fun e => error (str_exn e)).

End Base.

(** The queries that fill the dropdowns. *)
Definition team_options_query : query :=
  {| q_select := ["team_id"; "team_name"];
     q_from := ["teams"];
     q_order := [asc "team_name"] |}.

Definition tournament_options_query : query :=
  {| q_select := ["tournament_id"; "name"];
     q_from := ["tournaments"];
     q_order := [desc_nulls_last "start_date"; asc "name"] |}.

Definition map_options_query : query :=
  {| q_select := ["map_id"; "map_name"];
     q_from := ["maps"];
     q_order := [asc "map_name"] |}.

(** *** TeamsFrame *)

Module TeamsFrame.

Record form := { name : string; region : string; founded : string }.

Section Methods.
Context `{Lib} `{Backend}.

Definition teams_query : query :=
  {| q_select := ["team_id"; "team_name"; "region";
                  "COALESCE(founded_year::text, '-')"];
     q_from := ["teams"];
     q_order := [asc "team_name"] |}.

Definition refresh : G form unit :=
  let* rows := call (fetch_all (Select teams_query)) in
  let* _ := set_tree rows in
  set_status "Loaded teams".

Definition clear_form : G form unit :=
  let* _ := set_widgets {| name := ""; region := ""; founded := "" |} in
  let* _ := set_selection None in
  set_status "Form cleared".

Definition create : G form unit :=
  let* f := get_widgets in
  if blank (name f) || blank (region f) then error "team name and region are required"
  else
    try_ (let* founded_year := lift (parse_int (Some (founded f))) in
          let* team_id := call (execute_returning
            (Insert "teams" ["team_name"; "region"; "founded_year"]
               [VStr (name f); VStr (region f); oint founded_year] "team_id")) in
          let* _ := show (ShowInfo ("Created team " +:+ str_value team_id)) in
          let* _ := refresh in
          let* _ := set_status ("Created team " +:+ str_value team_id) in
          clear_form)
         (fun e => error (str_exn e)).

Definition update : G form unit :=
  let* team_id := get_selected_id in
  if negb (truthy team_id) then error "Select a team to update"
  else
    let* f := get_widgets in
    if negb (existsb (fun field => negb (blank field)) [name f; region f; founded f])
    then error "Enter at least one field to update"
    else
      let* sel := get_selected_values in
      let current := default [] sel in
      let name_val :=
        or_value (VStr (strip (name f))) (default (VStr "") (current !! 1%nat)) in
      let region_val :=
        or_value (VStr (strip (region f))) (default (VStr "") (current !! 2%nat)) in
      if negb (truthy name_val) || negb (truthy region_val)
      then error "team name and region are required"
      else
        try_ (let* founded_year :=
                if negb (blank (founded f))
                then let* n := lift (parse_int (Some (founded f))) in ret (oint n)
                else ret (default VNone (current !! 3%nat)) in
              let* _ := call (execute
                (Update "teams"
                   [("team_name", name_val); ("region", region_val);
                    ("founded_year", founded_year)]
                   "team_id" team_id)) in
              let* _ := refresh in
              set_status ("Updated team " +:+ str_value team_id))
             (fun e => error (str_exn e)).

Definition delete : G form unit :=
  delete_selected "team" "teams" "team_id" refresh clear_form.

End Methods.

End TeamsFrame.

(** *** PlayersFrame *)

Module PlayersFrame.

Record form := {
  entries : string * string * string;
  team_combo : string;
  team_values : list string
}.

Section Methods.
Context `{Lib} `{Backend}.

Definition players_query : query :=
  {| q_select := ["p.player_id"; "p.player_name"; "COALESCE(p.country,'-')";
                  "COALESCE(p.role,'-')"; "COALESCE(t.team_name,'Free Agent')"];
     q_from := ["players p"; "LEFT JOIN teams t ON p.team_id = t.team_id"];
     q_order := [asc "p.player_name"] |}.

Definition refresh : G form unit :=
  let* rows := call (fetch_all (Select players_query)) in
  let* _ := set_tree rows in
  let* team_options := call (fetch_all (Select team_options_query)) in
  let* f := get_widgets in
  let* _ := set_widgets {| entries := entries f; team_combo := team_combo f;
                           team_values := combo_values team_options |} in
  set_status "Loaded players".

Definition clear_form : G form unit :=
  let* f := get_widgets in
  let* _ := set_widgets {| entries := ("", "", ""); team_combo := "";
                           team_values := team_values f |} in
  let* _ := set_selection None in
  set_status "Form cleared".

Definition create : G form unit :=
  let* f := get_widgets in
  let '(name, country, role) := entries f in
  let team := team_combo f in
  if blank name then error "player name is required"
  else
    try_ (let* team_id := lift (parse_combo_id (Some team)) in
          let* player_id := call (execute_returning
            (Insert "players" ["player_name"; "country"; "role"; "team_id"]
               [VStr name; str_or_none country; str_or_none role; oint team_id]
               "player_id")) in
          let* _ := show (ShowInfo ("Created player " +:+ str_value player_id)) in
          let* _ := refresh in
          let* _ := set_status ("Created player " +:+ str_value player_id) in
          clear_form)
         (fun e => error (str_exn e)).

Definition update : G form unit :=
  let* player_id := get_selected_id in
  if negb (truthy player_id) then error "Select a player to update"
  else
    let* f := get_widgets in
    let '(name, country, role) := entries f in
    let team := team_combo f in
    if negb (existsb (fun field => negb (blank field)) [name; country; role; team])
    then error "Enter at least one field to update"
    else
      let* sel := get_selected_values in
      let current := default [] sel in
      let name_val := or_value (VStr (strip name)) (default (VStr "") (current !! 1%nat)) in
      if negb (truthy name_val) then error "player name is required"
      else
        try_ (let* team_id := lift (parse_combo_id (Some team)) in
              let* _ := call (execute
                (Update "players"
                   [("player_name", name_val); ("country", str_or_none country);
                    ("role", str_or_none role); ("team_id", oint team_id)]
                   "player_id" player_id)) in
              let* _ := refresh in
              set_status ("Updated player " +:+ str_value player_id))
             (fun e => error (str_exn e)).

Definition delete : G form unit :=
  delete_selected "player" "players" "player_id" refresh clear_form.

End Methods.

End PlayersFrame.

(** *** TournamentsFrame *)

Module TournamentsFrame.

Record form := { entries : string * string * string * string * string * string }.

Section Methods.
Context `{Lib} `{Backend}.

Definition tournaments_query : query :=
  {| q_select := ["tournament_id"; "name"; "organizer"; "prize_pool"; "start_date";
                  "end_date"; "location"];
     q_from := ["tournaments"];
     q_order := [desc_nulls_last "start_date"; asc "name"] |}.

Definition refresh : G form unit :=
  let* rows := call (fetch_all (Select tournaments_query)) in
  let* _ := set_tree rows in
  set_status "Loaded tournaments".

Definition clear_form : G form unit :=
  let* _ := set_widgets {| entries := ("", "", "", "", "", "") |} in
  let* _ := set_selection None in
  set_status "Form cleared".

Definition create : G form unit :=
  let* f := get_widgets in
  let '(name, org, prize, start, end_, loc) := entries f in
  if blank name then error "tournament name is required"
  else
    try_ (let* prize_in := lift (parse_decimal (Some prize)) in
          let prize_val := dec_or_zero prize_in in
          let* start_date := lift (parse_date (Some start)) in
          let* end_date := lift (parse_date (Some end_)) in
          let* tid := call (execute_returning
            (Insert "tournaments"
               ["name"; "organizer"; "prize_pool"; "start_date"; "end_date"; "location"]
               [VStr name; str_or_none org; prize_val; odate start_date; odate end_date;
                str_or_none loc]
               "tournament_id")) in
          let* _ := show (ShowInfo ("Created tournament " +:+ str_value tid)) in
          let* _ := refresh in
          let* _ := set_status ("Created tournament " +:+ str_value tid) in
          clear_form)
         (fun e => error (str_exn e)).

Definition update : G form unit :=
  let* tid := get_selected_id in
  if negb (truthy tid) then error "Select a tournament to update"
  else
    let* f := get_widgets in
    let '(name, org, prize, start, end_, loc) := entries f in
    if negb (existsb (fun field => negb (blank field)) [name; org; prize; start; end_; loc])
    then error "Enter at least one field to update"
    else
      let* sel := get_selected_values in
      let current := default [] sel in
      let name_val := or_value (VStr (strip name)) (default (VStr "") (current !! 1%nat)) in
      if negb (truthy name_val) then error "tournament name is required"
      else
        try_ (let* prize_in := lift (parse_decimal (Some prize)) in
              let prize_val := dec_or_zero prize_in in
              let* start_date := lift (parse_date (Some start)) in
              let* end_date := lift (parse_date (Some end_)) in
              let* _ := call (execute
                (Update "tournaments"
                   [("name", name_val); ("organizer", str_or_none org);
                    ("prize_pool", prize_val); ("start_date", odate start_date);
                    ("end_date", odate end_date); ("location", str_or_none loc)]
                   "tournament_id" tid)) in
              let* _ := refresh in
              set_status ("Updated tournament " +:+ str_value tid))
             (fun e => error (str_exn e)).

Definition delete : G form unit :=
  delete_selected "tournament" "tournaments" "tournament_id" refresh clear_form.

End Methods.

End TournamentsFrame.

(** *** MatchesFrame *)

Module MatchesFrame.

Record form := {
  tournament_cb : string;
  team1_cb : string;
  team2_cb : string;
  winner_cb : string;
  map_cb : string;
  entries : string * string * string * string;
  tournament_values : list string;
  team_values : list string;
  map_values : list string
}.

Section Methods.
Context `{Lib} `{Backend}.

Definition matches_query : query :=
  {| q_select := ["m.match_id"; "t.name AS tournament"; "tm1.team_name AS team1";
                  "tm2.team_name AS team2"; "COALESCE(tmw.team_name, 'TBD') AS winner";
                  "COALESCE(mp.map_name, '-') AS map"; "m.match_date"; "m.best_of";
                  "m.team1_score"; "m.team2_score"];
     q_from := ["matches m";
                "JOIN tournaments t ON m.tournament_id = t.tournament_id";
                "JOIN teams tm1 ON m.team1_id = tm1.team_id";
                "JOIN teams tm2 ON m.team2_id = tm2.team_id";
                "LEFT JOIN teams tmw ON m.winner_team_id = tmw.team_id";
                "LEFT JOIN maps mp ON m.map_id = mp.map_id"];
     q_order := [asc_nulls_last "m.match_date"; asc "m.match_id"] |}.

Definition refresh : G form unit :=
  let* rows := call (fetch_all (Select matches_query)) in
  let* _ := set_tree rows in
  let* tournament_options := call (fetch_all (Select tournament_options_query)) in
  let* team_options := call (fetch_all (Select team_options_query)) in
  let* map_options := call (fetch_all (Select map_options_query)) in
  let* f := get_widgets in
  let* _ := set_widgets
    {| tournament_cb := tournament_cb f; team1_cb := team1_cb f; team2_cb := team2_cb f;
       winner_cb := winner_cb f; map_cb := map_cb f; entries := entries f;
       tournament_values := combo_values tournament_options;
       team_values := combo_values team_options;
       map_values := combo_values map_options |} in
  set_status "Loaded matches".

Definition clear_form : G form unit :=
  let* f := get_widgets in
  let* _ := set_widgets
    {| tournament_cb := ""; team1_cb := ""; team2_cb := ""; winner_cb := ""; map_cb := "";
       entries := ("", "", "", "");
       tournament_values := tournament_values f; team_values := team_values f;
       map_values := map_values f |} in
  let* _ := set_selection None in
  set_status "Form cleared".

Definition create : G form unit :=
  let* f := get_widgets in
  let '(date_val, best_of_val, t1_score, t2_score) := entries f in
  try_ (let* tid := lift (parse_combo_id (Some (tournament_cb f))) in
        let* team1 := lift (parse_combo_id (Some (team1_cb f))) in
        let* team2 := lift (parse_combo_id (Some (team2_cb f))) in
        match tid, team1, team2 with
        | Some _, Some _, Some _ =>
            let* winner := lift (parse_combo_id (Some (winner_cb f))) in
            let* map_id := lift (parse_combo_id (Some (map_cb f))) in
            let* match_date := lift (parse_date (Some date_val)) in
            let* best_of_in := lift (parse_int (Some best_of_val)) in
            let best_of := int_or best_of_in 1 in
            let* t1_in := lift (parse_int (Some t1_score)) in
            let t1s := int_or t1_in 0 in
            let* t2_in := lift (parse_int (Some t2_score)) in
            let t2s := int_or t2_in 0 in
            let* mid := call (execute_returning
              (ValidateAndInsertMatch
                 [oint tid; oint team1; oint team2; oint winner; oint map_id;
                  odate match_date; best_of; t1s; t2s])) in
            let* _ := show (ShowInfo ("Created match " +:+ str_value mid)) in
            let* _ := refresh in
            let* _ := set_status ("Created match " +:+ str_value mid) in
            clear_form
        | _, _, _ => error "tournament and both teams are required"
        end)
       (fun e => error (str_exn e)).

Definition update : G form unit :=
  let* mid := get_selected_id in
  if negb (truthy mid) then error "Select a match to update"
  else
    let* f := get_widgets in
    let '(date_val, best_of_val, t1_score, t2_score) := entries f in
    let* tournament_id := lift (parse_combo_id (Some (tournament_cb f))) in
    let* team1_id := lift (parse_combo_id (Some (team1_cb f))) in
    let* team2_id := lift (parse_combo_id (Some (team2_cb f))) in
    let* winner_team_id := lift (parse_combo_id (Some (winner_cb f))) in
    let* map_id := lift (parse_combo_id (Some (map_cb f))) in
    let* match_date := lift (parse_date (Some date_val)) in
    let* best_of := lift (parse_int (Some best_of_val)) in
    let* team1_score := lift (parse_int (Some t1_score)) in
    let* team2_score := lift (parse_int (Some t2_score)) in
    let updates :=
      [("tournament_id", oint tournament_id);
       ("team1_id", oint team1_id);
       ("team2_id", oint team2_id);
       ("winner_team_id", oint winner_team_id);
       ("map_id", oint map_id);
       ("match_date", odate match_date);
       ("best_of", oint best_of);
       ("team1_score", oint team1_score);
       ("team2_score", oint team2_score)] in
    let updates := not_none updates in
    match updates with
    | [] => error "Enter at least one field to update"
    | _ =>
        try_ (let* _ := call (execute (Update "matches" updates "match_id" mid)) in
              let* _ := refresh in
              set_status ("Updated match " +:+ str_value mid))
             (fun e => error (str_exn e))
    end.

Definition delete : G form unit :=
  delete_selected "match" "matches" "match_id" refresh clear_form.

End Methods.

End MatchesFrame.

(** *** ResultsFrame *)

Module ResultsFrame.

Record form := {
  tournament_cb : string;
  team_cb : string;
  entries : string * string;
  tournament_values : list string;
  team_values : list string
}.

Section Methods.
Context `{Lib} `{Backend}.

Definition results_query : query :=
  {| q_select := ["r.result_id"; "t.name"; "tm.team_name"; "r.placement"; "r.earnings"];
     q_from := ["tournament_results r";
                "JOIN tournaments t ON r.tournament_id = t.tournament_id";
                "JOIN teams tm ON r.team_id = tm.team_id"];
     q_order := [desc_nulls_last "t.start_date"; asc "r.placement"] |}.

Definition refresh : G form unit :=
  let* rows := call (fetch_all (Select results_query)) in
  let* _ := set_tree rows in
  let* tournament_options := call (fetch_all (Select tournament_options_query)) in
  let* team_options := call (fetch_all (Select team_options_query)) in
  let* f := get_widgets in
  let* _ := set_widgets
    {| tournament_cb := tournament_cb f; team_cb := team_cb f; entries := entries f;
       tournament_values := combo_values tournament_options;
       team_values := combo_values team_options |} in
  set_status "Loaded results".

Definition clear_form : G form unit :=
  let* f := get_widgets in
  let* _ := set_widgets
    {| tournament_cb := ""; team_cb := ""; entries := ("", "");
       tournament_values := tournament_values f; team_values := team_values f |} in
  let* _ := set_selection None in
  set_status "Form cleared".

Definition create : G form unit :=
  let* f := get_widgets in
  let '(placement, earnings) := entries f in
  if blank (tournament_cb f) || blank (team_cb f) || blank placement
  then error "tournament, team, placement are required"
  else
    try_ (let* tid := lift (parse_combo_id (Some (tournament_cb f))) in
          let* team := lift (parse_combo_id (Some (team_cb f))) in
          let* placement_val := lift (parse_int (Some placement)) in
          let* earnings_in := lift (parse_decimal (Some earnings)) in
          let earnings_val := dec_or_zero earnings_in in
          let* rid := call (execute_returning
            (Insert "tournament_results"
               ["tournament_id"; "team_id"; "placement"; "earnings"]
               [oint tid; oint team; oint placement_val; earnings_val] "result_id")) in
          let* _ := show (ShowInfo ("Created result " +:+ str_value rid)) in
          let* _ := refresh in
          let* _ := set_status ("Created result " +:+ str_value rid) in
          clear_form)
         (fun e => error (str_exn e)).

Definition delete : G form unit :=
  delete_selected "result" "tournament_results" "result_id" refresh clear_form.

End Methods.

End ResultsFrame.

End Gui.

(** ** Vocabulary of the statements *)

Module Spec.
Import Py Sql Db.

(** Every character is a decimal digit. *)
Fixpoint is_digits (s : string) : bool :=
  match s with
  | EmptyString => true
  | String c s' => match digit_val c with Some _ => is_digits s' | None => false end
  end.

(** No character is white space. *)
Fixpoint no_space (s : string) : bool :=
  match s with
  | EmptyString => true
  | String c s' => negb (is_space c) && no_space s'
  end.

(** The number a string of digits denotes, continuing from [acc]. *)
Fixpoint eval_digits (s : string) (acc : Z) : Z :=
  match s with
  | EmptyString => acc
  | String c s' => eval_digits s' (10 * acc + default 0 (digit_val c))
  end.

(** The line feed as a separator. *)
Definition newline : string := String LF EmptyString.

(** The six signal patterns of the constraint translator, on the
    lower-cased message. *)
Definition sig_region (low : string) : bool := str_in "team_region_chk" low.
Definition sig_duplicate_name (low : string) : bool :=
  str_in "team_name" low && str_in "already exists" low.
Definition sig_player_name (low : string) : bool := str_in "player_name_chk" low.
Definition sig_different_teams (low : string) : bool := str_in "different_teams_chk" low.
Definition sig_winner (low : string) : bool := str_in "winner_valid_chk" low.
Definition sig_roster_cap (low : string) : bool :=
  str_in "active players" low && str_in "5" low.




(** The statements that change the store. *)
Definition is_write (q : stmt) : bool :=
  match q with Select _ => false | _ => true end.

Definition writes (l : list event) : list stmt :=
  List.filter is_write (statements l).

(** The cell of column [c] in the row with key [k] of table [tbl]. *)
Definition row_of (s : store) (tbl : string) (k : Z) : option row :=
  match s !! tbl with
  | Some t => t !! k
  | None => None
  end.

Definition cell (s : store) (tbl : string) (k : Z) (c : string) : option value :=
  match row_of s tbl k with
  | Some r => r !! c
  | None => None
  end.

(** No row with key [k] in table [tbl]. *)
Definition absent (s : store) (tbl : string) (k : Z) : Prop :=
  row_of s tbl k = None.

(** What a unit of work leaves behind when its statement [q] raised, and
    when it went through. *)
Definition rolled_back (q : stmt) (d : db) : db :=
  {| committed := committed d;
     log := log d ++ [EvConnect; EvExecute q; EvRollback; EvClose] |}.

Definition committed_once `{Backend} (q : stmt) (d : db) : db :=
  {| committed := (effect q (committed d)).2;
     log := log d ++ [EvConnect; EvExecute q; EvCommit; EvClose] |}.

(** The console after one more thing shown, with the store as [d]. *)
Definition said (w : Cli.world) (o : Cli.out) (d : db) : Cli.world :=
  {| Cli.stdin := Cli.stdin w; Cli.stdout := Cli.stdout w ++ [o]; Cli.database := d |}.

(** The console after a prompt [label] took one line, [rest] remaining. *)
Definition answered (w : Cli.world) (label : string) (rest : list string) : Cli.world :=
  {| Cli.stdin := rest; Cli.stdout := Cli.stdout w ++ [Cli.Ask (label +:+ ": ")];
     Cli.database := Cli.database w |}.

(** The console after the listing [q] went through and was printed. *)
Definition listed `{Backend} (q : query) (headers : list string) (w : Cli.world) : Cli.world :=
  let rows := (effect (Select q) (committed (Cli.database w))).1 in
  said w match rows with [] => Cli.Line "No rows." | _ => Cli.Rows headers rows end
       (committed_once (Select q) (Cli.database w)).

(** Code [m] over a state holding the store sends, besides reads, only
    statements that satisfy [P], and what it returns satisfies [Q]. *)
Definition yields {S A} (db_of : S -> db) (P : stmt -> Prop) (Q : A -> Prop)
    (m : Eff.eff S A) : Prop :=
  forall s,
    (exists l, writes (log (db_of (m s).2)) = writes (log (db_of s)) ++ l /\ Forall P l) /\
    (forall a, (m s).1 = inr a -> Q a).

Definition sends_only {S A} (db_of : S -> db) (P : stmt -> Prop) (m : Eff.eff S A) : Prop :=
  yields db_of P (fun _ => True) m.

(** Code [m] sends no write and leaves the committed contents alone. *)
Definition quiet {S A} (db_of : S -> db) (m : Eff.eff S A) : Prop :=
  forall s,
    writes (log (db_of (m s).2)) = writes (log (db_of s)) /\
    committed (db_of (m s).2) = committed (db_of s).

(** A required text parameter is there when it is text that is not blank,
    a required reference or number when it is an integer. *)
Definition present_str (v : value) : bool :=
  match v with VStr s => negb (Gui.blank s) | _ => false end.

Definition present_int (v : value) : bool :=
  match v with VInt _ => true | _ => false end.

(** The creating statement [q] carries every required field of its
    entity: team name and region; player, tournament and map name; the
    tournament and both teams of a match; tournament, team and placement
    of a result; team and player of a roster entry. *)
Definition required_present (q : stmt) : bool :=
  match q with
  | Insert tbl _ vals _ =>
      if String.eqb tbl "teams" then
        match vals with n :: r :: _ => present_str n && present_str r | _ => false end
      else if String.eqb tbl "players" || String.eqb tbl "tournaments" || String.eqb tbl "maps"
      then match vals with n :: _ => present_str n | _ => false end
      else if String.eqb tbl "tournament_results" then
        match vals with
        | t :: m :: p :: _ => present_int t && present_int m && present_int p
        | _ => false
        end
      else if String.eqb tbl "team_roster" then
        match vals with t :: p :: _ => present_int t && present_int p | _ => false end
      else false
  | ValidateAndInsertMatch (t :: a :: b :: _) =>
      present_int t && present_int a && present_int b
  | _ => false
  end.

(** A console delete function: asked for an id and given one, with the
    listing done, it goes on to delete that id. *)
Definition asks_then_deletes `{Backend} (f : Cli.world -> (exn + unit) * Cli.world)
    (q : query) (headers : list string) (label : string)
    (del : Z -> Cli.world -> (exn + unit) * Cli.world) : Prop :=
  forall w idl id rest,
    Cli.stdin w = idl :: rest ->
    Py.int (strip idl) = Some id ->
    rejects (Select q) (committed (Cli.database w)) = None ->
    f w = del id (answered (listed q headers w) label rest).

(** Deleting by id from the console: one DELETE keyed by the id is sent
    whatever the store holds; when no such row exists the call reports
    [done] and the store keeps its contents; and after a call that
    reported [done], the same call reports [done] again and changes
    nothing. *)
Definition deletes_idempotently (del : Z -> Cli.world -> (exn + unit) * Cli.world)
    (tbl key_col done : string) : Prop :=
  forall id w,
    let w1 := (del id w).2 in
    let w2 := (del id w1).2 in
    statements (log (Cli.database w1)) =
      statements (log (Cli.database w)) ++ [Delete tbl key_col (VInt id)] /\
    (absent (committed (Cli.database w)) tbl id ->
     Cli.stdout w1 = Cli.stdout w ++ [Cli.Line done] /\
     committed (Cli.database w1) = committed (Cli.database w)) /\
    (Cli.stdout w1 = Cli.stdout w ++ [Cli.Line done] ->
     Cli.stdout w2 = Cli.stdout w1 ++ [Cli.Line done] /\
     committed (Cli.database w2) = committed (Cli.database w1)).

(** Deleting the selected row in a tab, the user confirming: one DELETE
    keyed by the id is sent whatever the store holds; when no such row
    exists the tab reports "Deleted <what> <id>" with no error box and
    the store keeps its contents; and once the store has taken the
    DELETE the row is gone, so the same call falls under the previous
    case. *)
Definition deletes_selected `{Lib} `{Backend} {W} (delete : Gui.ui W -> (exn + unit) * Gui.ui W)
    (what tbl key_col : string) : Prop :=
  forall u id rest,
    Gui.selection u = Some (VInt id :: rest) -> id <> 0 -> Gui.confirm u = true ->
    let u1 := (delete u).2 in
    let asked := Gui.dialogs u ++ [Gui.AskYesNo ("Delete selected " +:+ what +:+ "?")] in
    writes (log (Gui.database u1)) =
      writes (log (Gui.database u)) ++ [Delete tbl key_col (VInt id)] /\
    (absent (committed (Gui.database u)) tbl id ->
     Gui.status_var u1 = "Deleted " +:+ what +:+ " " +:+ str_of_int id /\
     Gui.dialogs u1 = asked /\
     committed (Gui.database u1) = committed (Gui.database u)) /\
    (rejects (Delete tbl key_col (VInt id)) (committed (Gui.database u)) = None ->
     Gui.status_var u1 = "Deleted " +:+ what +:+ " " +:+ str_of_int id /\
     Gui.dialogs u1 = asked /\
     absent (committed (Gui.database u1)) tbl id).

(** A dropdown entry as the forms build it: the id, [" - "], the label. *)
Definition entry (id : Z) (label : string) : string :=
  str_of_int id +:+ " - " +:+ label.

(** A dropdown holds what it was filled with: nothing or an entry. *)
Definition offered (v : string) : Prop :=
  v = "" \/ exists id label, v = entry id label.


(** The window after an error box with [msg]. *)
Definition refused {W} (u : Gui.ui W) (msg : string) : Gui.ui W :=
  {| Gui.tree := Gui.tree u; Gui.selection := Gui.selection u; Gui.status_var := msg;
     Gui.widgets := Gui.widgets u; Gui.database := Gui.database u;
     Gui.dialogs := Gui.dialogs u ++ [Gui.ShowError msg]; Gui.confirm := Gui.confirm u |}.



(** The store does not object to a DELETE that matches no row, nor to
    a read. *)
Definition absent_deletes_pass `{Backend} : Prop :=
  forall tbl key_col k s, absent s tbl k -> rejects (Delete tbl key_col (VInt k)) s = None.

Definition reads_pass `{Backend} : Prop :=
  forall q s, rejects (Select q) s = None.

End Spec.

(** ** A small store to run the front ends against *)

Module Demo.
Import Py Sql Db.

(** Decimals are whole numbers here and no date is parsed. *)
Definition lib : Lib :=
  {| Decimal := fun s =>
       match Py.int s with
       | Some n => Some {| coef := n; expo := 0 |}
       | None => None
       end;
     strptime_ymd := fun _ => None;
     isoformat := fun d => str_of_int d.1.1 +:+ "-" +:+ str_of_int d.1.2 +:+ "-" +:+ str_of_int d.2;
     repr := fun s => "'" +:+ s +:+ "'" |}.

Definition field (s : store) (tbl : string) (k : value) (c : string) : value :=
  match k with
  | VInt k => default VNone (default ∅ (default ∅ (s !! tbl) !! k) !! c)
  | _ => VNone
  end.

(** Tournament results joined with their tournament and team. *)
Definition joined_result (s : store) (k : Z) (r : row) : row :=
  let t := default VNone (r !! "tournament_id") in
  let tm := default VNone (r !! "team_id") in
  list_to_map
    [("r.result_id", VInt k);
     ("r.placement", default VNone (r !! "placement"));
     ("r.earnings", default VNone (r !! "earnings"));
     ("t.name", field s "tournaments" t "name");
     ("t.start_date", field s "tournaments" t "start_date");
     ("tm.team_name", field s "teams" tm "team_name")].

Definition rows_of (s : store) (tbl : string) : list (Z * row) :=
  map_to_list (default ∅ (s !! tbl)).

Definition demo_relation (from : list string) (s : store) : list row :=
  match from with
  | [] => []
  | tbl :: _ =>
      if String.eqb tbl "tournament_results r"
      then map (fun kr => joined_result s kr.1 kr.2) (rows_of s "tournament_results")
      else map snd (rows_of s (split_head " " tbl))
  end.

Definition demo_project (sel : list string) (r : row) : tuple :=
  map (fun e => default VNone (r !! split_head " AS " e)) sel.

Definition references (s : store) (tbl col : string) (k : Z) : bool :=
  existsb (fun kr => bool_decide (kr.2 !! col = Some (VInt k))) (rows_of s tbl).

(** The store refuses a team without a region and the removal of a team
    that still has players. *)
Definition demo_rejects (q : stmt) (s : store) : option string :=
  match q with
  | Insert tbl _ (_ :: VStr region :: _) _ =>
      if String.eqb tbl "teams" && String.eqb (strip region) ""
      then Some "new row for relation teams violates check constraint team_region_chk"
      else None
  | Delete tbl _ (VInt k) =>
      if String.eqb tbl "teams" &&
         bool_decide (is_Some (default ∅ (s !! "teams") !! k)) &&
         references s "players" "team_id" k
      then Some "update or delete on table teams violates foreign key constraint players_team_id_fkey"
      else None
  | _ => None
  end.

Definition backend : Backend :=
  {| collate := String.compare;
     relation := demo_relation;
     project := demo_project;
     rejects := demo_rejects |}.

Definition table_of (rows : list (Z * list (string * value))) : table :=
  list_to_map (map (fun kr => (kr.1, list_to_map kr.2)) rows).

(** Two teams, one player, two tournaments a year apart, one result each. *)
Definition league : store :=
  list_to_map
    [("teams", table_of
        [(1, [("team_id", VInt 1); ("team_name", VStr "Alpha"); ("region", VStr "EU");
              ("founded_year", VInt 2020)]);
         (2, [("team_id", VInt 2); ("team_name", VStr "Beta"); ("region", VStr "EU");
              ("founded_year", VInt 2021)])]);
     ("players", table_of
        [(7, [("player_id", VInt 7); ("player_name", VStr "Ann"); ("country", VStr "SE");
              ("role", VStr "AWP"); ("team_id", VInt 1)])]);
     ("tournaments", table_of
        [(1, [("tournament_id", VInt 1); ("name", VStr "Spring Cup");
              ("start_date", VDate (2024, 3, 1))]);
         (2, [("tournament_id", VInt 2); ("name", VStr "Winter Cup");
              ("start_date", VDate (2025, 1, 10))])]);
     ("tournament_results", table_of
        [(1, [("result_id", VInt 1); ("tournament_id", VInt 1); ("team_id", VInt 1);
              ("placement", VInt 1); ("earnings", VDecimal {| coef := 500; expo := 0 |})]);
         (2, [("result_id", VInt 2); ("tournament_id", VInt 2); ("team_id", VInt 2);
              ("placement", VInt 1); ("earnings", VDecimal {| coef := 900; expo := 0 |})])])].

Definition fresh_db : db := {| committed := league; log := [] |}.

Definition console (lines : list string) : Cli.world :=
  {| Cli.stdin := lines; Cli.stdout := []; Cli.database := fresh_db |}.

Definition window {W} (w : W) (sel : option tuple) : Gui.ui W :=
  {| Gui.tree := []; Gui.selection := sel; Gui.status_var := ""; Gui.widgets := w;
     Gui.database := fresh_db; Gui.dialogs := []; Gui.confirm := true |}.

End Demo.

(** ** cli.py: the text of a table *)

Module Layout.
Import Py Sql.

Section Table.
(** [str(cell)], whatever text it gives a value. *)
Context (str : value -> string).

Definition len (s : string) : nat := String.length s.

(** [c * n] for a one-character string [c]. *)
Fixpoint times (c : ascii) (n : nat) : string :=
  match n with
  | O => EmptyString
  | S n' => String c (times c n')
  end.

(** [s.ljust(width)] *)
Definition ljust (s : string) (width : nat) : string :=
  s +:+ times " " (width - len s).

(** [sep.join(items)] *)
Fixpoint join (sep : string) (items : list string) : string :=
  match items with
  | [] => EmptyString
  | [x] => x
  | x :: rest => x +:+ sep +:+ join sep rest
  end.

(** [for i, cell in enumerate(row): widths[i] = max(widths[i], len(str(cell)))]
    from index [i] on; [None] is the IndexError of [widths[i]]. *)
Fixpoint widen (widths : list nat) (i : nat) (row : tuple) : option (list nat) :=
  match row with
  | [] => Some widths
  | cell :: row' =>
      match widths !! i with
      | Some w => widen (<[i := Nat.max w (len (str cell))]> widths) (S i) row'
      | None => None
      end
  end.

Fixpoint widen_all (widths : list nat) (rows : list tuple) : option (list nat) :=
  match rows with
  | [] => Some widths
  | row :: rows' =>
      match widen widths 0 row with
      | Some widths' => widen_all widths' rows'
      | None => None
      end
  end.

(** [t.ljust(widths[i]) for i, t in enumerate(texts)] from index [i] on. *)
Fixpoint justify (widths : list nat) (i : nat) (texts : list string) : option (list string) :=
  match texts with
  | [] => Some []
  | t :: texts' =>
      match widths !! i, justify widths (S i) texts' with
      | Some w, Some cells => Some (ljust t w :: cells)
      | _, _ => None
      end
  end.

Definition row_line (widths : list nat) (texts : list string) : option string :=
  match justify widths 0 texts with
  | Some cells => Some (join " | " cells)
  | None => None
  end.

Fixpoint row_lines (widths : list nat) (rows : list tuple) : option (list string) :=
  match rows with
  | [] => Some []
  | row :: rows' =>
      match row_line widths (map str row), row_lines widths rows' with
      | Some l, Some ls => Some (l :: ls)
      | _, _ => None
      end
  end.

(** The lines [print_rows] prints; [None] when it raises IndexError,
    which it can only do while it computes the widths, before it has
    printed anything. *)
Definition print_rows_lines (headers : list string) (rows : list tuple)
    : option (list string) :=
  match rows with
  | [] => Some ["No rows."]
  | _ =>
      match widen_all (map len headers) rows with
      | None => None
      | Some widths =>
          match row_line widths headers, row_lines widths rows with
          | Some line, Some body => Some (line :: times "-" (len line) :: body)
          | _, _ => None
          end
      end
  end.

End Table.


End Layout.

(** ** cli.py: the analysis queries and the menus *)

Module Menus.
Import Py Sql Db Eff Cli.

Definition desc (c : string) : order_key :=
  {| ok_col := c; ok_dir := Desc; ok_nulls := NullsDefault |}.

Definition earnings_query : query :=
  {| q_select := ["tm.team_name"; "SUM(r.earnings) AS total_earnings"];
     q_from := ["tournament_results r";
                "JOIN teams tm ON r.team_id = tm.team_id";
                "GROUP BY tm.team_name"];
     q_order := [desc "total_earnings"] |}.

Definition wins_query : query :=
  {| q_select := ["mp.map_name"; "COUNT(*) AS wins"];
     q_from := ["matches m";
                "JOIN maps mp ON m.map_id = mp.map_id";
                "WHERE m.winner_team_id IS NOT NULL";
                "GROUP BY mp.map_name"];
     q_order := [desc "wins"] |}.

Definition active_roster_query : query :=
  {| q_select := ["tm.team_name"; "COUNT(*) FILTER (WHERE r.is_active) AS active_players"];
     q_from := ["teams tm";
                "LEFT JOIN team_roster r ON tm.team_id = r.team_id AND r.is_active";
                "GROUP BY tm.team_name"];
     q_order := [asc "tm.team_name"] |}.

Definition team_summary_sql : query :=
  {| q_select := ["team_name"; "matches_played"; "wins"; "total_earnings"];
     q_from := ["team_summary()"];
     q_order := [asc "team_name"] |}.

(** A loop run for at most [fuel] rounds: [None] when it is still
    running after them. *)
Definition partial (A : Type) : Type := world -> option ((exn + A) * world).

(** What a menu entry calls, given the rounds left. *)
Definition action : Type := nat -> partial unit.

Definition within {A} (m : M A) : partial A := fun w => Some (m w).

Definition total (m : M unit) : action := fun _ => within m.

Definition then_ {A B} (m : partial A) (k : A -> partial B) : partial B :=
  fun w =>
    match m w with
    | None => None
    | Some (inl e, w') => Some (inl e, w')
    | Some (inr a, w') => k a w'
    end.

(** An [options] dictionary: key, label and function, in the order
    written. *)
Definition menu : Type := list (string * (string * action)).

(** [options[choice]] when [choice in options]. *)
Fixpoint find (choice : string) (options : menu) : option action :=
  match options with
  | [] => None
  | (key, (_, func)) :: rest =>
      if String.eqb choice key then Some func else find choice rest
  end.

Section Console.
Context `{Lib} `{Backend}.

(** [input(prompt)]: the prompt is written, then a line is read;
    EOFError when none is left. *)
Definition input (prompt : string) : M string :=
  fun w =>
    let o := stdout w ++ [Ask prompt] in
    match stdin w with
    | [] => (inl EOFError, {| stdin := []; stdout := o; database := database w |})
    | l :: rest => (inr l, {| stdin := rest; stdout := o; database := database w |})
    end.

(** [for key, (label, _) in options.items(): print(f"{key}) {label}")] *)
Fixpoint print_options (options : menu) : M unit :=
  match options with
  | [] => ret tt
  | (key, (label, _)) :: rest =>
      let* _ := print (key +:+ ") " +:+ label) in
      print_options rest
  end.

Definition earnings_by_team : M unit :=
  let* rows := call (fetch_all (Select earnings_query)) in
  print_rows ["Team"; "Total Earnings"] rows.

Definition wins_by_map : M unit :=
  let* rows := call (fetch_all (Select wins_query)) in
  print_rows ["Map"; "Match Wins Played On"] rows.

Definition active_roster_counts : M unit :=
  let* rows := call (fetch_all (Select active_roster_query)) in
  print_rows ["Team"; "Active Players"] rows.

Definition team_summary_query : M unit :=
  let* rows := call (fetch_all (Select team_summary_sql)) in
  print_rows ["Team"; "Matches"; "Wins"; "Earnings"] rows.

Definition queries_options : menu :=
  [("1", ("Earnings by team", total earnings_by_team));
   ("2", ("Win counts by map", total wins_by_map));
   ("3", ("Active roster size per team", total active_roster_counts));
   ("4", ("Team summary (server function)", total team_summary_query))].

Fixpoint run_queries (fuel : nat) : partial unit :=
  match fuel with
  | O => fun _ => None
  | S fuel' =>
      then_ (within (let* _ := print (String LF "Interesting queries:") in
                     let* _ := print_options queries_options in
                     let* _ := print "0) Back" in
                     let* line := input "Choose an option: " in
                     ret (strip line)))
        (fun choice =>
           if String.eqb choice "0" then within (ret tt)
           else
             match find choice queries_options with
             | Some func => then_ (func fuel') (fun _ => run_queries fuel')
             | None => then_ (within (print "Invalid choice.")) (fun _ => run_queries fuel')
             end)
  end.

Fixpoint simple_menu (fuel : nat) (title : string) (options : menu) : partial unit :=
  match fuel with
  | O => fun _ => None
  | S fuel' =>
      then_ (within (let* _ := print (String LF (title +:+ " Menu")) in
                     let* _ := print_options options in
                     let* _ := print "0) Back" in
                     let* line := input "Choose an option: " in
                     ret (strip line)))
        (fun choice =>
           if String.eqb choice "0" then within (ret tt)
           else
             match find choice options with
             | Some func => then_ (func fuel') (fun _ => simple_menu fuel' title options)
             | None =>
                 then_ (within (print "Invalid choice."))
                   (fun _ => simple_menu fuel' title options)
             end)
  end.

Definition teams_options : menu :=
  [("1", ("List teams", total list_teams));
   ("2", ("Create team", total create_team));
   ("3", ("Update team", total update_team));
   ("4", ("Delete team", total delete_team))].

Definition teams_menu : action := fun fuel => simple_menu fuel "Teams" teams_options.

Definition players_options : menu :=
  [("1", ("List players", total list_players));
   ("2", ("Create player", total create_player));
   ("3", ("Update player", total update_player));
   ("4", ("Delete player", total delete_player))].

Definition players_menu : action := fun fuel => simple_menu fuel "Players" players_options.

Definition tournaments_options : menu :=
  [("1", ("List tournaments", total list_tournaments));
   ("2", ("Create tournament", total create_tournament));
   ("3", ("Update tournament", total update_tournament));
   ("4", ("Delete tournament", total delete_tournament))].

Definition tournaments_menu : action :=
  fun fuel => simple_menu fuel "Tournaments" tournaments_options.

Definition maps_options : menu :=
  [("1", ("List maps", total list_maps));
   ("2", ("Create map", total create_map));
   ("3", ("Update map", total update_map));
   ("4", ("Delete map", total delete_map))].

Definition maps_menu : action := fun fuel => simple_menu fuel "Maps" maps_options.

Definition matches_options : menu :=
  [("1", ("List matches", total list_matches));
   ("2", ("Create match", total create_match));
   ("3", ("Update match", total update_match));
   ("4", ("Delete match", total delete_match))].

Definition matches_menu : action := fun fuel => simple_menu fuel "Matches" matches_options.

Definition results_options : menu :=
  [("1", ("List tournament results", total list_results));
   ("2", ("Create tournament result", total create_result));
   ("3", ("Update tournament result", total update_result));
   ("4", ("Delete tournament result", total delete_result))].

Definition results_menu : action :=
  fun fuel => simple_menu fuel "Tournament Results" results_options.

Definition roster_options : menu :=
  [("1", ("List roster entries", total list_roster));
   ("2", ("Add player to roster", total add_to_roster));
   ("3", ("Toggle active flag", total toggle_roster));
   ("4", ("Delete roster entry", total remove_from_roster))].

Definition roster_menu : action := fun fuel => simple_menu fuel "Team Roster" roster_options.

Definition actions : menu :=
  [("1", ("Teams", teams_menu));
   ("2", ("Players", players_menu));
   ("3", ("Tournaments", tournaments_menu));
   ("4", ("Maps", maps_menu));
   ("5", ("Matches", matches_menu));
   ("6", ("Tournament Results", results_menu));
   ("7", ("Team Roster", roster_menu));
   ("8", ("Interesting Queries", run_queries))].

Fixpoint menu_loop (fuel : nat) : partial unit :=
  match fuel with
  | O => fun _ => None
  | S fuel' =>
      then_ (within (let* _ := print (String LF "CS2 Esports DB - Main Menu") in
                     let* _ := print_options actions in
                     let* _ := print "0) Exit" in
                     let* line := input "Choose an option: " in
                     ret (strip line)))
        (fun choice =>
           if String.eqb choice "0" then within (print "Bye.")
           else
             match find choice actions with
             | Some func => then_ (func fuel') (fun _ => menu_loop fuel')
             | None => then_ (within (print "Invalid choice.")) (fun _ => menu_loop fuel')
             end)
  end.

End Console.

End Menus.
(** ** gui.py: selecting a row, and the Queries tab *)

Module Prefill.
Import Py Sql Db Eff.

Section Base.
Context `{Lib} `{Backend} {W : Type}.

(** [values[i]] *)
Definition item (values : tuple) (i : nat) : exn + value :=
  match values !! i with
  | Some v => inr v
  | None => inl (Exception "list index out of range")
  end.

(** One change to the form's widgets. *)
Definition edit (f : W -> W) : Gui.G W unit :=
  let* w := Gui.get_widgets in
  Gui.set_widgets (f w).

(** [for entry, val in zip(entries, vals): entry.delete(0, tk.END)]
    followed by [entry.insert(0, val)] when [keep val]; entries past
    the end of [vals] stay as they are. *)
Fixpoint prefill (keep : value -> bool) (entries : list string) (vals : tuple)
    : list string :=
  match entries, vals with
  | _ :: es, v :: vs => (if keep v then str_value v else "") :: prefill keep es vs
  | es, _ => es
  end.

(** [val != "-"] *)
Definition not_dash (v : value) : bool := negb (bool_decide (v = VStr "-")).

(** [val is not None and val != ""] *)
Definition not_empty (v : value) : bool :=
  negb (bool_decide (v = VNone)) && negb (bool_decide (v = VStr "")).

End Base.

Module TeamsFrame.

Section Methods.
Context `{Lib} `{Backend}.

Definition on_select : Gui.G Gui.TeamsFrame.form unit :=
  let* sel := Gui.get_selected_values in
  let values := default [] sel in
  match values with
  | [] => ret tt
  | _ =>
      let* _ := edit (fun f =>
        {| Gui.TeamsFrame.name := ""; Gui.TeamsFrame.region := Gui.TeamsFrame.region f;
           Gui.TeamsFrame.founded := Gui.TeamsFrame.founded f |}) in
      let* v1 := lift (item values 1) in
      let* _ := edit (fun f =>
        {| Gui.TeamsFrame.name := str_value v1;
           Gui.TeamsFrame.region := Gui.TeamsFrame.region f;
           Gui.TeamsFrame.founded := Gui.TeamsFrame.founded f |}) in
      let* _ := edit (fun f =>
        {| Gui.TeamsFrame.name := Gui.TeamsFrame.name f; Gui.TeamsFrame.region := "";
           Gui.TeamsFrame.founded := Gui.TeamsFrame.founded f |}) in
      let* v2 := lift (item values 2) in
      let* _ := edit (fun f =>
        {| Gui.TeamsFrame.name := Gui.TeamsFrame.name f;
           Gui.TeamsFrame.region := str_value v2;
           Gui.TeamsFrame.founded := Gui.TeamsFrame.founded f |}) in
      let* _ := edit (fun f =>
        {| Gui.TeamsFrame.name := Gui.TeamsFrame.name f;
           Gui.TeamsFrame.region := Gui.TeamsFrame.region f;
           Gui.TeamsFrame.founded :=
             match values !! 3%nat with
             | Some v3 => if not_dash v3 then str_value v3 else ""
             | None => ""
             end |}) in
      let* v := lift (item values 1) in
      Gui.set_status ("Selected team " +:+ str_value v)
  end.

End Methods.

End TeamsFrame.

Module PlayersFrame.

Section Methods.
Context `{Lib} `{Backend}.

Definition on_select : Gui.G Gui.PlayersFrame.form unit :=
  let* sel := Gui.get_selected_values in
  let values := default [] sel in
  match values with
  | [] => ret tt
  | _ =>
      let* _ := edit (fun f =>
        let '(name, country, role) := Gui.PlayersFrame.entries f in
        {| Gui.PlayersFrame.entries :=
             match prefill not_dash [name; country; role] (take 3 (drop 1 values)) with
             | [name'; country'; role'] => (name', country', role')
             | _ => (name, country, role)
             end;
           Gui.PlayersFrame.team_combo := Gui.PlayersFrame.team_combo f;
           Gui.PlayersFrame.team_values := Gui.PlayersFrame.team_values f |}) in
      let* _ := edit (fun f =>
        {| Gui.PlayersFrame.entries := Gui.PlayersFrame.entries f;
           Gui.PlayersFrame.team_combo := "";
           Gui.PlayersFrame.team_values := Gui.PlayersFrame.team_values f |}) in
      let* v := lift (item values 1) in
      Gui.set_status ("Selected player " +:+ str_value v)
  end.

End Methods.

End PlayersFrame.

Module TournamentsFrame.

Section Methods.
Context `{Lib} `{Backend}.

Definition on_select : Gui.G Gui.TournamentsFrame.form unit :=
  let* sel := Gui.get_selected_values in
  let values := default [] sel in
  match values with
  | [] => ret tt
  | _ =>
      let* _ := edit (fun f =>
        let '(n, o, p, s, e, l) := Gui.TournamentsFrame.entries f in
        {| Gui.TournamentsFrame.entries :=
             match prefill not_empty [n; o; p; s; e; l] (drop 1 values) with
             | [n'; o'; p'; s'; e'; l'] => (n', o', p', s', e', l')
             | _ => (n, o, p, s, e, l)
             end |}) in
      let* v := lift (item values 1) in
      Gui.set_status ("Selected tournament " +:+ str_value v)
  end.

End Methods.

End TournamentsFrame.

Module MatchesFrame.

Section Methods.
Context `{Lib} `{Backend}.

Definition on_select : Gui.G Gui.MatchesFrame.form unit :=
  let* sel := Gui.get_selected_values in
  let values := default [] sel in
  match values with
  | [] => ret tt
  | _ =>
      let* _ := edit (fun f =>
        let '(d, bo, s1, s2) := Gui.MatchesFrame.entries f in
        {| Gui.MatchesFrame.tournament_cb := Gui.MatchesFrame.tournament_cb f;
           Gui.MatchesFrame.team1_cb := Gui.MatchesFrame.team1_cb f;
           Gui.MatchesFrame.team2_cb := Gui.MatchesFrame.team2_cb f;
           Gui.MatchesFrame.winner_cb := Gui.MatchesFrame.winner_cb f;
           Gui.MatchesFrame.map_cb := Gui.MatchesFrame.map_cb f;
           Gui.MatchesFrame.entries :=
             match prefill not_empty [d; bo; s1; s2] (drop 6 values) with
             | [d'; bo'; s1'; s2'] => (d', bo', s1', s2')
             | _ => (d, bo, s1, s2)
             end;
           Gui.MatchesFrame.tournament_values := Gui.MatchesFrame.tournament_values f;
           Gui.MatchesFrame.team_values := Gui.MatchesFrame.team_values f;
           Gui.MatchesFrame.map_values := Gui.MatchesFrame.map_values f |}) in
      let* v := lift (item values 0) in
      Gui.set_status ("Selected match " +:+ str_value v)
  end.

End Methods.

End MatchesFrame.

Module ResultsFrame.

Section Methods.
Context `{Lib} `{Backend}.

Definition on_select : Gui.G Gui.ResultsFrame.form unit :=
  let* sel := Gui.get_selected_values in
  let values := default [] sel in
  match values with
  | [] => ret tt
  | _ =>
      let* _ := edit (fun f =>
        let '(placement, earnings) := Gui.ResultsFrame.entries f in
        {| Gui.ResultsFrame.tournament_cb := Gui.ResultsFrame.tournament_cb f;
           Gui.ResultsFrame.team_cb := Gui.ResultsFrame.team_cb f;
           Gui.ResultsFrame.entries :=
             match prefill not_empty [placement; earnings] (drop 3 values) with
             | [placement'; earnings'] => (placement', earnings')
             | _ => (placement, earnings)
             end;
           Gui.ResultsFrame.tournament_values := Gui.ResultsFrame.tournament_values f;
           Gui.ResultsFrame.team_values := Gui.ResultsFrame.team_values f |}) in
      let* v := lift (item values 0) in
      Gui.set_status ("Selected result " +:+ str_value v)
  end.

End Methods.

End ResultsFrame.

End Prefill.

Module QueriesFrame.
Import Py Sql Db Eff.

(** The Queries tab: the column headers, the rows shown, the sort
    directions remembered per column, and the store. *)
Record tab := {
  headers : list string;
  rows : list tuple;
  sort_dir : list (string * bool);
  database : db
}.

Abbreviation Q := (eff tab).

Section Methods.
Context `{Backend}.

Definition set_headers (hs : list string) : Q unit :=
  fun t => (inr tt, {| headers := hs; rows := rows t; sort_dir := []; database := database t |}).

Definition set_rows (rs : list tuple) : Q unit :=
  fun t => (inr tt, {| headers := headers t; rows := rs; sort_dir := sort_dir t;
                       database := database t |}).

Definition call {A} (f : db -> (exn + A) * db) : Q A :=
  fun t =>
    let '(r, d) := f (database t) in
    (r, {| headers := headers t; rows := rows t; sort_dir := sort_dir t; database := d |}).

Definition earnings_query : query :=
  {| q_select := ["tm.team_name"; "SUM(r.earnings) AS total_earnings"];
     q_from := ["tournament_results r";
                "JOIN teams tm ON r.team_id = tm.team_id";
                "GROUP BY tm.team_name"];
     q_order := [Menus.desc "total_earnings"] |}.

Definition earnings : Q unit :=
  let* _ := set_headers ["Team"; "Total Earnings"] in
  let* rs := call (fetch_all (Select earnings_query)) in
  set_rows rs.

Definition wins_query : query :=
  {| q_select := ["mp.map_name"; "COUNT(*) AS wins"];
     q_from := ["matches m";
                "JOIN maps mp ON m.map_id = mp.map_id";
                "WHERE m.winner_team_id IS NOT NULL";
                "GROUP BY mp.map_name"];
     q_order := [Menus.desc "wins"] |}.

Definition wins : Q unit :=
  let* _ := set_headers ["Map"; "Wins"] in
  let* rs := call (fetch_all (Select wins_query)) in
  set_rows rs.

Definition roster_query : query :=
  {| q_select := ["tm.team_name"; "COUNT(*) FILTER (WHERE r.is_active) AS active_players"];
     q_from := ["teams tm";
                "LEFT JOIN team_roster r ON tm.team_id = r.team_id AND r.is_active";
                "GROUP BY tm.team_name"];
     q_order := [asc "tm.team_name"] |}.

Definition roster : Q unit :=
  let* _ := set_headers ["Team"; "Active Players"] in
  let* rs := call (fetch_all (Select roster_query)) in
  set_rows rs.

Definition team_summary_sql : query :=
  {| q_select := ["team_name"; "matches_played"; "wins"; "total_earnings"];
     q_from := ["team_summary()"];
     q_order := [asc "team_name"] |}.

Definition team_summary : Q unit :=
  let* _ := set_headers ["Team"; "Matches"; "Wins"; "Earnings"] in
  let* rs := call (fetch_all (Select team_summary_sql)) in
  set_rows rs.

End Methods.

End QueriesFrame.

(** ** smoke_test.py *)

Module SmokeTest.
Import Py Sql Db Eff Cli.

Section Script.
Context `{Lib} `{Backend}.

Definition insert_team : stmt :=
  Insert "teams" ["team_name"; "region"; "founded_year"]
    [VStr "Smoke Test Team"; VStr "EU"; VInt 2024] "team_id".

Definition insert_player (team_id : value) : stmt :=
  Insert "players" ["player_name"; "country"; "role"; "team_id"]
    [VStr "Smoke Player"; VStr "Nowhere"; VStr "Rifler"; team_id] "player_id".

Definition insert_tournament : stmt :=
  Insert "tournaments"
    ["name"; "organizer"; "prize_pool"; "start_date"; "end_date"; "location"]
    [VStr "Smoke Open"; VStr "TestOrg"; VDecimal {| coef := 10000; expo := 0 |};
     VDate (2025, 1, 1); VDate (2025, 1, 2); VStr "Online"] "tournament_id".

Definition insert_match (tournament_id team_id : value) : stmt :=
  Insert "matches"
    ["tournament_id"; "team1_id"; "team2_id"; "winner_team_id"; "map_id"; "match_date";
     "best_of"; "team1_score"; "team2_score"]
    [tournament_id; team_id; VInt 1; team_id; VInt 1; VDate (2025, 1, 1); VInt 1; VInt 1;
     VInt 0] "match_id".

Definition insert_result (tournament_id team_id : value) : stmt :=
  Insert "tournament_results" ["tournament_id"; "team_id"; "placement"; "earnings"]
    [tournament_id; team_id; VInt 1; VDecimal {| coef := 5000; expo := 0 |}] "result_id".

Definition rename_team (team_id : value) : stmt :=
  Update "teams" [("team_name", VStr "Smoke Test Team Updated")] "team_id" team_id.

(** [SELECT team_name FROM teams WHERE team_id = %s], the parameter
    written into its WHERE line. *)
Definition team_name_query (team_id : value) : query :=
  {| q_select := ["team_name"];
     q_from := ["teams"; "WHERE team_id = " +:+ str_value team_id];
     q_order := [] |}.

Definition main : M unit :=
  let* _ := print "Running smoke test against DATABASE_URL..." in
  let* team_id := call (execute_returning insert_team) in
  let* _ := print ("Created team id=" +:+ str_value team_id) in
  let* player_id := call (execute_returning (insert_player team_id)) in
  let* _ := print ("Created player id=" +:+ str_value player_id) in
  let* tournament_id := call (execute_returning insert_tournament) in
  let* _ := print ("Created tournament id=" +:+ str_value tournament_id) in
  let* match_id := call (execute_returning (insert_match tournament_id team_id)) in
  let* _ := print ("Created match id=" +:+ str_value match_id) in
  let* result_id := call (execute_returning (insert_result tournament_id team_id)) in
  let* _ := print ("Created result id=" +:+ str_value result_id) in
  let* _ := call (execute (rename_team team_id)) in
  let* updated := call (fetch_one (Select (team_name_query team_id))) in
  let* _ := print ("Updated team name -> " +:+
                   match updated with
                   | Some (v :: _) => str_value v
                   | _ => "not found"
                   end) in
  let* _ := call (execute (Delete "tournament_results" "result_id" result_id)) in
  let* _ := call (execute (Delete "matches" "match_id" match_id)) in
  let* _ := call (execute (Delete "players" "player_id" player_id)) in
  let* _ := call (execute (Delete "tournaments" "tournament_id" tournament_id)) in
  let* _ := call (execute (Delete "teams" "team_id" team_id)) in
  print "Cleanup complete. Smoke test passed.".

End Script.

End SmokeTest.
(** ** Vocabulary for the console as a whole *)

Module Runs.
Import Py Sql Db Eff Cli Menus.

(** What the console shows for answers that a prompt turned down. *)
Definition asked_again (ask : string) (complaint : string) (bad : list string) : list out :=
  flat_map (fun _ => [Ask ask; Line complaint]) bad.

Definition end_of_input (e : exn) : Prop := e = EOFError.

(** Console code that reads lines and adds none to the input, and
    whose exceptions, when it raises, are in [E]. *)
Definition tidy {A} (E : exn -> Prop) (m : M A) : Prop :=
  forall w,
    (length (stdin (m w).2) <= length (stdin w))%nat /\
    (forall e, (m w).1 = inl e -> E e).

(** A menu entry that, given more rounds than there are lines left,
    ends within them, reads lines without adding any, and raises only
    exceptions in [E]. *)
Definition ends_well (E : exn -> Prop) (a : action) : Prop :=
  forall fuel w, (length (stdin w) < fuel)%nat ->
    exists r w', a fuel w = Some (r, w') /\
      (length (stdin w') <= length (stdin w))%nat /\
      (forall e, r = inl e -> E e).

(** The line [line] as an answer to a prompt for an optional integer:
    blank for [None], the numeral of [n] for [Some n]. *)
Definition optional_int (line : string) (y : option Z) : Prop :=
  match y with
  | None => strip line = ""
  | Some n => Py.int (strip line) = Some n
  end.

(** What a menu entry gives within some rounds, it gives within more. *)
Definition steady (a : action) : Prop :=
  forall fuel fuel' w x, a fuel w = Some x -> (fuel <= fuel')%nat -> a fuel' w = Some x.

(** The functions of a menu. *)
Definition functions (options : menu) : list action := map (fun o => o.2.2) options.

(** The console after a menu was shown [n] times for choices it does
    not know, each answered with "Invalid choice.". *)
Definition shown_again (banner : list out) (bad : list string) : list out :=
  flat_map (fun _ => banner ++ [Ask "Choose an option: "; Line "Invalid choice."]) bad.

(** What [print_options] prints. *)
Definition option_lines (options : menu) : list out :=
  map (fun o => Line (o.1 +:+ ") " +:+ o.2.1)) options.

(** The console after a menu was shown. *)
Definition shown (banner zero : string) (options : menu) (rest : list string) (w : world)
    : world :=
  {| stdin := rest;
     stdout := stdout w ++ [Line banner] ++ option_lines options ++
               [Line zero; Ask "Choose an option: "];
     database := database w |}.

(** The shape the three menu loops share: one round, then [again]. *)
Definition round (banner zero : string) (options : menu) (on_zero : M unit)
    (again : partial unit) (fuel : nat) : partial unit :=
  then_ (within (let* _ := print banner in
                 let* _ := print_options options in
                 let* _ := print zero in
                 let* line := input "Choose an option: " in
                 ret (strip line)))
    (fun choice =>
       if String.eqb choice "0" then within on_zero
       else
         match find choice options with
         | Some func => then_ (func fuel) (fun _ => again)
         | None => then_ (within (print "Invalid choice.")) (fun _ => again)
         end).

End Runs.

(** ** Vocabulary for the window *)

Module Shows.
Import Py Sql Db Eff.

(** The id of the selected row; [None] when no row is selected. *)
Definition selected_id {W} (u : Gui.ui W) : value :=
  match Gui.selection u with
  | Some (v :: _) => v
  | _ => VNone
  end.

(** The window after the confirmation box [msg]. *)
Definition asked {W} (u : Gui.ui W) (msg : string) : Gui.ui W :=
  {| Gui.tree := Gui.tree u; Gui.selection := Gui.selection u;
     Gui.status_var := Gui.status_var u; Gui.widgets := Gui.widgets u;
     Gui.database := Gui.database u;
     Gui.dialogs := Gui.dialogs u ++ [Gui.AskYesNo msg]; Gui.confirm := Gui.confirm u |}.

(** The window after the store turned statement [q] down with [msg]:
    the translation in an error box, the message itself on the status
    line, the transaction rolled back. *)
Definition turned_down {W} (u : Gui.ui W) (q : stmt) (msg : string) : Gui.ui W :=
  {| Gui.tree := Gui.tree u; Gui.selection := Gui.selection u;
     Gui.status_var := msg; Gui.widgets := Gui.widgets u;
     Gui.database := Spec.rolled_back q (Gui.database u);
     Gui.dialogs := Gui.dialogs u ++ [Gui.ShowError (Gui.friendly_error (DatabaseError msg))];
     Gui.confirm := Gui.confirm u |}.

End Shows.

(** * Properties *)

#[local] Arguments String.append !s1 s2 : simpl nomatch.

Module PyFacts.
Import Py Spec.

Lemma append_assoc (a b c : string) : (a +:+ b) +:+ c = a +:+ (b +:+ c).
Proof. induction a as [|x a IH]; simpl; [reflexivity | now rewrite IH]. Qed.

Lemma append_nil_r (a : string) : a +:+ "" = a.
Proof. induction a as [|x a IH]; simpl; [reflexivity | now rewrite IH]. Qed.

Lemma startswith_app (n b : string) : startswith (n +:+ b) n = true.
Proof.
  induction n as [|x n IH]; simpl; [reflexivity |].
  now rewrite Ascii.eqb_refl.
Qed.

Lemma startswith_inv (n h : string) : startswith h n = true -> exists b, h = n +:+ b.
Proof.
  revert h. induction n as [|x n IH]; intros h Hp; simpl in *.
  - now exists h.
  - destruct h as [|y h]; [discriminate |].
    apply andb_true_iff in Hp as [Hxy Hp]. apply Ascii.eqb_eq in Hxy as ->.
    destruct (IH _ Hp) as [b ->]. now exists b.
Qed.

Lemma str_in_unfold (n h : string) :
  str_in n h = startswith h n ||
               match h with EmptyString => false | String _ h' => str_in n h' end.
Proof. destruct h; reflexivity. Qed.


(** The head of a split holds no separator and is followed, in the
    text, by nothing or by the separator. *)
Lemma split_head_spec (sep s : string) :
  sep <> "" ->
  str_in sep (split_head sep s) = false /\
  (s = split_head sep s \/ exists rest, s = split_head sep s +:+ sep +:+ rest).
Proof.
  intros Hsep. induction s as [|x s [IHn IHs]].
  - destruct sep as [|y sep]; [congruence |]. simpl. split; [reflexivity | now left].
  - cbn [split_head]. destruct (startswith (String x s) sep) eqn:Hp.
    + split.
      * destruct sep; [congruence | reflexivity].
      * right. apply startswith_inv in Hp as [b Hb]. exists b. now rewrite Hb.
    + split.
      * rewrite str_in_unfold, IHn, orb_false_r.
        destruct (startswith (String x (split_head sep s)) sep) eqn:Hq; [| reflexivity].
        exfalso. apply startswith_inv in Hq as [b Hb].
        assert (Hx : exists b', String x s = sep +:+ b').
        { destruct IHs as [Hs | [rest Hs]].
          - exists b. rewrite <- Hb. now rewrite <- Hs.
          - exists (b +:+ sep +:+ rest). rewrite <- append_assoc, <- Hb.
            simpl. now rewrite <- Hs. }
        destruct Hx as [b' Hx]. rewrite Hx, startswith_app in Hp. discriminate.
      * destruct IHs as [Hs | [rest Hs]].
        -- left. now rewrite <- Hs.
        -- right. exists rest. simpl. now rewrite <- Hs.
Qed.

(** A digit is neither white space nor an underscore nor a sign. *)
Lemma digit_char_class (c : ascii) (v : Z) :
  digit_val c = Some v ->
  is_space c = false /\ Ascii.eqb c "_" = false /\
  Ascii.eqb c "+" = false /\ Ascii.eqb c "-" = false /\ Ascii.eqb c " " = false.
Proof.
  destruct c as [[] [] [] [] [] [] [] []]; cbv; intros Hd;
    first [discriminate Hd | repeat split].
Qed.

Lemma digit_val_char (d : N) :
  (d < 10)%N -> digit_val (digit_char d) = Some (Z.of_N d).
Proof.
  intros Hd.
  assert (Hc : (d = 0 \/ d = 1 \/ d = 2 \/ d = 3 \/ d = 4 \/
                d = 5 \/ d = 6 \/ d = 7 \/ d = 8 \/ d = 9)%N) by lia.
  repeat destruct Hc as [-> | Hc]; try subst d; reflexivity.
Qed.

Lemma is_digits_app (a b : string) : is_digits (a +:+ b) = is_digits a && is_digits b.
Proof.
  induction a as [|x a IH]; simpl; [reflexivity |].
  destruct (digit_val x); [assumption | reflexivity].
Qed.

Lemma is_digits_no_space (s : string) : is_digits s = true -> no_space s = true.
Proof.
  induction s as [|x s IH]; simpl; [reflexivity |].
  destruct (digit_val x) eqn:Hx; [| discriminate].
  intros Hs. apply digit_char_class in Hx as (-> & _). now rewrite IH.
Qed.

Lemma eval_digits_snoc (s : string) (c : ascii) (acc : Z) :
  eval_digits (s +:+ String c "") acc = 10 * eval_digits s acc + default 0 (digit_val c).
Proof. revert acc. induction s as [|x s IH]; intros acc; simpl; [reflexivity | apply IH]. Qed.

(** Reading a run of digits adds its value to the accumulator. *)
Lemma digits_from_digits (D tail : string) (acc : Z) (u : bool) :
  is_digits D = true -> D <> "" ->
  digits_from (D +:+ tail) acc u = digits_from tail (eval_digits D acc) false.
Proof.
  revert acc u. induction D as [|x D IH]; intros acc u HD Hne; [congruence |].
  simpl in *. destruct (digit_val x) as [d|] eqn:Hx; [| discriminate].
  destruct (digit_char_class _ _ Hx) as (_ & -> & _). simpl.
  destruct D as [|y D]; [reflexivity |].
  now apply IH.
Qed.

Lemma digits_of_spec (fuel : nat) (n : N) (rest : string) :
  (n < 2 ^ N.succ (N.of_nat fuel))%N ->
  exists D, digits_of fuel n rest = D +:+ rest /\ is_digits D = true /\ D <> "" /\
            eval_digits D 0 = Z.of_N n.
Proof.
  assert (Hone : forall m r, (m < 10)%N ->
    exists D, String (digit_char (m mod 10)) r = D +:+ r /\ is_digits D = true /\
              D <> "" /\ eval_digits D 0 = Z.of_N m).
  { intros m r Hm. exists (String (digit_char m) "").
    rewrite N.mod_small by assumption. simpl.
    rewrite digit_val_char by assumption. simpl. repeat split; first [congruence | lia]. }
  revert n rest. induction fuel as [|fuel IH]; intros n rest Hn.
  - apply Hone. change (2 ^ N.succ (N.of_nat 0))%N with 2%N in Hn. lia.
  - cbn [digits_of]. destruct (n <? 10)%N eqn:Hlt.
    + apply Hone. now apply N.ltb_lt.
    + apply N.ltb_ge in Hlt.
      destruct (IH (n / 10)%N (String (digit_char (n mod 10)) rest)) as (D & HD & Hd & Hne & Hv).
      { rewrite Nat2N.inj_succ, N.pow_succ_r' in Hn.
        apply N.Div0.div_lt_upper_bound. lia. }
      exists (D +:+ String (digit_char (n mod 10)) "").
      assert (Hm : (n mod 10 < 10)%N) by (apply N.mod_lt; lia).
      repeat split.
      * now rewrite HD, append_assoc.
      * rewrite is_digits_app, Hd. simpl. now rewrite digit_val_char.
      * destruct D; discriminate.
      * rewrite eval_digits_snoc, Hv, digit_val_char by assumption. simpl.
        pose proof (N.div_mod n 10). lia.
Qed.

Lemma str_of_N_spec (n : N) :
  is_digits (str_of_N n) = true /\ str_of_N n <> "" /\
  eval_digits (str_of_N n) 0 = Z.of_N n.
Proof.
  unfold str_of_N.
  destruct (digits_of_spec (N.to_nat (N.log2 n)) n "") as (D & HD & Hd & Hne & Hv).
  { rewrite N2Nat.id. destruct n as [|p]; [reflexivity |].
    apply N.log2_spec. lia. }
  rewrite HD, append_nil_r. auto.
Qed.

Lemma lstrip_no_space (s : string) : no_space s = true -> lstrip s = s.
Proof.
  destruct s as [|x s]; simpl; [reflexivity |].
  intros H. apply andb_true_iff in H as [Hx _].
  now destruct (is_space x).
Qed.

Lemma rstrip_no_space (s : string) : no_space s = true -> rstrip s = s.
Proof.
  induction s as [|x s IH]; simpl; [reflexivity |].
  intros H. apply andb_true_iff in H as [Hx Hs]. rewrite (IH Hs).
  destruct s; [| reflexivity]. now destruct (is_space x).
Qed.

Lemma strip_no_space (s : string) : no_space s = true -> strip s = s.
Proof.
  intros H. unfold strip. rewrite lstrip_no_space by assumption.
  now apply rstrip_no_space.
Qed.

Lemma int_literal_digits (D : string) :
  is_digits D = true -> D <> "" -> int_literal D = Some (eval_digits D 0).
Proof.
  intros HD Hne. destruct D as [|x D]; [congruence |].
  pose proof (digits_from_digits (String x D) "" 0 false HD Hne) as Hf.
  rewrite append_nil_r in Hf.
  simpl in HD. destruct (digit_val x) as [d|] eqn:Hx; [| discriminate].
  unfold int_literal.
  assert (Hsplit : match String x D with
                   | String "+"%char r => (false, r)
                   | String "-"%char r => (true, r)
                   | _ => (false, String x D)
                   end = (false, String x D)).
  { destruct x as [[] [] [] [] [] [] [] []]; first [discriminate | reflexivity]. }
  rewrite Hsplit, Hx, Hf. reflexivity.
Qed.

Lemma int_literal_minus (D : string) :
  is_digits D = true -> D <> "" ->
  int_literal (String "-" D) = Some (- eval_digits D 0).
Proof.
  intros HD Hne. destruct D as [|x D]; [congruence |].
  pose proof (digits_from_digits (String x D) "" 0 false HD Hne) as Hf.
  rewrite append_nil_r in Hf.
  simpl in HD. destruct (digit_val x) as [d|] eqn:Hx; [| discriminate].
  unfold int_literal. cbn [fst snd]. rewrite Hx, Hf. reflexivity.
Qed.

Lemma str_of_int_no_space (z : Z) : no_space (str_of_int z) = true.
Proof.
  unfold str_of_int. destruct (z <? 0).
  - destruct (str_of_N_spec (Z.to_N (- z))) as (Hd & _). simpl.
    now apply is_digits_no_space.
  - destruct (str_of_N_spec (Z.to_N z)) as (Hd & _). now apply is_digits_no_space.
Qed.

Lemma str_of_int_nonempty (z : Z) : str_of_int z <> "".
Proof.
  unfold str_of_int. destruct (z <? 0); [discriminate |].
  apply str_of_N_spec.
Qed.

(** [int(str(z)) == z] *)
Lemma int_str_of_int (z : Z) : Py.int (str_of_int z) = Some z.
Proof.
  unfold Py.int. rewrite strip_no_space by apply str_of_int_no_space.
  unfold str_of_int. destruct (z <? 0) eqn:Hz.
  - destruct (str_of_N_spec (Z.to_N (- z))) as (Hd & Hne & Hv).
    rewrite int_literal_minus, Hv by assumption. f_equal. lia.
  - destruct (str_of_N_spec (Z.to_N z)) as (Hd & Hne & Hv).
    rewrite int_literal_digits, Hv by assumption. f_equal. lia.
Qed.

(** The text before [" - "] in a dropdown entry is the rendered id. *)
Lemma split_head_entry (S label : string) :
  no_space S = true -> split_head " - " (S +:+ " - " +:+ label) = S.
Proof.
  change (" - " +:+ label) with (String " " (String "-" (String " " label))).
  induction S as [|x S IH]; intros HS.
  - reflexivity.
  - simpl in HS. apply andb_true_iff in HS as [Hx HS].
    assert (Hsp : Ascii.eqb " " x = false).
    { destruct (Ascii.eqb_spec " "%char x) as [<- |]; [discriminate | reflexivity]. }
    cbn -[Ascii.eqb]. rewrite Hsp. cbn -[Ascii.eqb]. f_equal. now apply IH.
Qed.

End PyFacts.

(** ** The constraint translator *)

Module Translator.
Import Py Spec.

Ltac case_signals :=
  repeat match goal with
         | |- context [str_in ?n ?h] =>
             let b := fresh "b" in
             generalize (str_in n h); intros b; destruct b
         end.



(** A message that matches exactly one pattern gets that pattern's
    category, whatever the order of the table. *)
Lemma friendly_error_single_signal (err : exn) :
  let low := Py.lower (str_exn err) in
  sig_region low = false -> sig_duplicate_name low = false ->
  sig_player_name low = false -> sig_different_teams low = false ->
  sig_roster_cap low = false -> sig_winner low = true ->
  Gui.friendly_error err = "winner must be one of the two teams".
Proof.
  intros low. unfold Gui.friendly_error, sig_region, sig_duplicate_name,
    sig_player_name, sig_different_teams, sig_winner, sig_roster_cap.
  fold low. case_signals; cbn [andb orb]; intros; congruence.
Qed.

(** The fallback is the text up to the first line feed. *)
Lemma first_line_spec (msg : string) :
  str_in newline (split_head newline msg) = false /\
  (msg = split_head newline msg \/
   exists rest, msg = split_head newline msg +:+ newline +:+ rest).
Proof. apply PyFacts.split_head_spec. discriminate. Qed.

(** C5.  The console's and the window's [friendly_error] give the same
    text for every failure. *)
Theorem friendly_error_same_in_both_front_ends (err : exn) :
  Cli.friendly_error err = Gui.friendly_error err.
Proof. reflexivity. Qed.



(** Only the fallback keeps the letters as they came. *)
Example friendly_error_fallback_keeps_case :
  Cli.friendly_error (DatabaseError "Connection REFUSED") = "Connection REFUSED" /\
  Cli.friendly_error (DatabaseError "connection refused") = "connection refused".
Proof. split; reflexivity. Qed.

End Translator.

(** ** The referential selector *)

Module Selector.
Import Py Sql Spec.


Lemma parse_combo_id_entry (id : Z) (label : string) :
  Gui.parse_combo_id (Some (entry id label)) = inr (Some id).
Proof.
  unfold Gui.parse_combo_id, entry.
  rewrite PyFacts.split_head_entry by apply PyFacts.str_of_int_no_space.
  rewrite PyFacts.int_str_of_int.
  destruct (str_of_int id +:+ " - " +:+ label) eqn:He; [| reflexivity].
  exfalso. pose proof (PyFacts.str_of_int_nonempty id) as Hne.
  destruct (str_of_int id); [congruence | discriminate].
Qed.



(** Every entry a form offers for a row [(id, label)] selects [id]. *)
Lemma offered_entry_selects_its_id `{Lib} (id : Z) (label : string) :
  Gui.parse_combo_id (Some (Gui.option_text [VInt id; VStr label])) = inr (Some id).
Proof. apply parse_combo_id_entry. Qed.

(** White space alone is not a blank selection. *)
Example parse_combo_id_spaces :
  Gui.parse_combo_id (Some "  ") = inl (ValueError "Pick a value from the dropdown").
Proof. reflexivity. Qed.

End Selector.

(** ** Units of work *)

Module Work.
Import Py Sql Db Spec.

Section Calls.
Context `{Backend}.

Lemma get_conn_cur_execute {A} (f : list tuple -> A) (q : stmt) (d : db) :
  get_conn (fun c =>
    match cur_execute q c with
    | (inr rows, c') => (inr (f rows), c')
    | (inl e, c') => (inl e, c')
    end) d =
  match rejects q (committed d) with
  | Some msg => (inl (DatabaseError msg), rolled_back q d)
  | None => (inr (f (effect q (committed d)).1), committed_once q d)
  end.
Proof.
  unfold get_conn, cur_execute, connect, run, rolled_back, committed_once. simpl.
  destruct (rejects q (committed d)) as [msg|]; simpl.
  - now rewrite <- !app_assoc.
  - destruct (effect q (committed d)) as [rows s']. simpl. now rewrite <- !app_assoc.
Qed.

Lemma execute_eq (q : stmt) (d : db) :
  execute q d =
  match rejects q (committed d) with
  | Some msg => (inl (DatabaseError msg), rolled_back q d)
  | None => (inr tt, committed_once q d)
  end.
Proof. apply (get_conn_cur_execute (fun _ => tt)). Qed.

Lemma fetch_all_eq (q : stmt) (d : db) :
  fetch_all q d =
  match rejects q (committed d) with
  | Some msg => (inl (DatabaseError msg), rolled_back q d)
  | None => (inr (effect q (committed d)).1, committed_once q d)
  end.
Proof.
  unfold fetch_all, get_conn, cur_execute, connect, run, rolled_back, committed_once. simpl.
  destruct (rejects q (committed d)) as [msg|]; simpl.
  - now rewrite <- !app_assoc.
  - destruct (effect q (committed d)) as [rows s']. simpl. now rewrite <- !app_assoc.
Qed.




End Calls.

End Work.


(** ** Listing order *)

Module Listing.
Import Py Sql Db Spec.

(** Teams, players, tournaments and matches are read from the same
    tables in the same order by both front ends. *)
Lemma list_orders_agree :
  (q_from Cli.teams_query, q_order Cli.teams_query) =
    (q_from Gui.TeamsFrame.teams_query, q_order Gui.TeamsFrame.teams_query) /\
  (q_from Cli.players_query, q_order Cli.players_query) =
    (q_from Gui.PlayersFrame.players_query, q_order Gui.PlayersFrame.players_query) /\
  (q_from Cli.tournaments_query, q_order Cli.tournaments_query) =
    (q_from Gui.TournamentsFrame.tournaments_query,
     q_order Gui.TournamentsFrame.tournaments_query) /\
  (q_from Cli.matches_query, q_order Cli.matches_query) =
    (q_from Gui.MatchesFrame.matches_query, q_order Gui.MatchesFrame.matches_query) /\
  q_from Cli.results_query = q_from Gui.ResultsFrame.results_query.
Proof. repeat split. Qed.

(** Same FROM clause and same ORDER BY: same rows in the same order,
    whatever the store holds. *)
Lemma same_clauses_same_rows `{Backend} (q1 q2 : query) (s : store) :
  (q_from q1, q_order q1) = (q_from q2, q_order q2) ->
  order_by (q_order q1) (relation (q_from q1) s) =
  order_by (q_order q2) (relation (q_from q2) s).
Proof. intros [= -> ->]. reflexivity. Qed.

(** The two ORDER BY clauses for tournament results. *)
Lemma results_order_clauses :
  q_order Cli.results_query = [asc_nulls_last "t.start_date"; asc "r.placement"] /\
  q_order Gui.ResultsFrame.results_query =
    [desc_nulls_last "t.start_date"; asc "r.placement"].
Proof. split; reflexivity. Qed.

(** C6, at the failing input.  With a result in a 2024 tournament and one
    in a 2025 tournament, the console lists the 2024 result first and
    the window lists the 2025 result first. *)
Theorem results_listed_in_opposite_orders :
  let spring := [VInt 1; VStr "Spring Cup"; VStr "Alpha"; VInt 1;
                 VDecimal {| coef := 500; expo := 0 |}] in
  let winter := [VInt 2; VStr "Winter Cup"; VStr "Beta"; VInt 1;
                 VDecimal {| coef := 900; expo := 0 |}] in
  let form := {| Gui.ResultsFrame.tournament_cb := ""; Gui.ResultsFrame.team_cb := "";
                 Gui.ResultsFrame.entries := ("", "");
                 Gui.ResultsFrame.tournament_values := [];
                 Gui.ResultsFrame.team_values := [] |} in
  Cli.stdout (@Cli.list_results Demo.backend (Demo.console [])).2 =
    [Cli.Rows ["ID"; "Tournament"; "Team"; "Place"; "Earnings"] [spring; winter]] /\
  Gui.tree (@Gui.ResultsFrame.refresh Demo.lib Demo.backend (Demo.window form None)).2 =
    [winter; spring].
Proof. split; vm_compute; reflexivity. Qed.

End Listing.

(** ** Facts about the store and the console *)

Module StoreFacts.
Import Py Sql Db Spec.

Lemma statements_app (a b : list event) : statements (a ++ b) = statements a ++ statements b.
Proof. apply omap_app. Qed.

Lemma writes_app (a b : list event) : writes (a ++ b) = writes a ++ writes b.
Proof. unfold writes. now rewrite statements_app, List.filter_app. Qed.

Lemma writes_unit (l : list event) (q : stmt) (e : event) :
  writes (l ++ [EvConnect; EvExecute q; e; EvClose]) =
  writes l ++ match e with
              | EvExecute q' => List.filter is_write [q; q']
              | _ => List.filter is_write [q]
              end.
Proof. rewrite writes_app. f_equal. destruct e; reflexivity. Qed.


Section Engine.
Context `{Backend}.


(** An accepted DELETE leaves no row under its key, and a DELETE of a
    missing row changes nothing. *)
Lemma delete_makes_absent tbl key_col k (s : store) :
  absent (effect (Delete tbl key_col (VInt k)) s).2 tbl k.
Proof.
  simpl. unfold absent, row_of. rewrite lookup_alter_eq.
  destruct (s !! tbl) as [tb|]; [| reflexivity]. simpl. apply lookup_delete_eq.
Qed.

Lemma delete_absent_same tbl key_col k (s : store) :
  absent s tbl k -> (effect (Delete tbl key_col (VInt k)) s).2 = s.
Proof.
  unfold absent, row_of. simpl. intros Habs. apply map_eq. intros t.
  destruct (decide (tbl = t)) as [-> | Hne]; [| now rewrite lookup_alter_ne].
  rewrite lookup_alter_eq. destruct (s !! t) as [tb|]; [| reflexivity]. simpl.
  now rewrite delete_id.
Qed.

End Engine.

End StoreFacts.

Module ConsoleFacts.
Import Py Sql Db Eff Spec Cli.

Section Facts.
Context `{Backend}.


Lemma send_delete_eq tbl key_col id done context (w : world) :
  send_delete tbl key_col id done context w =
  let q := Delete tbl key_col (VInt id) in
  match rejects q (committed (database w)) with
  | None => (inr tt, said w (Line done) (committed_once q (database w)))
  | Some msg =>
      (inr tt,
       said w (Line ("[Error] " +:+ context +:+ ": " +:+
                     friendly_error (DatabaseError msg)))
            (rolled_back q (database w)))
  end.
Proof.
  unfold send_delete, try_, bind, call, print, print_error, emit.
  cbn [database stdin stdout]. rewrite Work.execute_eq.
  destruct (rejects _ _); reflexivity.
Qed.


End Facts.

End ConsoleFacts.

Module UpdateFacts.
Import Py Sql Db Eff Spec Cli.

Section Facts.
Context `{Lib} `{Backend}.






End Facts.

End UpdateFacts.

Module PromptFacts.
Import Py Sql Db Eff Spec Cli.

Section Facts.
Context `{Lib} `{Backend}.

Lemma prompt_int_answer label b (w : world) l rest id :
  stdin w = l :: rest -> Py.int (strip l) = Some id ->
  prompt_int label b w = (inr (Some id), answered w label rest).
Proof.
  intros Hin Hid. unfold prompt_int, prompting. rewrite Hin. cbn [prompt_int_loop].
  rewrite Hid. destruct (String.eqb (strip l) "") eqn:He.
  - apply String.eqb_eq in He. rewrite He in Hid. discriminate.
  - reflexivity.
Qed.





Lemma listing_eq (q : query) (headers : list string) (w : world) :
  (let* rows := call (fetch_all (Select q)) in print_rows headers rows) w =
  match rejects (Select q) (committed (database w)) with
  | Some msg =>
      (inl (DatabaseError msg),
       {| stdin := stdin w; stdout := stdout w;
          database := rolled_back (Select q) (database w) |})
  | None => (inr tt, listed q headers w)
  end.
Proof.
  unfold bind, call, print_rows, listed. rewrite Work.fetch_all_eq.
  destruct (rejects _ _); [reflexivity |]. cbn [fst snd].
  destruct (effect _ _).1; reflexivity.
Qed.

(** An answer to a required text prompt is never empty, and a blank
    line is answered with "Please enter a value." and asked again. *)
Lemma prompt_str_required label lines o r lines' o' :
  prompt_str_loop label false lines o = (inr r, (lines', o')) ->
  exists s, r = Some s /\ s <> "".
Proof.
  revert o. induction lines as [|l lines IH]; intros o; cbn [prompt_str_loop].
  - discriminate.
  - destruct (String.eqb (strip l) "") eqn:He; cbn [negb].
    + apply IH.
    + intros [= <- _ _]. exists (strip l). split; [reflexivity |].
      now apply String.eqb_neq.
Qed.

Lemma prompt_str_blank_again label l lines o :
  strip l = "" ->
  prompt_str_loop label false (l :: lines) o =
  prompt_str_loop label false lines
    ((o ++ [Ask (label +:+ ": ")]) ++ [Line "Please enter a value."]).
Proof. intros Hb. cbn [prompt_str_loop]. now rewrite Hb. Qed.

(** An answer to a required number prompt is a number. *)
Lemma prompt_int_required label lines o r lines' o' :
  prompt_int_loop label false lines o = (inr r, (lines', o')) ->
  exists n, r = Some n.
Proof.
  revert o. induction lines as [|l lines IH]; intros o; cbn [prompt_int_loop].
  - discriminate.
  - rewrite andb_false_r. destruct (Py.int (strip l)) as [n|].
    + intros [= <- _ _]. now exists n.
    + apply IH.
Qed.

Lemma prompt_int_blank_again label l lines o :
  strip l = "" ->
  prompt_int_loop label false (l :: lines) o =
  prompt_int_loop label false lines
    ((o ++ [Ask (label +:+ ": ")]) ++ [Line "Enter a valid integer."]).
Proof. intros Hb. cbn [prompt_int_loop]. now rewrite Hb. Qed.

End Facts.

End PromptFacts.

Module BlankUpdates.
Import Py Sql Db Eff Spec Cli PromptFacts.




Section Facts.
Context `{Lib} `{Backend}.













End Facts.

End BlankUpdates.

(** ** What a piece of code sends *)

Module Sends.
Import Py Sql Db Eff Spec.

Section Rules.
Context {S : Type} (db_of : S -> db).

Lemma yields_same_db {A} (P : stmt -> Prop) (Q : A -> Prop) (m : eff S A) :
  (forall s, db_of (m s).2 = db_of s) ->
  (forall s a, (m s).1 = inr a -> Q a) ->
  yields db_of P Q m.
Proof.
  intros Hdb HQ s. split; [| apply HQ].
  exists []. rewrite Hdb, app_nil_r. auto.
Qed.

Lemma yields_ret {A} (P : stmt -> Prop) (Q : A -> Prop) (a : A) :
  Q a -> yields db_of P Q (ret a).
Proof. intros HQ. apply yields_same_db; [reflexivity |]. now intros s b [= <-]. Qed.

Lemma yields_lift {A} (P : stmt -> Prop) (Q : A -> Prop) (r : exn + A) :
  (forall a, r = inr a -> Q a) -> yields db_of P Q (lift r).
Proof. intros HQ. apply yields_same_db; [reflexivity |]. intros s. apply HQ. Qed.

Lemma yields_bind {A B} (P : stmt -> Prop) (Q : A -> Prop) (R : B -> Prop)
    (m : eff S A) (k : A -> eff S B) :
  yields db_of P Q m -> (forall a, Q a -> yields db_of P R (k a)) ->
  yields db_of P R (bind m k).
Proof.
  intros Hm Hk s. destruct (Hm s) as [(l & Hl & HP) HQ]. unfold bind.
  destruct (m s) as [[e | a] s'] eqn:Hms; simpl in *.
  - split; [now exists l | discriminate].
  - destruct (Hk a (HQ a eq_refl) s') as [(l' & Hl' & HP') HR].
    split; [| exact HR].
    exists (l ++ l'). rewrite Hl', Hl, app_assoc. split; [reflexivity |].
    now apply Forall_app.
Qed.

Lemma yields_try {A} (P : stmt -> Prop) (Q : A -> Prop)
    (m : eff S A) (h : exn -> eff S A) :
  yields db_of P Q m -> (forall e, yields db_of P Q (h e)) ->
  yields db_of P Q (try_ m h).
Proof.
  intros Hm Hh s. destruct (Hm s) as [(l & Hl & HP) HQ]. unfold try_.
  destruct (m s) as [[e | a] s'] eqn:Hms; simpl in *.
  - destruct (Hh e s') as [(l' & Hl' & HP') HR].
    split; [| exact HR].
    exists (l ++ l'). rewrite Hl', Hl, app_assoc. split; [reflexivity |].
    now apply Forall_app.
  - split; [now exists l | exact HQ].
Qed.

Lemma yields_weaken {A} (P : stmt -> Prop) (Q Q' : A -> Prop) (m : eff S A) :
  yields db_of P Q m -> (forall a, Q a -> Q' a) -> yields db_of P Q' m.
Proof. intros Hm HQ s. destruct (Hm s) as [Hl Ha]. split; [exact Hl | auto]. Qed.

Lemma quiet_same_db {A} (m : eff S A) :
  (forall s, db_of (m s).2 = db_of s) -> quiet db_of m.
Proof. intros Hdb s. now rewrite Hdb. Qed.

Lemma quiet_bind {A B} (m : eff S A) (k : A -> eff S B) :
  quiet db_of m -> (forall a, quiet db_of (k a)) -> quiet db_of (bind m k).
Proof.
  intros Hm Hk s. destruct (Hm s) as [Hw Hc]. unfold bind.
  destruct (m s) as [[e | a] s'] eqn:Hms; simpl in *; [auto |].
  destruct (Hk a s') as [Hw' Hc']. split; congruence.
Qed.

Lemma quiet_try {A} (m : eff S A) (h : exn -> eff S A) :
  quiet db_of m -> (forall e, quiet db_of (h e)) -> quiet db_of (try_ m h).
Proof.
  intros Hm Hh s. destruct (Hm s) as [Hw Hc]. unfold try_.
  destruct (m s) as [[e | a] s'] eqn:Hms; simpl in *; [| auto].
  destruct (Hh e s') as [Hw' Hc']. split; congruence.
Qed.


End Rules.

Section Store.
Context `{Backend}.

Lemma read_unit (q : query) (d : db) :
  writes (log (fetch_all (Select q) d).2) = writes (log d) /\
  committed (fetch_all (Select q) d).2 = committed d.
Proof.
  rewrite Work.fetch_all_eq. destruct (rejects _ _); cbn [snd];
    unfold rolled_back, committed_once; cbn [log committed];
    rewrite StoreFacts.writes_unit; cbn; now rewrite app_nil_r.
Qed.

Lemma write_unit {A} (f : list tuple -> A) (q : stmt) (d : db) :
  exists l,
    writes (log (get_conn (fun c =>
      match cur_execute q c with
      | (inr rows, c') => (inr (f rows), c')
      | (inl e, c') => (inl e, c')
      end) d).2) = writes (log d) ++ l /\
    (l = [] \/ l = [q]).
Proof.
  rewrite Work.get_conn_cur_execute.
  exists (List.filter is_write [q]).
  split.
  - destruct (rejects _ _); cbn [snd]; unfold rolled_back, committed_once; cbn [log];
      now rewrite StoreFacts.writes_unit.
  - cbn. destruct (is_write q); auto.
Qed.

End Store.

End Sends.

Module StripFacts.
Import Py Spec.

Lemma rstrip_head (s : string) (c : ascii) (t : string) :
  rstrip s = String c t -> exists s', s = String c s'.
Proof.
  destruct s as [|x s]; simpl; [discriminate |].
  destruct (rstrip s); [destruct (is_space x) |]; intros [= <- _]; eauto.
Qed.

Lemma rstrip_idempotent (s : string) : rstrip (rstrip s) = rstrip s.
Proof.
  induction s as [|x s IH]; simpl; [reflexivity |].
  destruct (rstrip s) as [|y t] eqn:Hr.
  - destruct (is_space x) eqn:Hx; simpl; [reflexivity | now rewrite Hx].
  - cbn [rstrip]. cbn [rstrip] in IH. now rewrite IH.
Qed.

Lemma lstrip_head (s : string) :
  lstrip s = "" \/ exists c t, lstrip s = String c t /\ is_space c = false.
Proof.
  induction s as [|x s IH]; simpl; [now left |].
  destruct (is_space x) eqn:Hx; [exact IH | right; eauto].
Qed.

(** [s.strip().strip() == s.strip()] *)
Lemma strip_idempotent (s : string) : strip (strip s) = strip s.
Proof.
  unfold strip at 1. 
  assert (Hl : lstrip (strip s) = strip s).
  { unfold strip. destruct (rstrip (lstrip s)) as [|c t] eqn:Hr; [reflexivity |].
    destruct (rstrip_head _ _ _ Hr) as [s' Hs'].
    destruct (lstrip_head s) as [He | (c' & t' & He & Hc)]; [congruence |].
    assert (c' = c) as -> by congruence. simpl. now rewrite Hc. }
  rewrite Hl. apply rstrip_idempotent.
Qed.

Lemma strip_not_blank (l : string) : strip l <> "" -> Gui.blank (strip l) = false.
Proof.
  intros Hne. unfold Gui.blank. rewrite strip_idempotent. now apply String.eqb_neq.
Qed.

End StripFacts.

Module CreateFacts.
Import Py Sql Db Eff Spec Cli Sends.

Section Facts.
Context `{Lib} `{Backend}.

Let needs : stmt -> Prop := fun q => required_present q = true.

Lemma call_result {A} (f : db -> (exn + A) * db) (w : world) :
  (call f w).1 = (f (database w)).1 /\ database (call f w).2 = (f (database w)).2.
Proof. unfold call. destruct (f (database w)); auto. Qed.

Lemma sends_insert (P : stmt -> Prop) (q : stmt) :
  P q -> sends_only database P (call (execute_returning q)).
Proof.
  intros HP w. split; [| auto].
  destruct (call_result (execute_returning q) w) as [_ ->].
  destruct (Sends.write_unit
    (fun rows => match rows with (v :: _) :: _ => v | _ => VNone end) q (database w))
    as (l & Hl & Hcase).
  exists l. split; [exact Hl |]. destruct Hcase as [-> | ->]; auto.
Qed.

Lemma sends_print (P : stmt -> Prop) (s : string) : sends_only database P (print s).
Proof. apply yields_same_db; auto. Qed.

Lemma sends_print_error (P : stmt -> Prop) (context : string) (e : exn) :
  sends_only database P (print_error context e).
Proof. apply yields_same_db; auto. Qed.

Lemma prompting_yields {A} (P : stmt -> Prop) (Q : A -> Prop) loop :
  (forall lines o r lines' o', loop lines o = (inr r, (lines', o')) -> Q r) ->
  yields database P Q (prompting loop).
Proof.
  intros HQ. apply yields_same_db.
  - intros w. unfold prompting. now destruct (loop _ _) as [r [lines o]].
  - intros w a. unfold prompting.
    destruct (loop _ _) as [r [lines o]] eqn:Hl. simpl. intros ->. eapply HQ, Hl.
Qed.

Lemma required_str (P : stmt -> Prop) (label : string) :
  yields database P (fun r => present_str (ostr r) = true) (prompt_str label false).
Proof.
  apply prompting_yields. intros lines o r lines' o' Hl.
  revert o Hl. induction lines as [|l lines IH]; intros o; cbn [prompt_str_loop].
  - discriminate.
  - destruct (String.eqb (strip l) "") eqn:He; cbn [negb].
    + apply IH.
    + intros [= <- _ _]. simpl. apply String.eqb_neq in He.
      now rewrite StripFacts.strip_not_blank.
Qed.

Lemma required_int (P : stmt -> Prop) (label : string) :
  yields database P (fun r => present_int (oint r) = true) (prompt_int label false).
Proof.
  apply prompting_yields. intros lines o r lines' o' Hl.
  apply PromptFacts.prompt_int_required in Hl as [n ->]. reflexivity.
Qed.

Lemma any_answer {A} (P : stmt -> Prop) (loop : list string -> list out -> _) :
  yields database P (fun _ : A => True) (prompting loop).
Proof. apply prompting_yields. auto. Qed.

(** Prompt after prompt, then the one statement inside [try]. *)
Ltac creating :=
  repeat (cbv zeta; first
    [ eapply yields_bind; [apply required_str | intros ? ?]
    | eapply yields_bind; [apply required_int | intros ? ?]
    | eapply yields_bind; [apply any_answer | intros ? _] ]);
  apply yields_try; [| intros; apply sends_print_error];
  eapply yields_bind; [apply sends_insert | intros; apply sends_print];
  unfold needs; cbv beta in *; cbn;
  repeat match goal with Hp : _ = true |- _ => rewrite Hp; clear Hp end;
  reflexivity.

Lemma create_team_needs : sends_only database needs create_team.
Proof. unfold create_team, sends_only. creating. Qed.

Lemma create_player_needs : sends_only database needs create_player.
Proof. unfold create_player, sends_only. creating. Qed.

Lemma create_tournament_needs : sends_only database needs create_tournament.
Proof. unfold create_tournament, sends_only. creating. Qed.

Lemma create_map_needs : sends_only database needs create_map.
Proof. unfold create_map, sends_only. creating. Qed.

Lemma create_match_needs : sends_only database needs create_match.
Proof. unfold create_match, sends_only. creating. Qed.

Lemma create_result_needs : sends_only database needs create_result.
Proof. unfold create_result, sends_only. creating. Qed.

Lemma add_to_roster_needs : sends_only database needs add_to_roster.
Proof. unfold add_to_roster, sends_only. creating. Qed.

End Facts.

End CreateFacts.

(** ** Facts about the window *)

Module GuiFacts.
Import Py Sql Db Eff Spec Gui Sends.

Section Facts.
Context `{Lib} `{Backend} {W : Type}.

Lemma ui_call_result {A} (f : db -> (exn + A) * db) (u : ui W) :
  (call f u).1 = (f (database u)).1 /\ database (call f u).2 = (f (database u)).2.
Proof. unfold call. destruct (f (database u)); auto. Qed.

Lemma error_eq (msg : string) (u : ui W) :
  friendly_error (Exception msg) = msg -> error msg u = (inr tt, refused u msg).
Proof. intros Hmsg. unfold error, bind, show, set_status, refused. simpl. now rewrite Hmsg. Qed.

Lemma quiet_error (msg : string) : quiet (@database W) (error msg).
Proof. apply quiet_same_db. reflexivity. Qed.

Lemma quiet_read (q : query) : quiet (@database W) (call (fetch_all (Select q))).
Proof.
  intros u. destruct (ui_call_result (fetch_all (Select q)) u) as [_ ->].
  apply Sends.read_unit.
Qed.

(** One write inside [try], then code that only reads: the write is the
    one statement sent, and the committed contents are those the write
    leaves when the store takes it, the old ones when it does not. *)
Lemma write_then_quiet (q : stmt) (k : G W unit) (h : exn -> G W unit) (u : ui W) :
  is_write q = true -> quiet database k -> (forall e, quiet database (h e)) ->
  let u' := (try_ (let* _ := call (execute q) in k) h u).2 in
  writes (log (database u')) = writes (log (database u)) ++ [q] /\
  committed (database u') =
    match rejects q (committed (database u)) with
    | Some _ => committed (database u)
    | None => (effect q (committed (database u))).2
    end.
Proof.
  intros Hq Hk Hh. unfold try_, bind.
  destruct (ui_call_result (execute q) u) as [Hr Hd].
  destruct (call (execute q) u) as [r u1]. simpl in Hr, Hd.
  rewrite Work.execute_eq in Hr, Hd.
  assert (Hw : writes (log (database u1)) = writes (log (database u)) ++ [q]).
  { rewrite Hd. destruct (rejects _ _); cbn [snd]; unfold rolled_back, committed_once;
      cbn [log]; rewrite StoreFacts.writes_unit; cbn; now rewrite Hq. }
  destruct (rejects q (committed (database u))) as [msg|]; simpl in Hr, Hd; subst r.
  - destruct (Hh (DatabaseError msg) u1) as [Hw' Hc']. cbv zeta.
    rewrite Hw', Hc', Hw, Hd. auto.
  - destruct (Hk u1) as [Hw1 Hc1]. cbv zeta.
    destruct (k u1) as [[e | []] u2]; simpl in *.
    + destruct (Hh e u2) as [Hw' Hc']. rewrite Hw', Hc', Hw1, Hc1, Hw, Hd. auto.
    + rewrite Hw1, Hc1, Hw, Hd. auto.
Qed.

Lemma sends_write_then_quiet (P : stmt -> Prop) (q : stmt) (k : G W unit)
    (h : exn -> G W unit) :
  is_write q = true -> P q -> quiet database k -> (forall e, quiet database (h e)) ->
  sends_only database P (try_ (let* _ := call (execute q) in k) h).
Proof.
  intros Hq HP Hk Hh u. split; [| auto].
  destruct (write_then_quiet q k h u Hq Hk Hh) as [Hw _].
  exists [q]. auto.
Qed.

End Facts.

(** Code of a form that touches the store by reading only. *)
Ltac quietly :=
  repeat first
    [ apply quiet_read
    | apply quiet_error
    | apply quiet_same_db; reflexivity
    | apply quiet_bind; [| intros ?]
    | apply quiet_try; [| intros ?] ].

Section Frames.
Context `{Lib} `{Backend}.

Lemma teams_refresh_quiet : quiet database TeamsFrame.refresh.
Proof. unfold TeamsFrame.refresh. quietly. Qed.

Lemma players_refresh_quiet : quiet database PlayersFrame.refresh.
Proof. unfold PlayersFrame.refresh. quietly. Qed.

Lemma tournaments_refresh_quiet : quiet database TournamentsFrame.refresh.
Proof. unfold TournamentsFrame.refresh. quietly. Qed.

Lemma matches_refresh_quiet : quiet database MatchesFrame.refresh.
Proof. unfold MatchesFrame.refresh. quietly. Qed.

Lemma results_refresh_quiet : quiet database ResultsFrame.refresh.
Proof. unfold ResultsFrame.refresh. quietly. Qed.

End Frames.

End GuiFacts.

(** ** Deleting *)

Module DeleteFacts.
Import Py Sql Db Eff Spec Sends GuiFacts.

Section Console.
Import Cli.
Context `{Lib} `{Backend}.
Hypothesis Habsent : absent_deletes_pass.

Lemma error_line_differs (context text done : string) (o : list out) :
  String.get 0 done <> Some "["%char ->
  o ++ [Line ("[Error] " +:+ context +:+ ": " +:+ text)] <> o ++ [Line done].
Proof.
  intros Hd Heq. apply app_inv_head in Heq. injection Heq as Heq.
  rewrite <- Heq in Hd. now apply Hd.
Qed.

Lemma send_delete_idempotent tbl key_col done context :
  String.get 0 done <> Some "["%char ->
  deletes_idempotently
    (fun id => send_delete tbl key_col id done context) tbl key_col done.
Proof.
  intros Hdone id w. cbv zeta. rewrite !ConsoleFacts.send_delete_eq. cbv zeta.
  destruct (rejects (Delete tbl key_col (VInt id)) (committed (database w)))
    as [msg|] eqn:Hrej; cbn [snd].
  - split; [| split].
    + cbn. now rewrite StoreFacts.statements_app.
    + intros Ha. rewrite (Habsent _ _ _ _ Ha) in Hrej. discriminate.
    + cbn. intros Hout. now apply error_line_differs in Hout.
  - assert (Hgone : absent
      (committed (committed_once (Delete tbl key_col (VInt id)) (database w))) tbl id)
      by apply (StoreFacts.delete_makes_absent _ key_col).
    split; [| split].
    + cbn. now rewrite StoreFacts.statements_app.
    + intros Ha. split; [reflexivity |]. cbn. now apply (StoreFacts.delete_absent_same _ key_col).
    + intros _. cbn [said database].
      rewrite (Habsent _ key_col _ _ Hgone). cbn. split; [reflexivity |].
      now apply (StoreFacts.delete_absent_same _ key_col).
Qed.

End Console.

Section Window.
Import Gui.
Context `{Lib} `{Backend} {W : Type}.
Hypothesis Habsent : absent_deletes_pass.
Hypothesis Hreads : reads_pass.

(** Code that, the store answering reads, returns and shows no box. *)
Definition calm {A} (m : G W A) : Prop :=
  forall u, (exists a, (m u).1 = inr a) /\ dialogs (m u).2 = dialogs u.

Lemma calm_same {A} (m : G W A) :
  (forall u, exists a, (m u).1 = inr a) -> (forall u, dialogs (m u).2 = dialogs u) -> calm m.
Proof. intros Ha Hd u. auto. Qed.

Lemma calm_bind {A B} (m : G W A) (k : A -> G W B) :
  calm m -> (forall a, calm (k a)) -> calm (bind m k).
Proof.
  intros Hm Hk u. destruct (Hm u) as [[a Ha] Hd]. unfold bind.
  destruct (m u) as [r u1]. simpl in Ha, Hd. subst r.
  destruct (Hk a u1) as [Hb Hd']. split; [exact Hb | congruence].
Qed.

Lemma calm_read (q : query) : calm (call (fetch_all (Select q))).
Proof.
  intros u. unfold call. rewrite Work.fetch_all_eq, Hreads. simpl. eauto.
Qed.

Lemma delete_selected_spec (what tbl key_col : string) (refresh clear_form : G W unit) :
  quiet database refresh -> quiet database clear_form ->
  calm refresh -> calm clear_form ->
  deletes_selected (delete_selected what tbl key_col refresh clear_form) what tbl key_col.
Proof.
  intros Hqr Hqc Hcr Hcc u id rest Hsel Hid Hconfirm. cbv zeta.
  set (q := Delete tbl key_col (VInt id)).
  set (k := let* _ := refresh in let* _ := clear_form in
            set_status ("Deleted " +:+ what +:+ " " +:+ str_value (VInt id))).
  set (u0 := (askyesno ("Delete selected " +:+ what +:+ "?") u).2).
  assert (Hrun : delete_selected what tbl key_col refresh clear_form u =
                 try_ (let* _ := call (execute q) in k) (fun e => error (str_exn e)) u0).
  { unfold delete_selected, bind at 1, get_selected_id. rewrite Hsel. cbn [truthy negb].
    destruct (Z.eqb_spec id 0) as [-> | _]; [congruence |]. cbn [negb].
    unfold bind at 1. unfold u0, askyesno. cbn [fst snd]. rewrite Hconfirm. reflexivity. }
  rewrite Hrun.
  assert (Hk : quiet database k) by (unfold k; quietly; assumption).
  destruct (write_then_quiet q k (fun e => error (str_exn e)) u0 eq_refl Hk
              ltac:(intros; apply quiet_error)) as [Hw Hc].
  assert (Hok : rejects q (committed (database u)) = None ->
    status_var (try_ (let* _ := call (execute q) in k) (fun e => error (str_exn e)) u0).2 =
      "Deleted " +:+ what +:+ " " +:+ str_of_int id /\
    dialogs (try_ (let* _ := call (execute q) in k) (fun e => error (str_exn e)) u0).2 =
      dialogs u ++ [AskYesNo ("Delete selected " +:+ what +:+ "?")]).
  { intros Hrej.
    assert (Hres : exists u2,
      try_ (let* _ := call (execute q) in k) (fun e => error (str_exn e)) u0 =
        set_status ("Deleted " +:+ what +:+ " " +:+ str_value (VInt id)) u2 /\
      dialogs u2 = dialogs u0).
    { unfold try_, bind at 1, call. rewrite Work.execute_eq.
      change (committed (database u0)) with (committed (database u)). rewrite Hrej.
      cbn [fst snd]. unfold k, bind.
      match goal with |- context [refresh ?x] =>
        destruct (Hcr x) as [[[] Hr1] Hd1]; destruct (refresh x) as [r1 u1] end.
      cbn [fst snd dialogs] in Hr1, Hd1. subst r1.
      destruct (Hcc u1) as [[[] Hr2] Hd2]. destruct (clear_form u1) as [r2 u2].
      cbn [fst snd] in Hr2, Hd2. subst r2.
      exists u2. split; [reflexivity | congruence]. }
    destruct Hres as (u2 & -> & Hd). cbn [snd set_status status_var dialogs].
    split; [reflexivity |]. rewrite Hd. reflexivity. }
  subst q. split; [exact Hw |]. split.
  - intros Ha. specialize (Hok (Habsent _ _ _ _ Ha)) as [Hs Hd].
    repeat split; try assumption.
    rewrite Hc. change (committed (database u0)) with (committed (database u)).
    rewrite (Habsent _ _ _ _ Ha). now apply (StoreFacts.delete_absent_same _ key_col).
  - intros Hrej. specialize (Hok Hrej) as [Hs Hd]. repeat split; try assumption.
    rewrite Hc. change (committed (database u0)) with (committed (database u)).
    rewrite Hrej. apply (StoreFacts.delete_makes_absent _ key_col).
Qed.

End Window.

End DeleteFacts.

Module Deleting.
Import Py Sql Db Eff Spec Sends GuiFacts DeleteFacts.

Ltac calmly Hreads :=
  repeat first
    [ apply (calm_read Hreads)
    | apply calm_same; [intros ?; eexists; reflexivity | reflexivity]
    | apply calm_bind; [| intros ?] ].

Ltac conjuncts := repeat match goal with |- _ /\ _ => split end.

Ltac asking :=
  let Hin := fresh "Hin" in
  let Hrej := fresh "Hrej" in
  intros ? ? ? ? Hin ? Hrej; unfold bind at 1;
  rewrite PromptFacts.listing_eq, Hrej; unfold bind;
  erewrite PromptFacts.prompt_int_answer by (first [exact Hin | eassumption]);
  reflexivity.

Ltac reloading Hreads :=
  first [ solve [quietly]
        | solve [first [ apply teams_refresh_quiet | apply players_refresh_quiet
                       | apply tournaments_refresh_quiet | apply matches_refresh_quiet
                       | apply results_refresh_quiet ]]
        | first [ unfold Gui.TeamsFrame.refresh | unfold Gui.TeamsFrame.clear_form
                | unfold Gui.PlayersFrame.refresh | unfold Gui.PlayersFrame.clear_form
                | unfold Gui.TournamentsFrame.refresh | unfold Gui.TournamentsFrame.clear_form
                | unfold Gui.MatchesFrame.refresh | unfold Gui.MatchesFrame.clear_form
                | unfold Gui.ResultsFrame.refresh | unfold Gui.ResultsFrame.clear_form ];
          calmly Hreads ].

(** The demonstration store keeps both promises. *)
Lemma demo_absent_deletes_pass : @absent_deletes_pass Demo.backend.
Proof.
  intros tbl key_col k s Ha. cbn. unfold Demo.demo_rejects.
  destruct (String.eqb_spec tbl "teams") as [-> |]; [| reflexivity].
  unfold absent, row_of in Ha.
  destruct (s !! "teams") as [t|]; cbn; [rewrite Ha |]; reflexivity.
Qed.

Lemma demo_reads_pass : @reads_pass Demo.backend.
Proof. intros q s. reflexivity. Qed.

(** C9.  Deleting by id is idempotent for every entity, the store taking
    any DELETE that matches no row and answering reads.  In the console
    each delete function, once it has listed and got its id, sends one
    DELETE keyed by that id without looking for the row, reports
    "... deleted (if it existed)." when the row is missing, and reports
    it again, changing nothing, when called once more after a success.
    In the window each tab's delete, a row selected and the user
    confirming, sends the DELETE as unconditionally and reports
    "Deleted <what> <id>" with no error box when the row is missing;
    a DELETE the store took leaves the row missing. *)
Theorem delete_is_idempotent `{Lib} `{Backend} :
  absent_deletes_pass -> reads_pass ->
  (deletes_idempotently Cli.delete_team_with "teams" "team_id"
     "Team deleted (if it existed)." /\
   deletes_idempotently Cli.delete_player_with "players" "player_id"
     "Player deleted (if it existed)." /\
   deletes_idempotently Cli.delete_tournament_with "tournaments" "tournament_id"
     "Tournament deleted (if it existed)." /\
   deletes_idempotently Cli.delete_map_with "maps" "map_id" "Map deleted (if it existed)." /\
   deletes_idempotently Cli.delete_match_with "matches" "match_id"
     "Match deleted (if it existed)." /\
   deletes_idempotently Cli.delete_result_with "tournament_results" "result_id"
     "Result deleted (if it existed)." /\
   deletes_idempotently Cli.remove_from_roster_with "team_roster" "roster_id"
     "Roster entry deleted (if it existed).") /\
  (asks_then_deletes Cli.delete_team Cli.teams_query ["ID"; "Name"; "Region"; "Founded"]
     "Enter team ID to delete" Cli.delete_team_with /\
   asks_then_deletes Cli.delete_player Cli.players_query
     ["ID"; "Name"; "Country"; "Role"; "Team"]
     "Enter player ID to delete" Cli.delete_player_with /\
   asks_then_deletes Cli.delete_tournament Cli.tournaments_query
     ["ID"; "Name"; "Organizer"; "Prize"; "Start"; "End"; "Location"]
     "Enter tournament ID to delete" Cli.delete_tournament_with /\
   asks_then_deletes Cli.delete_map Cli.maps_query ["ID"; "Map"]
     "Enter map ID to delete" Cli.delete_map_with /\
   asks_then_deletes Cli.delete_match Cli.matches_query
     ["ID"; "Tournament"; "Team1"; "Team2"; "Winner"; "Map"; "Date"; "BO"; "T1"; "T2"]
     "Enter match ID to delete" Cli.delete_match_with /\
   asks_then_deletes Cli.delete_result Cli.results_query
     ["ID"; "Tournament"; "Team"; "Place"; "Earnings"]
     "Enter result ID to delete" Cli.delete_result_with /\
   asks_then_deletes Cli.remove_from_roster Cli.roster_query
     ["ID"; "Team"; "Player"; "Active"]
     "Roster ID to delete" Cli.remove_from_roster_with) /\
  (deletes_selected Gui.TeamsFrame.delete "team" "teams" "team_id" /\
   deletes_selected Gui.PlayersFrame.delete "player" "players" "player_id" /\
   deletes_selected Gui.TournamentsFrame.delete "tournament" "tournaments" "tournament_id" /\
   deletes_selected Gui.MatchesFrame.delete "match" "matches" "match_id" /\
   deletes_selected Gui.ResultsFrame.delete "result" "tournament_results" "result_id").
Proof.
  intros Habsent Hreads. split; [| split].
  - conjuncts; apply (send_delete_idempotent Habsent); discriminate.
  - conjuncts.
    + unfold Cli.delete_team, Cli.list_teams. asking.
    + unfold Cli.delete_player, Cli.list_players. asking.
    + unfold Cli.delete_tournament, Cli.list_tournaments. asking.
    + unfold Cli.delete_map, Cli.list_maps. asking.
    + unfold Cli.delete_match, Cli.list_matches. asking.
    + unfold Cli.delete_result, Cli.list_results. asking.
    + unfold Cli.remove_from_roster, Cli.list_roster. asking.
  - conjuncts; apply (delete_selected_spec Habsent); reloading Hreads.
Qed.

(** Deleting team 99, which the demonstration store does not hold. *)
Lemma delete_is_idempotent_witness :
  Cli.stdout (@Cli.delete_team_with Demo.backend 99 (Demo.console [])).2 =
    [Cli.Line "Team deleted (if it existed)."] /\
  committed (Cli.database (@Cli.delete_team_with Demo.backend 99 (Demo.console [])).2) =
    Demo.league.
Proof.
  destruct (@delete_is_idempotent Demo.lib Demo.backend
              demo_absent_deletes_pass demo_reads_pass) as ((Hteam & _) & _ & _).
  apply (Hteam 99 (Demo.console [])). vm_compute. reflexivity.
Defined.

(** A team that still has a player is not removed: the store objects,
    the console reports it and the team stays. *)
Example delete_referenced_team :
  let run := @Cli.delete_team_with Demo.backend 1 (Demo.console []) in
  Cli.stdout run.2 =
    [Cli.Line "[Error] Deleting team: update or delete on table teams violates foreign key constraint players_team_id_fkey"] /\
  committed (Cli.database run.2) = Demo.league.
Proof. split; vm_compute; reflexivity. Qed.

End Deleting.

(** ** The forms of the window *)

Module WindowFacts.
Import Py Sql Db Eff Spec Gui Sends GuiFacts.

Section Facts.
Context `{Lib} `{Backend}.

Lemma teams_create_blank (u : ui TeamsFrame.form) :
  blank (TeamsFrame.name (widgets u)) || blank (TeamsFrame.region (widgets u)) = true ->
  TeamsFrame.create u = (inr tt, refused u "team name and region are required").
Proof.
  intros Hb. unfold TeamsFrame.create, bind at 1, get_widgets. cbn [fst snd].
  rewrite Hb. now apply error_eq.
Qed.

Lemma players_create_blank (u : ui PlayersFrame.form) :
  blank (PlayersFrame.entries (widgets u)).1.1 = true ->
  PlayersFrame.create u = (inr tt, refused u "player name is required").
Proof.
  intros Hb. unfold PlayersFrame.create, bind at 1, get_widgets. cbn [fst snd].
  destruct (PlayersFrame.entries (widgets u)) as [[n c] r]. cbn [fst snd] in Hb.
  rewrite Hb. now apply error_eq.
Qed.

Lemma tournaments_create_blank (u : ui TournamentsFrame.form) :
  blank (TournamentsFrame.entries (widgets u)).1.1.1.1.1 = true ->
  TournamentsFrame.create u = (inr tt, refused u "tournament name is required").
Proof.
  intros Hb. unfold TournamentsFrame.create, bind at 1, get_widgets. cbn [fst snd].
  destruct (TournamentsFrame.entries (widgets u)) as [[[[[n o] p] s] e] l].
  cbn [fst snd] in Hb. rewrite Hb. now apply error_eq.
Qed.

Lemma results_create_blank (u : ui ResultsFrame.form) :
  blank (ResultsFrame.tournament_cb (widgets u)) ||
  blank (ResultsFrame.team_cb (widgets u)) ||
  blank (ResultsFrame.entries (widgets u)).1 = true ->
  ResultsFrame.create u = (inr tt, refused u "tournament, team, placement are required").
Proof.
  intros Hb. unfold ResultsFrame.create, bind at 1, get_widgets. cbn [fst snd].
  destruct (ResultsFrame.entries (widgets u)) as [p e]. cbn [fst snd] in Hb.
  rewrite Hb. now apply error_eq.
Qed.

(** What a dropdown that holds an offered value parses to. *)
Lemma offered_parses (v : string) :
  offered v ->
  (v = "" /\ parse_combo_id (Some v) = inr None) \/
  (v <> "" /\ exists id, parse_combo_id (Some v) = inr (Some id)).
Proof.
  intros [-> | (id & label & ->)]; [now left | right].
  split.
  - unfold entry. pose proof (PyFacts.str_of_int_nonempty id) as Hne.
    destruct (str_of_int id); [congruence | discriminate].
  - exists id. apply Selector.parse_combo_id_entry.
Qed.

Lemma parse_empty : parse_combo_id (Some "") = inr None.
Proof. reflexivity. Qed.

Lemma matches_create_blank (u : ui MatchesFrame.form) :
  offered (MatchesFrame.tournament_cb (widgets u)) ->
  offered (MatchesFrame.team1_cb (widgets u)) ->
  offered (MatchesFrame.team2_cb (widgets u)) ->
  MatchesFrame.tournament_cb (widgets u) = "" \/
  MatchesFrame.team1_cb (widgets u) = "" \/
  MatchesFrame.team2_cb (widgets u) = "" ->
  MatchesFrame.create u = (inr tt, refused u "tournament and both teams are required").
Proof.
  intros Ht H1 H2 Hblank.
  unfold MatchesFrame.create, bind at 1, get_widgets. cbn [fst snd].
  destruct (MatchesFrame.entries (widgets u)) as [[[dv bv] s1] s2].
  unfold try_, bind, lift.
  destruct (offered_parses _ Ht) as [[Et ->] | [Nt [t ->]]];
  destruct (offered_parses _ H1) as [[E1 ->] | [N1 [a ->]]];
  destruct (offered_parses _ H2) as [[E2 ->] | [N2 [b ->]]];
  try (now apply error_eq).
  exfalso. destruct Hblank as [? | [? | ?]]; congruence.
Qed.

(** Whatever the dropdowns hold, a match with a required dropdown left
    empty sends nothing. *)
Lemma matches_create_blank_sends_nothing (u : ui MatchesFrame.form) :
  MatchesFrame.tournament_cb (widgets u) = "" \/
  MatchesFrame.team1_cb (widgets u) = "" \/
  MatchesFrame.team2_cb (widgets u) = "" ->
  database (MatchesFrame.create u).2 = database u.
Proof.
  intros Hblank.
  unfold MatchesFrame.create, bind at 1, get_widgets. cbn [fst snd].
  destruct (MatchesFrame.entries (widgets u)) as [[[dv bv] s1] s2].
  unfold try_, bind, lift.
  destruct Hblank as [-> | [-> | ->]]; rewrite ?parse_empty;
    repeat match goal with
           | |- context [parse_combo_id ?x] => destruct (parse_combo_id x) as [? | []]
           end; reflexivity.
Qed.





End Facts.

End WindowFacts.

Module WindowUpdates.
Import Py Sql Db Eff Spec Gui Sends GuiFacts.


Section Matches.
Context `{Lib} `{Backend}.

End Matches.

Section FullRow.
Context `{Lib} `{Backend}.






End FullRow.

End WindowUpdates.

(** ** Creating *)

Module Creating.
Import Py Sql Db Eff Spec.

Ltac conjuncts := repeat match goal with |- _ /\ _ => split end.

(** C7.  No entity is created with a required field blank.  The console
    asks again: a blank line at a required prompt is answered with
    "Please enter a value." (text) or "Enter a valid integer." (number)
    and the prompt repeats, so every creating statement a console
    function sends carries its required fields.  The window refuses: a
    form with a required field blank shows its "... required" error and
    sends nothing. *)
Theorem create_requires_its_fields `{Lib} `{Backend} :
  let needs := fun q => required_present q = true in
  (sends_only Cli.database needs Cli.create_team /\
   sends_only Cli.database needs Cli.create_player /\
   sends_only Cli.database needs Cli.create_tournament /\
   sends_only Cli.database needs Cli.create_map /\
   sends_only Cli.database needs Cli.create_match /\
   sends_only Cli.database needs Cli.create_result /\
   sends_only Cli.database needs Cli.add_to_roster) /\
  (forall label l lines o, strip l = "" ->
     Cli.prompt_str_loop label false (l :: lines) o =
     Cli.prompt_str_loop label false lines
       ((o ++ [Cli.Ask (label +:+ ": ")]) ++ [Cli.Line "Please enter a value."])) /\
  (forall label l lines o, strip l = "" ->
     Cli.prompt_int_loop label false (l :: lines) o =
     Cli.prompt_int_loop label false lines
       ((o ++ [Cli.Ask (label +:+ ": ")]) ++ [Cli.Line "Enter a valid integer."])) /\
  (forall u : Gui.ui Gui.TeamsFrame.form,
     Gui.blank (Gui.TeamsFrame.name (Gui.widgets u)) ||
     Gui.blank (Gui.TeamsFrame.region (Gui.widgets u)) = true ->
     Gui.TeamsFrame.create u = (inr tt, refused u "team name and region are required")) /\
  (forall u : Gui.ui Gui.PlayersFrame.form,
     Gui.blank (Gui.PlayersFrame.entries (Gui.widgets u)).1.1 = true ->
     Gui.PlayersFrame.create u = (inr tt, refused u "player name is required")) /\
  (forall u : Gui.ui Gui.TournamentsFrame.form,
     Gui.blank (Gui.TournamentsFrame.entries (Gui.widgets u)).1.1.1.1.1 = true ->
     Gui.TournamentsFrame.create u = (inr tt, refused u "tournament name is required")) /\
  (forall u : Gui.ui Gui.MatchesFrame.form,
     Gui.MatchesFrame.tournament_cb (Gui.widgets u) = "" \/
     Gui.MatchesFrame.team1_cb (Gui.widgets u) = "" \/
     Gui.MatchesFrame.team2_cb (Gui.widgets u) = "" ->
     Gui.database (Gui.MatchesFrame.create u).2 = Gui.database u /\
     (offered (Gui.MatchesFrame.tournament_cb (Gui.widgets u)) ->
      offered (Gui.MatchesFrame.team1_cb (Gui.widgets u)) ->
      offered (Gui.MatchesFrame.team2_cb (Gui.widgets u)) ->
      Gui.MatchesFrame.create u =
        (inr tt, refused u "tournament and both teams are required"))) /\
  (forall u : Gui.ui Gui.ResultsFrame.form,
     Gui.blank (Gui.ResultsFrame.tournament_cb (Gui.widgets u)) ||
     Gui.blank (Gui.ResultsFrame.team_cb (Gui.widgets u)) ||
     Gui.blank (Gui.ResultsFrame.entries (Gui.widgets u)).1 = true ->
     Gui.ResultsFrame.create u =
       (inr tt, refused u "tournament, team, placement are required")).
Proof.
  intros needs. conjuncts.
  - apply CreateFacts.create_team_needs.
  - apply CreateFacts.create_player_needs.
  - apply CreateFacts.create_tournament_needs.
  - apply CreateFacts.create_map_needs.
  - apply CreateFacts.create_match_needs.
  - apply CreateFacts.create_result_needs.
  - apply CreateFacts.add_to_roster_needs.
  - intros. now apply PromptFacts.prompt_str_blank_again.
  - intros. now apply PromptFacts.prompt_int_blank_again.
  - apply WindowFacts.teams_create_blank.
  - apply WindowFacts.players_create_blank.
  - apply WindowFacts.tournaments_create_blank.
  - intros u Hblank. split.
    + now apply WindowFacts.matches_create_blank_sends_nothing.
    + intros. now apply WindowFacts.matches_create_blank.
  - apply WindowFacts.results_create_blank.
Qed.

(** A team form with the region left blank, on the demonstration store. *)
Lemma create_requires_its_fields_witness :
  let form := {| Gui.TeamsFrame.name := "Gamma"; Gui.TeamsFrame.region := "  ";
                 Gui.TeamsFrame.founded := "" |} in
  @Gui.TeamsFrame.create Demo.lib Demo.backend (Demo.window form None) =
    (inr tt, refused (Demo.window form None) "team name and region are required").
Proof.
  intros form.
  destruct (@create_requires_its_fields Demo.lib Demo.backend) as (_ & _ & _ & Hteams & _).
  apply Hteams. reflexivity.
Defined.

(** Two blank answers, then a name: the console asks three times and
    sends one INSERT, with the name given at last. *)
Example create_map_asks_again :
  let run := @Cli.create_map Demo.lib Demo.backend (Demo.console [""; "  "; " Mirage "]) in
  statements (log (Cli.database run.2)) =
    [Insert "maps" ["map_name"] [VStr "Mirage"] "map_id"] /\
  Cli.stdout run.2 =
    [Cli.Ask "Map name: "; Cli.Line "Please enter a value.";
     Cli.Ask "Map name: "; Cli.Line "Please enter a value.";
     Cli.Ask "Map name: "; Cli.Line "Created map with id 1."].
Proof. split; vm_compute; reflexivity. Qed.

End Creating.

(** ** Updating *)

Module Updating.
Import Py Sql Db Eff Spec.

Ltac conjuncts := repeat match goal with |- _ /\ _ => split end.




(** The match form does not strip: spaces in a number field make
    [parse_int] raise outside any [try], and no error box is shown. *)
Example match_update_of_spaces_raises :
  let form := {| Gui.MatchesFrame.tournament_cb := ""; Gui.MatchesFrame.team1_cb := "";
                 Gui.MatchesFrame.team2_cb := ""; Gui.MatchesFrame.winner_cb := "";
                 Gui.MatchesFrame.map_cb := ""; Gui.MatchesFrame.entries := ("", " ", "", "");
                 Gui.MatchesFrame.tournament_values := [];
                 Gui.MatchesFrame.team_values := []; Gui.MatchesFrame.map_values := [] |} in
  let run := @Gui.MatchesFrame.update Demo.lib Demo.backend
               (Demo.window form (Some [VInt 1])) in
  run.1 = inl (ValueError "invalid literal for int() with base 10: ' '") /\
  Gui.dialogs run.2 = [] /\
  log (Gui.database run.2) = [].
Proof. repeat split; vm_compute; reflexivity. Qed.

End Updating.

(** ** Which columns an update writes *)

Module Targeting.
Import Py Sql Db Eff Spec.

Ltac conjuncts := repeat match goal with |- _ /\ _ => split end.




End Targeting.

(** ** The prompts *)

Module Prompts.
Import Py Sql Db Eff Spec Cli Runs.

Section Loops.
Context `{Lib} `{Backend}.

Lemma prompt_str_loop_required label lines o :
  (exists v lines' o',
     prompt_str_loop label false lines o = (inr (Some v), (lines', o')) /\
     v <> "" /\ strip v = v) \/
  (exists o', prompt_str_loop label false lines o = (inl EOFError, ([], o'))).
Proof.
  revert o. induction lines as [|l lines IH]; intros o; cbn [prompt_str_loop].
  - right. eauto.
  - destruct (String.eqb (strip l) "") eqn:He; cbn [negb]; [apply IH |].
    left. exists (strip l), lines, (o ++ [Ask (label +:+ ": ")]).
    split; [reflexivity |]. split; [now apply String.eqb_neq |].
    apply StripFacts.strip_idempotent.
Qed.

Lemma prompt_int_loop_required label lines o :
  (exists n lines' o', prompt_int_loop label false lines o = (inr (Some n), (lines', o'))) \/
  (exists o', prompt_int_loop label false lines o = (inl EOFError, ([], o'))).
Proof.
  revert o. induction lines as [|l lines IH]; intros o; cbn [prompt_int_loop].
  - right. eauto.
  - rewrite andb_false_r. destruct (Py.int (strip l)) as [n|]; [| apply IH].
    left. eauto.
Qed.

Lemma prompt_decimal_loop_required label lines o :
  (exists d lines' o',
     prompt_decimal_loop label false lines o = (inr (Some d), (lines', o'))) \/
  (exists o', prompt_decimal_loop label false lines o = (inl EOFError, ([], o'))).
Proof.
  revert o. induction lines as [|l lines IH]; intros o; cbn [prompt_decimal_loop].
  - right. eauto.
  - rewrite andb_false_r. destruct (Decimal (strip l)) as [d|]; [| apply IH].
    left. eauto.
Qed.

Lemma prompt_date_loop_required label lines o :
  (exists d lines' o',
     prompt_date_loop label false lines o = (inr (Some (isoformat d)), (lines', o'))) \/
  (exists o', prompt_date_loop label false lines o = (inl EOFError, ([], o'))).
Proof.
  revert o. induction lines as [|l lines IH]; intros o; cbn [prompt_date_loop].
  - right. eauto.
  - rewrite andb_false_r. destruct (strptime_ymd (strip l)) as [d|]; [| apply IH].
    left. eauto.
Qed.

Lemma prompting_fst {A} (loop : list string -> list out -> (exn + A) * (list string * list out))
    (w : world) :
  (prompting loop w).1 = (loop (stdin w) (stdout w)).1 /\
  stdin (prompting loop w).2 = (loop (stdin w) (stdout w)).2.1 /\
  stdout (prompting loop w).2 = (loop (stdin w) (stdout w)).2.2 /\
  database (prompting loop w).2 = database w.
Proof. unfold prompting. destruct (loop _ _) as [r [lines o]]. auto. Qed.

Lemma prompt_str_loop_retry label b bad good rest o :
  Forall (fun l => strip l = "") bad -> strip good <> "" ->
  prompt_str_loop label false (bad ++ good :: rest) o =
  (inr (Some (strip good)),
   (rest, o ++ asked_again (label +:+ ": ") "Please enter a value." bad ++
          [Ask (label +:+ ": ")])) /\
  (b = true -> bad = [] ->
   prompt_str_loop label b (good :: rest) o =
   (inr (Some (strip good)), (rest, o ++ [Ask (label +:+ ": ")]))).
Proof.
  intros Hbad Hgood. apply String.eqb_neq in Hgood. split.
  - revert o. induction Hbad as [|l bad Hl _ IH]; intros o.
    + cbn [app prompt_str_loop asked_again flat_map]. now rewrite Hgood.
    + cbn [app prompt_str_loop]. rewrite Hl. cbn [String.eqb negb].
      rewrite IH. cbn [asked_again flat_map]. now rewrite <- !app_assoc.
  - intros _ _. cbn [prompt_str_loop]. now rewrite Hgood.
Qed.

Lemma prompt_int_loop_retry label b bad good n rest o :
  Forall (fun l => Py.int (strip l) = None /\ (b = true -> strip l <> "")) bad ->
  Py.int (strip good) = Some n ->
  prompt_int_loop label b (bad ++ good :: rest) o =
  (inr (Some n),
   (rest, o ++ asked_again (label +:+ ": ") "Enter a valid integer." bad ++
          [Ask (label +:+ ": ")])).
Proof.
  intros Hbad Hgood.
  assert (Hne : String.eqb (strip good) "" = false).
  { apply String.eqb_neq. intros He. rewrite He in Hgood. discriminate. }
  revert o. induction Hbad as [|l bad [Hl Hb] _ IH]; intros o.
  - cbn [app prompt_int_loop asked_again flat_map]. now rewrite Hne, Hgood.
  - cbn [app prompt_int_loop]. rewrite Hl.
    assert (String.eqb (strip l) "" && b = false) as ->.
    { destruct b; [| apply andb_false_r]. rewrite andb_true_r.
      now apply String.eqb_neq, Hb. }
    rewrite IH. cbn [asked_again flat_map]. now rewrite <- !app_assoc.
Qed.

Lemma prompt_decimal_loop_retry label b bad good d rest o :
  Forall (fun l => Decimal (strip l) = None /\ (b = true -> strip l <> "")) bad ->
  Decimal (strip good) = Some d -> (b = true -> strip good <> "") ->
  prompt_decimal_loop label b (bad ++ good :: rest) o =
  (inr (Some d),
   (rest, o ++ asked_again (label +:+ ": ") "Enter a valid number." bad ++
          [Ask (label +:+ ": ")])).
Proof.
  intros Hbad Hgood Hne.
  assert (He : String.eqb (strip good) "" && b = false).
  { destruct b; [| apply andb_false_r]. rewrite andb_true_r.
    now apply String.eqb_neq, Hne. }
  revert o. induction Hbad as [|l bad [Hl Hb] _ IH]; intros o.
  - cbn [app prompt_decimal_loop asked_again flat_map]. now rewrite He, Hgood.
  - cbn [app prompt_decimal_loop]. rewrite Hl.
    assert (String.eqb (strip l) "" && b = false) as ->.
    { destruct b; [| apply andb_false_r]. rewrite andb_true_r.
      now apply String.eqb_neq, Hb. }
    rewrite IH. cbn [asked_again flat_map]. now rewrite <- !app_assoc.
Qed.

Lemma prompt_date_loop_retry label b bad good d rest o :
  Forall (fun l => strptime_ymd (strip l) = None /\ (b = true -> strip l <> "")) bad ->
  strptime_ymd (strip good) = Some d -> (b = true -> strip good <> "") ->
  prompt_date_loop label b (bad ++ good :: rest) o =
  (inr (Some (isoformat d)),
   (rest, o ++ asked_again (label +:+ " (YYYY-MM-DD): ")
                 "Enter a valid date in YYYY-MM-DD format." bad ++
          [Ask (label +:+ " (YYYY-MM-DD): ")])).
Proof.
  intros Hbad Hgood Hne.
  assert (He : String.eqb (strip good) "" && b = false).
  { destruct b; [| apply andb_false_r]. rewrite andb_true_r.
    now apply String.eqb_neq, Hne. }
  revert o. induction Hbad as [|l bad [Hl Hb] _ IH]; intros o.
  - cbn [app prompt_date_loop asked_again flat_map]. now rewrite He, Hgood.
  - cbn [app prompt_date_loop]. rewrite Hl.
    assert (String.eqb (strip l) "" && b = false) as ->.
    { destruct b; [| apply andb_false_r]. rewrite andb_true_r.
      now apply String.eqb_neq, Hb. }
    rewrite IH. cbn [asked_again flat_map]. now rewrite <- !app_assoc.
Qed.

End Loops.

(** X1.  A prompt for a required value never returns [None]: asked with
    [allow_blank=False], each of the four prompts either returns a value
    or, the input having run out, raises EOFError with every line read.
    The text [prompt_str] returns is not empty and has no white space
    around it; the date [prompt_date] returns is the ISO text of the
    date parsed.  The store is not touched. *)
Theorem required_prompt_returns_a_value `{Lib} `{Backend} (label : string) (w : world) :
  ((exists v, (prompt_str label false w).1 = inr (Some v) /\ v <> "" /\ strip v = v) \/
   (prompt_str label false w).1 = inl EOFError /\
   stdin (prompt_str label false w).2 = []) /\
  ((exists n, (prompt_int label false w).1 = inr (Some n)) \/
   (prompt_int label false w).1 = inl EOFError /\
   stdin (prompt_int label false w).2 = []) /\
  ((exists d, (prompt_decimal label false w).1 = inr (Some d)) \/
   (prompt_decimal label false w).1 = inl EOFError /\
   stdin (prompt_decimal label false w).2 = []) /\
  ((exists d, (prompt_date label false w).1 = inr (Some (isoformat d))) \/
   (prompt_date label false w).1 = inl EOFError /\
   stdin (prompt_date label false w).2 = []) /\
  database (prompt_str label false w).2 = database w /\
  database (prompt_int label false w).2 = database w /\
  database (prompt_decimal label false w).2 = database w /\
  database (prompt_date label false w).2 = database w.
Proof.
  unfold prompt_str, prompt_int, prompt_decimal, prompt_date.
  repeat match goal with |- _ /\ _ => split end; try apply prompting_fst.
  - destruct (prompting_fst (prompt_str_loop label false) w) as (-> & -> & _).
    destruct (prompt_str_loop_required label (stdin w) (stdout w))
      as [(v & l & o & -> & Hv) | (o & ->)]; [left; eauto | right; auto].
  - destruct (prompting_fst (prompt_int_loop label false) w) as (-> & -> & _).
    destruct (prompt_int_loop_required label (stdin w) (stdout w))
      as [(v & l & o & ->) | (o & ->)]; [left; eauto | right; auto].
  - destruct (prompting_fst (prompt_decimal_loop label false) w) as (-> & -> & _).
    destruct (prompt_decimal_loop_required label (stdin w) (stdout w))
      as [(v & l & o & ->) | (o & ->)]; [left; eauto | right; auto].
  - destruct (prompting_fst (prompt_date_loop label false) w) as (-> & -> & _).
    destruct (prompt_date_loop_required label (stdin w) (stdout w))
      as [(v & l & o & ->) | (o & ->)]; [left; eauto | right; auto].
Qed.

(** X2.  A prompt asks until it gets an answer it can use.  Given
    answers it turns down (blank for a required text; not a number, not
    a decimal, not a date, and not the blank that an optional prompt
    takes as "no value") followed by a usable one, it shows its
    complaint and its question once per answer turned down, returns the
    value of the first usable answer and leaves the lines after it
    unread.  An optional text prompt never asks twice. *)
Theorem prompt_asks_until_answered `{Lib} `{Backend} (label : string) (w : world) :
  (forall bad good rest,
     stdin w = bad ++ good :: rest ->
     Forall (fun l => strip l = "") bad -> strip good <> "" ->
     prompt_str label false w =
       (inr (Some (strip good)),
        {| stdin := rest;
           stdout := stdout w ++
             asked_again (label +:+ ": ") "Please enter a value." bad ++
             [Ask (label +:+ ": ")];
           database := database w |})) /\
  (forall l rest,
     stdin w = l :: rest ->
     prompt_str label true w =
       (inr (if String.eqb (strip l) "" then None else Some (strip l)),
        answered w label rest)) /\
  (forall b bad good n rest,
     stdin w = bad ++ good :: rest ->
     Forall (fun l => Py.int (strip l) = None /\ (b = true -> strip l <> "")) bad ->
     Py.int (strip good) = Some n ->
     prompt_int label b w =
       (inr (Some n),
        {| stdin := rest;
           stdout := stdout w ++
             asked_again (label +:+ ": ") "Enter a valid integer." bad ++
             [Ask (label +:+ ": ")];
           database := database w |})) /\
  (forall b bad good d rest,
     stdin w = bad ++ good :: rest ->
     Forall (fun l => Decimal (strip l) = None /\ (b = true -> strip l <> "")) bad ->
     Decimal (strip good) = Some d -> (b = true -> strip good <> "") ->
     prompt_decimal label b w =
       (inr (Some d),
        {| stdin := rest;
           stdout := stdout w ++
             asked_again (label +:+ ": ") "Enter a valid number." bad ++
             [Ask (label +:+ ": ")];
           database := database w |})) /\
  (forall b bad good d rest,
     stdin w = bad ++ good :: rest ->
     Forall (fun l => strptime_ymd (strip l) = None /\ (b = true -> strip l <> "")) bad ->
     strptime_ymd (strip good) = Some d -> (b = true -> strip good <> "") ->
     prompt_date label b w =
       (inr (Some (isoformat d)),
        {| stdin := rest;
           stdout := stdout w ++
             asked_again (label +:+ " (YYYY-MM-DD): ")
               "Enter a valid date in YYYY-MM-DD format." bad ++
             [Ask (label +:+ " (YYYY-MM-DD): ")];
           database := database w |})).
Proof.
  repeat match goal with |- _ /\ _ => split end.
  - intros bad good rest Hin Hbad Hgood. unfold prompt_str, prompting. rewrite Hin.
    destruct (prompt_str_loop_retry label false bad good rest (stdout w) Hbad Hgood)
      as [-> _]. reflexivity.
  - intros l rest Hin. unfold prompt_str, prompting, answered. rewrite Hin.
    cbn [prompt_str_loop]. destruct (String.eqb (strip l) ""); reflexivity.
  - intros b bad good n rest Hin Hbad Hgood. unfold prompt_int, prompting. rewrite Hin.
    now rewrite (prompt_int_loop_retry label b bad good n rest (stdout w) Hbad Hgood).
  - intros b bad good d rest Hin Hbad Hgood Hne. unfold prompt_decimal, prompting.
    rewrite Hin.
    now rewrite (prompt_decimal_loop_retry label b bad good d rest (stdout w) Hbad Hgood Hne).
  - intros b bad good d rest Hin Hbad Hgood Hne. unfold prompt_date, prompting.
    rewrite Hin.
    now rewrite (prompt_date_loop_retry label b bad good d rest (stdout w) Hbad Hgood Hne).
Qed.

(** Two answers turned down, then a number. *)
Example prompt_int_asks_three_times :
  prompt_int "Team ID" false (Demo.console [""; "x1"; " 12 "; "7"]) =
  (inr (Some 12),
   {| stdin := ["7"];
      stdout := [Ask "Team ID: "; Line "Enter a valid integer.";
                 Ask "Team ID: "; Line "Enter a valid integer."; Ask "Team ID: "];
      database := Demo.fresh_db |}).
Proof. reflexivity. Qed.

End Prompts.

(** ** The table [print_rows] prints *)

Module Tables.
Import Py Sql Layout.

Local Open Scope nat_scope.





Section Widths.
Context (str : value -> string).

Lemma widen_length (ws : list nat) (i : nat) (row : tuple) (ws' : list nat) :
  widen str ws i row = Some ws' -> length ws' = length ws.
Proof.
  revert ws i. induction row as [|cell row IH]; intros ws i; simpl.
  - now intros [= <-].
  - destruct (ws !! i) as [w|]; [| discriminate].
    intros Hw. apply IH in Hw. now rewrite length_insert in Hw.
Qed.

Lemma widen_some (ws : list nat) (i : nat) (row : tuple) :
  i + length row <= length ws -> is_Some (widen str ws i row).
Proof.
  revert ws i. induction row as [|cell row IH]; intros ws i Hle; simpl; [eauto |].
  simpl in Hle. destruct (lookup_lt_is_Some_2 ws i) as [w ->]; [lia |].
  apply IH. rewrite length_insert. lia.
Qed.

Lemma widen_none (ws : list nat) (i : nat) (row : tuple) :
  i <= length ws -> length ws < i + length row -> widen str ws i row = None.
Proof.
  revert ws i. induction row as [|cell row IH]; intros ws i Hi Hlt; simpl in *; [lia |].
  destruct (ws !! i) as [w|] eqn:Hw; [| reflexivity].
  apply lookup_lt_Some in Hw.
  apply IH; rewrite length_insert; lia.
Qed.



Lemma widen_all_length (ws : list nat) (rows : list tuple) (ws' : list nat) :
  widen_all str ws rows = Some ws' -> length ws' = length ws.
Proof.
  revert ws. induction rows as [|row rows IH]; intros ws; simpl.
  - now intros [= <-].
  - destruct (widen str ws 0 row) as [ws1|] eqn:H1; [| discriminate].
    intros Hw. rewrite (IH _ Hw). now apply widen_length in H1.
Qed.



Lemma widen_all_some (ws : list nat) (rows : list tuple) :
  Forall (fun row => length row <= length ws) rows -> is_Some (widen_all str ws rows).
Proof.
  revert ws. induction rows as [|row rows IH]; intros ws Hall; simpl; [eauto |].
  apply Forall_cons in Hall as [Hrow Hall].
  destruct (widen_some ws 0 row) as [ws1 H1]; [simpl; lia |]. rewrite H1.
  apply IH. now rewrite (widen_length _ _ _ _ H1).
Qed.

Lemma widen_all_none (ws : list nat) (rows : list tuple) :
  Exists (fun row => length ws < length row) rows -> widen_all str ws rows = None.
Proof.
  revert ws. induction rows as [|row rows IH]; intros ws Hex; simpl.
  - inversion Hex.
  - destruct (widen str ws 0 row) as [ws1|] eqn:H1; [| reflexivity].
    apply Exists_cons in Hex as [Hrow | Hex].
    + rewrite widen_none in H1; [discriminate | lia | simpl; lia].
    + apply IH. now rewrite (widen_length _ _ _ _ H1).
Qed.

End Widths.

Lemma justify_some (ws : list nat) (i : nat) (texts : list string) :
  i + length texts <= length ws ->
  exists cells, justify ws i texts = Some cells /\ length cells = length texts.
Proof.
  revert i. induction texts as [|t texts IH]; intros i Hle; simpl; [eauto |].
  simpl in Hle. destruct (lookup_lt_is_Some_2 ws i) as [w ->]; [lia |].
  destruct (IH (S i)) as (cells & -> & Hlen); [lia |].
  exists (ljust t w :: cells). simpl. now rewrite Hlen.
Qed.



Section Printing.
Context (str : value -> string).


Lemma row_lines_some (ws : list nat) (rows : list tuple) :
  Forall (fun row => length row <= length ws) rows -> is_Some (row_lines str ws rows).
Proof.
  induction rows as [|row rows IH]; intros Hall; simpl; [eauto |].
  apply Forall_cons in Hall as [Hrow Hall]. unfold row_line.
  destruct (justify_some ws 0 (map str row)) as (cells & -> & _).
  { rewrite length_map. simpl. lia. }
  destruct (IH Hall) as [body ->]. eauto.
Qed.

End Printing.



(** X4.  [print_rows] raises IndexError exactly when some row has more
    cells than there are headers, and then it has printed nothing: the
    error comes from [widths[i]] while the widths are computed.  With no
    rows it prints "No rows." and nothing else. *)
Theorem print_rows_fails_on_a_long_row (str : value -> string)
    (headers : list string) (rows : list tuple) :
  (print_rows_lines str headers rows = None <->
   Exists (fun row => length headers < length row) rows) /\
  (widen_all str (map len headers) rows = None <->
   Exists (fun row => length headers < length row) rows) /\
  print_rows_lines str headers [] = Some ["No rows."].
Proof.
  assert (Hw : widen_all str (map len headers) rows = None <->
               Exists (fun row => length headers < length row) rows).
  { split.
    - intros Hnone.
      destruct (decide (Exists (fun row => length headers < length row) rows))
        as [Hex | Hno]; [exact Hex |].
      apply not_Exists_Forall in Hno; [| intros row; apply _].
      destruct (widen_all_some str (map len headers) rows) as [ws Hws]; [| congruence].
      rewrite length_map. eapply Forall_impl; [exact Hno |]. simpl. lia.
    - intros Hex. apply widen_all_none. now rewrite length_map. }
  split; [| split; [exact Hw | reflexivity]].
  rewrite <- Hw. unfold print_rows_lines.
  destruct rows as [|r0 rows0] eqn:Hrows.
  - split; discriminate.
  - rewrite <- Hrows in *.
    destruct (widen_all str (map len headers) rows) as [ws|] eqn:Hws; [| tauto].
    split; [| discriminate]. intros Hp. exfalso.
    assert (Hlen : length ws = length headers).
    { rewrite (widen_all_length _ _ _ _ Hws). apply length_map. }
    assert (Hfit : Forall (fun row => length row <= length ws) rows).
    { destruct (decide (Exists (fun row => length headers < length row) rows))
        as [Hex | Hno].
      - apply Hw in Hex. congruence.
      - apply not_Exists_Forall in Hno; [| intros row; apply _].
        eapply Forall_impl; [exact Hno |]. simpl. lia. }
    unfold row_line in Hp.
    destruct (justify_some ws 0 headers) as (cells & Hc & _); [simpl; lia |].
    rewrite Hc in Hp. destruct (row_lines_some str ws rows Hfit) as [body Hb].
    unfold row_line in Hb. rewrite Hb in Hp. discriminate.
Qed.

(** A result row of three cells under two headers. *)
Example print_rows_long_row :
  print_rows_lines (@str_value Demo.lib) ["ID"; "Name"]
    [[VInt 1; VStr "Alpha"]; [VInt 2; VStr "Beta"; VStr "EU"]] = None.
Proof. reflexivity. Qed.

End Tables.

(** ** The console's functions and menus as a whole *)

Module ConsoleRuns.
Import Py Sql Db Eff Spec Cli Menus Runs.

Section Rules.
Context `{Lib} `{Backend}.

Lemma tidy_weaken {A} (E E' : exn -> Prop) (m : M A) :
  tidy E m -> (forall e, E e -> E' e) -> tidy E' m.
Proof. intros Hm HE w. destruct (Hm w) as [Hl He]. split; [exact Hl | auto]. Qed.

Lemma tidy_ret {A} (E : exn -> Prop) (a : A) : tidy E (ret a).
Proof. intros w. split; [reflexivity | discriminate]. Qed.

Lemma tidy_emit (E : exn -> Prop) (o : out) : tidy E (emit o).
Proof. intros w. split; [reflexivity | discriminate]. Qed.

Lemma tidy_print (E : exn -> Prop) (s : string) : tidy E (print s).
Proof. apply tidy_emit. Qed.

Lemma tidy_print_error (E : exn -> Prop) (context : string) (e : exn) :
  tidy E (print_error context e).
Proof. apply tidy_emit. Qed.

Lemma tidy_print_rows (E : exn -> Prop) (headers : list string) (rows : list tuple) :
  tidy E (print_rows headers rows).
Proof. destruct rows; apply tidy_emit. Qed.

Lemma tidy_bind {A B} (E : exn -> Prop) (m : M A) (k : A -> M B) :
  tidy E m -> (forall a, tidy E (k a)) -> tidy E (bind m k).
Proof.
  intros Hm Hk w. destruct (Hm w) as [Hl He]. unfold bind.
  destruct (m w) as [[e | x] w1]; simpl in *.
  - split; [exact Hl |]. intros e0 [= <-]. now apply He.
  - destruct (Hk x w1) as [Hl1 He1]. split; [lia | exact He1].
Qed.

(** [except Exception] catches whatever the body raises. *)
Lemma tidy_try {A} (E E' : exn -> Prop) (m : M A) (h : exn -> M A) :
  tidy E' m -> (forall e, tidy E (h e)) -> tidy E (try_ m h).
Proof.
  intros Hm Hh w. destruct (Hm w) as [Hl _]. unfold try_.
  destruct (m w) as [[e | a] w1]; simpl in *.
  - destruct (Hh e w1) as [Hl1 He1]. split; [lia | exact He1].
  - split; [exact Hl | discriminate].
Qed.

Lemma tidy_call {A} (f : db -> (exn + A) * db) : tidy (fun _ => True) (call f).
Proof. intros w. unfold call. destruct (f (database w)). split; [reflexivity | auto]. Qed.

Lemma tidy_prompting {A} (E : exn -> Prop)
    (loop : list string -> list out -> (exn + A) * (list string * list out)) :
  (forall lines o,
     (length (loop lines o).2.1 <= length lines)%nat /\
     (forall e, (loop lines o).1 = inl e -> E e)) ->
  tidy E (prompting loop).
Proof.
  intros Hloop w. unfold prompting. specialize (Hloop (stdin w) (stdout w)).
  destruct (loop (stdin w) (stdout w)) as [r [lines o]]. exact Hloop.
Qed.

Lemma tidy_prompt_str (label : string) (b : bool) : tidy end_of_input (prompt_str label b).
Proof.
  apply tidy_prompting. intros lines.
  induction lines as [|l lines IH]; intros o; cbn [prompt_str_loop].
  - split; [reflexivity | now intros e [= <-]].
  - destruct (negb _); [split; [simpl; lia | discriminate] |].
    destruct b; [split; [simpl; lia | discriminate] |].
    destruct (IH (o ++ [Ask (label +:+ ": ")] ++ [Line "Please enter a value."]))
      as [Hl He].
    rewrite app_assoc in Hl, He. split; [simpl; lia | exact He].
Qed.

Lemma tidy_prompt_int (label : string) (b : bool) : tidy end_of_input (prompt_int label b).
Proof.
  apply tidy_prompting. intros lines.
  induction lines as [|l lines IH]; intros o; cbn [prompt_int_loop].
  - split; [reflexivity | now intros e [= <-]].
  - destruct (_ && _); [split; [simpl; lia | discriminate] |].
    destruct (Py.int _); [split; [simpl; lia | discriminate] |].
    destruct (IH (o ++ [Ask (label +:+ ": ")] ++ [Line "Enter a valid integer."]))
      as [Hl He].
    rewrite app_assoc in Hl, He. split; [simpl; lia | exact He].
Qed.

Lemma tidy_prompt_decimal (label : string) (b : bool) :
  tidy end_of_input (prompt_decimal label b).
Proof.
  apply tidy_prompting. intros lines.
  induction lines as [|l lines IH]; intros o; cbn [prompt_decimal_loop].
  - split; [reflexivity | now intros e [= <-]].
  - destruct (_ && _); [split; [simpl; lia | discriminate] |].
    destruct (Decimal _); [split; [simpl; lia | discriminate] |].
    destruct (IH (o ++ [Ask (label +:+ ": ")] ++ [Line "Enter a valid number."]))
      as [Hl He].
    rewrite app_assoc in Hl, He. split; [simpl; lia | exact He].
Qed.

Lemma tidy_prompt_date (label : string) (b : bool) :
  tidy end_of_input (prompt_date label b).
Proof.
  apply tidy_prompting. intros lines.
  induction lines as [|l lines IH]; intros o; cbn [prompt_date_loop].
  - split; [reflexivity | now intros e [= <-]].
  - destruct (_ && _); [split; [simpl; lia | discriminate] |].
    destruct (strptime_ymd _); [split; [simpl; lia | discriminate] |].
    destruct (IH (o ++ [Ask (label +:+ " (YYYY-MM-DD): ")] ++
                  [Line "Enter a valid date in YYYY-MM-DD format."])) as [Hl He].
    rewrite app_assoc in Hl, He. split; [simpl; lia | exact He].
Qed.

(** One statement inside [try], its failure printed. *)
Lemma tidy_caught {A} (E : exn -> Prop) (f : db -> (exn + A) * db) (k : A -> M unit)
    (context : string) :
  (forall a, tidy (fun _ => True) (k a)) ->
  tidy E (try_ (let* a := call f in k a) (print_error context)).
Proof.
  intros Hk. apply (tidy_try E (fun _ => True)).
  - apply tidy_bind; [apply tidy_call | exact Hk].
  - intros e. apply tidy_print_error.
Qed.

Lemma tidy_send_updates (E : exn -> Prop) tbl key_col id updates done context :
  tidy E (send_updates tbl key_col id updates done context).
Proof.
  unfold send_updates. destruct updates; [apply tidy_print |].
  apply tidy_caught. intros _. apply tidy_print.
Qed.

Lemma tidy_send_delete (E : exn -> Prop) tbl key_col id done context :
  tidy E (send_delete tbl key_col id done context).
Proof. apply tidy_caught. intros _. apply tidy_print. Qed.

End Rules.

(** Prompts, then code that catches what it raises. *)
Ltac asking Heof :=
  repeat (cbv zeta; first
    [ apply tidy_ret
    | apply tidy_print
    | apply tidy_send_updates
    | apply tidy_send_delete
    | apply tidy_caught; intros ?; apply tidy_print
    | apply tidy_bind; [| intros ?]
    | eapply tidy_weaken;
        [ first [ apply tidy_prompt_str | apply tidy_prompt_int
                | apply tidy_prompt_decimal | apply tidy_prompt_date ]
        | intros ? ->; exact Heof ]
    | lazymatch goal with
      | |- tidy _ (match ?x with _ => _ end) => destruct x
      end ]).

Section Writes.
Context `{Lib} `{Backend} (E : exn -> Prop) (Heof : E EOFError).

Lemma create_team_tidy : tidy E create_team.
Proof. unfold create_team. asking Heof. Qed.

Lemma create_player_tidy : tidy E create_player.
Proof. unfold create_player. asking Heof. Qed.

Lemma create_tournament_tidy : tidy E create_tournament.
Proof. unfold create_tournament. asking Heof. Qed.

Lemma create_map_tidy : tidy E create_map.
Proof. unfold create_map. asking Heof. Qed.

Lemma create_match_tidy : tidy E create_match.
Proof. unfold create_match. asking Heof. Qed.

Lemma create_result_tidy : tidy E create_result.
Proof. unfold create_result. asking Heof. Qed.

Lemma add_to_roster_tidy : tidy E add_to_roster.
Proof. unfold add_to_roster. asking Heof. Qed.

End Writes.

Section Reads.
Context `{Lib} `{Backend} (E : exn -> Prop) (Heof : E EOFError).
Context (Hread : forall q, tidy E (call (fetch_all (Select q)))).

Lemma listing_tidy (q : query) (headers : list string) :
  tidy E (let* rows := call (fetch_all (Select q)) in print_rows headers rows).
Proof. apply tidy_bind; [apply Hread | intros rows; apply tidy_print_rows]. Qed.

Ltac listing :=
  apply tidy_bind; [apply listing_tidy | intros _]; asking Heof.

Lemma update_team_tidy : tidy E update_team.
Proof. unfold update_team, update_team_with. listing. Qed.

Lemma delete_team_tidy : tidy E delete_team.
Proof. unfold delete_team, delete_team_with. listing. Qed.

Lemma update_player_tidy : tidy E update_player.
Proof. unfold update_player, update_player_with. listing. Qed.

Lemma delete_player_tidy : tidy E delete_player.
Proof. unfold delete_player, delete_player_with. listing. Qed.

Lemma update_tournament_tidy : tidy E update_tournament.
Proof. unfold update_tournament, update_tournament_with. listing. Qed.

Lemma delete_tournament_tidy : tidy E delete_tournament.
Proof. unfold delete_tournament, delete_tournament_with. listing. Qed.

Lemma update_map_tidy : tidy E update_map.
Proof. unfold update_map, update_map_with. listing. Qed.

Lemma delete_map_tidy : tidy E delete_map.
Proof. unfold delete_map, delete_map_with. listing. Qed.

Lemma update_match_tidy : tidy E update_match.
Proof. unfold update_match, update_match_with. listing. Qed.

Lemma delete_match_tidy : tidy E delete_match.
Proof. unfold delete_match, delete_match_with. listing. Qed.

Lemma update_result_tidy : tidy E update_result.
Proof. unfold update_result, update_result_with. listing. Qed.

Lemma delete_result_tidy : tidy E delete_result.
Proof. unfold delete_result, delete_result_with. listing. Qed.

Lemma toggle_roster_tidy : tidy E toggle_roster.
Proof. unfold toggle_roster. listing. Qed.

Lemma remove_from_roster_tidy : tidy E remove_from_roster.
Proof. unfold remove_from_roster, remove_from_roster_with. listing. Qed.

End Reads.

End ConsoleRuns.

(** ** The menus *)

Module MenuFacts.
Import Py Sql Db Eff Spec Cli Menus Runs ConsoleRuns.

Local Open Scope nat_scope.

Section Loop.
Context `{Lib} `{Backend}.

Lemma print_options_eq (options : menu) (w : world) :
  print_options options w =
  (inr tt, {| stdin := stdin w; stdout := stdout w ++ option_lines options;
              database := database w |}).
Proof.
  revert w. induction options as [|[key [label func]] options IH]; intros w.
  - cbn [print_options option_lines map ret]. rewrite app_nil_r. now destruct w.
  - cbn [print_options option_lines map fst snd]. unfold bind, print, emit.
    rewrite IH. cbn [stdin stdout database]. now rewrite <- app_assoc.
Qed.

Lemma ask_eq (banner zero : string) (options : menu) (w : world) :
  (let* _ := print banner in
   let* _ := print_options options in
   let* _ := print zero in
   let* line := input "Choose an option: " in
   ret (strip line)) w =
  match stdin w with
  | [] => (inl EOFError, shown banner zero options [] w)
  | l :: rest => (inr (strip l), shown banner zero options rest w)
  end.
Proof.
  unfold bind at 1. unfold print at 1, emit. cbn [fst snd].
  unfold bind at 1. rewrite print_options_eq. cbn [stdin stdout database].
  unfold bind at 1. unfold print at 1, emit. cbn [stdin stdout database].
  unfold bind, input, ret, shown. cbn [stdin stdout database].
  destruct (stdin w); rewrite <- !app_assoc; reflexivity.
Qed.

Lemma round_eq banner zero options on_zero again fuel (w : world) :
  round banner zero options on_zero again fuel w =
  match stdin w with
  | [] => Some (inl EOFError, shown banner zero options [] w)
  | l :: rest =>
      let w1 := shown banner zero options rest w in
      if String.eqb (strip l) "0" then Some (on_zero w1)
      else
        match find (strip l) options with
        | Some func => then_ (func fuel) (fun _ => again) w1
        | None => again (print "Invalid choice." w1).2
        end
  end.
Proof.
  unfold round, then_ at 1, within at 1. rewrite ask_eq.
  destruct (stdin w) as [|l rest]; [reflexivity |]. cbv zeta.
  destruct (String.eqb (strip l) "0"); [reflexivity |].
  destruct (find (strip l) options); reflexivity.
Qed.

Lemma find_functions (choice : string) (options : menu) (func : action) :
  find choice options = Some func -> func ∈ functions options.
Proof.
  induction options as [|[key [label f]] options IH]; simpl; [discriminate |].
  destruct (String.eqb choice key).
  - intros [= ->]. apply list_elem_of_here.
  - intros Hf. apply list_elem_of_further, IH, Hf.
Qed.

Section Shape.
Context (loop : nat -> partial unit) (banner zero : string) (options : menu)
  (on_zero : M unit).
Context (Hzero : loop 0 = fun _ => None).
Context (Hsucc : forall fuel,
  loop (S fuel) = round banner zero options on_zero (loop fuel) fuel).

Lemma loop_ends_well (E : exn -> Prop) :
  E EOFError -> tidy E on_zero -> Forall (ends_well E) (functions options) ->
  ends_well E loop.
Proof.
  intros Heof Hon Hall fuel.
  induction fuel as [|fuel IH]; intros w Hlt; [lia |].
  rewrite Hsucc, round_eq. destruct (stdin w) as [|l rest] eqn:Hin.
  - eexists _, _. split; [reflexivity |]. split; [simpl; lia |]. now intros e [= <-].
  - cbv zeta. destruct (String.eqb (strip l) "0").
    + destruct (Hon (shown banner zero options rest w)) as [Hl He].
      destruct (on_zero (shown banner zero options rest w)) as [r w'] eqn:Hr.
      exists r, w'. split; [reflexivity |]. simpl in *. split; [lia | exact He].
    + destruct (find (strip l) options) as [func|] eqn:Hf.
      * apply find_functions in Hf.
        rewrite Forall_forall in Hall. specialize (Hall func Hf).
        destruct (Hall fuel (shown banner zero options rest w)) as (r & w1 & Hr & Hl & He).
        { simpl in *. lia. }
        unfold then_. rewrite Hr. destruct r as [e | []].
        -- exists (inl e), w1. split; [reflexivity |]. simpl in *. split; [lia | exact He].
        -- destruct (IH w1) as (r2 & w2 & Hr2 & Hl2 & He2); [simpl in *; lia |].
           exists r2, w2. split; [exact Hr2 |]. simpl in *. split; [lia | exact He2].
      * destruct (IH (print "Invalid choice." (shown banner zero options rest w)).2)
          as (r2 & w2 & Hr2 & Hl2 & He2); [simpl in *; lia |].
        exists r2, w2. split; [exact Hr2 |]. simpl in *. split; [lia | exact He2].
Qed.

Lemma loop_steady : Forall steady (functions options) -> steady loop.
Proof.
  intros Hall fuel. induction fuel as [|fuel IH]; intros fuel' w x Hx Hle.
  - rewrite Hzero in Hx. discriminate.
  - destruct fuel' as [|fuel']; [lia |]. rewrite Hsucc, round_eq in *.
    destruct (stdin w) as [|l rest]; [exact Hx |]. cbv zeta in *.
    destruct (String.eqb (strip l) "0"); [exact Hx |].
    destruct (find (strip l) options) as [func|] eqn:Hf.
    + apply find_functions in Hf. rewrite Forall_forall in Hall.
      specialize (Hall func Hf). unfold then_ in *.
      destruct (func fuel (shown banner zero options rest w)) as [[r w1]|] eqn:Hr;
        [| discriminate].
      rewrite (Hall fuel fuel' _ _ Hr) by lia.
      destruct r as [e | []]; [exact Hx |]. apply (IH fuel' w1 x Hx). lia.
    + apply (IH fuel' _ x Hx). lia.
Qed.

(** Returning is answering "0". *)
Lemma loop_returns (Q : world -> Prop) :
  (forall w w', on_zero w = (inr tt, w') -> Q w') ->
  forall fuel w w', loop fuel w = Some (inr tt, w') -> Q w'.
Proof.
  intros Hon fuel. induction fuel as [|fuel IH]; intros w w' Hr.
  - rewrite Hzero in Hr. discriminate.
  - rewrite Hsucc, round_eq in Hr. destruct (stdin w) as [|l rest]; [discriminate |].
    cbv zeta in Hr. destruct (String.eqb (strip l) "0").
    + injection Hr as Hr. eapply Hon, Hr.
    + destruct (find (strip l) options) as [func|].
      * unfold then_ in Hr.
        destruct (func fuel _) as [[[e | []] w1]|]; try discriminate.
        eapply IH, Hr.
      * eapply IH, Hr.
Qed.

(** Choices the menu does not know, then "0". *)
Lemma loop_invalid (bad : list string) (zero_line : string) (rest : list string)
    (w : world) :
  stdin w = bad ++ zero_line :: rest ->
  Forall (fun l => strip l <> "0" /\ find (strip l) options = None) bad ->
  strip zero_line = "0" ->
  loop (S (length bad)) w =
  Some (on_zero
    {| stdin := rest;
       stdout := stdout w ++
         shown_again ([Line banner] ++ option_lines options ++ [Line zero]) bad ++
         [Line banner] ++ option_lines options ++ [Line zero; Ask "Choose an option: "];
       database := database w |}).
Proof.
  intros Hin Hbad Hz. revert w Hin.
  induction Hbad as [|l bad [Hl Hf] _ IH]; intros w Hin.
  - cbn [length]. rewrite Hsucc, round_eq, Hin. cbn [app]. cbv zeta. rewrite Hz.
    cbn [String.eqb Ascii.eqb Bool.eqb shown_again flat_map app]. reflexivity.
  - cbn [length]. rewrite Hsucc, round_eq, Hin. cbn [app]. cbv zeta.
    apply String.eqb_neq in Hl. rewrite Hl, Hf.
    rewrite IH by reflexivity. unfold print, emit, shown.
    cbn [snd stdin stdout database shown_again flat_map].
    do 3 f_equal. unfold shown_again.
    repeat first [ progress cbn [app flat_map] | rewrite <- app_assoc ].
    reflexivity.
Qed.

End Shape.

Lemma total_ends_well (E : exn -> Prop) (m : M unit) : tidy E m -> ends_well E (total m).
Proof.
  intros Hm fuel w _. destruct (Hm w) as [Hl He]. unfold total, within.
  destruct (m w) as [r w']. eauto.
Qed.

Lemma total_steady (m : M unit) : steady (total m).
Proof. intros fuel fuel' w x Hx _. exact Hx. Qed.

Lemma simple_menu_ends_well (E : exn -> Prop) (title : string) (options : menu) :
  E EOFError -> Forall (ends_well E) (functions options) ->
  ends_well E (fun fuel => simple_menu fuel title options).
Proof.
  intros Heof Hall.
  apply (loop_ends_well (fun fuel => simple_menu fuel title options)
           (String LF (title +:+ " Menu")) "0) Back" options (ret tt)
           (fun _ => eq_refl) E Heof (tidy_ret E tt) Hall).
Qed.

Lemma simple_menu_steady (title : string) (options : menu) :
  Forall steady (functions options) -> steady (fun fuel => simple_menu fuel title options).
Proof.
  apply (loop_steady (fun fuel => simple_menu fuel title options)
           (String LF (title +:+ " Menu")) "0) Back" options (ret tt) eq_refl
           (fun _ => eq_refl)).
Qed.

Section Menus.
Context (E : exn -> Prop) (Heof : E EOFError).
Context (Hread : forall q, tidy E (call (fetch_all (Select q)))).

Ltac entries :=
  repeat first
    [ apply Forall_nil_2
    | apply Forall_cons_2
    | apply total_ends_well
    | apply listing_tidy; assumption ].

Lemma teams_menu_ends_well : ends_well E teams_menu.
Proof.
  apply simple_menu_ends_well; [exact Heof |]. unfold teams_options, functions. cbn [map snd].
  entries; auto using create_team_tidy, update_team_tidy, delete_team_tidy.
Qed.

Lemma players_menu_ends_well : ends_well E players_menu.
Proof.
  apply simple_menu_ends_well; [exact Heof |]. unfold players_options, functions.
  cbn [map snd].
  entries; auto using create_player_tidy, update_player_tidy, delete_player_tidy.
Qed.

Lemma tournaments_menu_ends_well : ends_well E tournaments_menu.
Proof.
  apply simple_menu_ends_well; [exact Heof |]. unfold tournaments_options, functions.
  cbn [map snd].
  entries;
    auto using create_tournament_tidy, update_tournament_tidy, delete_tournament_tidy.
Qed.

Lemma maps_menu_ends_well : ends_well E maps_menu.
Proof.
  apply simple_menu_ends_well; [exact Heof |]. unfold maps_options, functions. cbn [map snd].
  entries; auto using create_map_tidy, update_map_tidy, delete_map_tidy.
Qed.

Lemma matches_menu_ends_well : ends_well E matches_menu.
Proof.
  apply simple_menu_ends_well; [exact Heof |]. unfold matches_options, functions.
  cbn [map snd].
  entries; auto using create_match_tidy, update_match_tidy, delete_match_tidy.
Qed.

Lemma results_menu_ends_well : ends_well E results_menu.
Proof.
  apply simple_menu_ends_well; [exact Heof |]. unfold results_options, functions.
  cbn [map snd].
  entries; auto using create_result_tidy, update_result_tidy, delete_result_tidy.
Qed.

Lemma roster_menu_ends_well : ends_well E roster_menu.
Proof.
  apply simple_menu_ends_well; [exact Heof |]. unfold roster_options, functions.
  cbn [map snd].
  entries; auto using add_to_roster_tidy, toggle_roster_tidy, remove_from_roster_tidy.
Qed.

Lemma run_queries_ends_well : ends_well E run_queries.
Proof.
  apply (loop_ends_well run_queries (String LF "Interesting queries:") "0) Back"
           queries_options (ret tt) (fun _ => eq_refl) E Heof (tidy_ret E tt)).
  unfold queries_options, functions. cbn [map snd]. entries.
Qed.

Lemma menu_loop_ends_well : ends_well E menu_loop.
Proof.
  apply (loop_ends_well menu_loop (String LF "CS2 Esports DB - Main Menu") "0) Exit"
           actions (print "Bye.") (fun _ => eq_refl) E Heof (tidy_print E "Bye.")).
  unfold actions, functions. cbn [map snd].
  repeat apply Forall_cons_2; try apply Forall_nil_2.
  - apply teams_menu_ends_well.
  - apply players_menu_ends_well.
  - apply tournaments_menu_ends_well.
  - apply maps_menu_ends_well.
  - apply matches_menu_ends_well.
  - apply results_menu_ends_well.
  - apply roster_menu_ends_well.
  - apply run_queries_ends_well.
Qed.

End Menus.

Ltac all_total :=
  repeat first [ apply Forall_nil_2 | apply Forall_cons_2 | apply total_steady ].

Lemma menu_loop_steady : steady menu_loop.
Proof.
  apply (loop_steady menu_loop (String LF "CS2 Esports DB - Main Menu") "0) Exit" actions
           (print "Bye.") eq_refl (fun _ => eq_refl)).
  unfold actions, functions. cbn [map snd].
  repeat apply Forall_cons_2; try apply Forall_nil_2;
    try (apply simple_menu_steady; all_total).
  apply (loop_steady run_queries (String LF "Interesting queries:") "0) Back"
           queries_options (ret tt) eq_refl (fun _ => eq_refl)). all_total.
Qed.

Lemma reads_tidy_any (q : query) : tidy (fun _ => True) (call (fetch_all (Select q))).
Proof. apply tidy_call. Qed.


End Loop.

(** X5.  The console application ends on every finite input.  Run
    for one round more than there are input lines, [menu_loop] has
    returned or raised, whatever the store answers, having read lines
    and added none; more rounds give the same outcome.  When it
    returns, the last thing it printed is "Bye.". *)
Theorem menu_loop_ends `{Lib} `{Backend} (w : world) :
  exists r w',
    menu_loop (S (length (stdin w))) w = Some (r, w') /\
    length (stdin w') <= length (stdin w) /\
    (forall fuel, length (stdin w) < fuel -> menu_loop fuel w = Some (r, w')) /\
    (r = inr tt -> last (stdout w') = Some (Line "Bye.")).
Proof.
  destruct (menu_loop_ends_well (fun _ => True) I reads_tidy_any
              (S (length (stdin w))) w) as (r & w' & Hr & Hl & _); [lia |].
  exists r, w'. split; [exact Hr |]. split; [exact Hl |]. split.
  - intros fuel Hlt. apply (menu_loop_steady _ _ _ _ Hr). lia.
  - intros ->.
    apply (loop_returns menu_loop (String LF "CS2 Esports DB - Main Menu") "0) Exit"
             actions (print "Bye.") eq_refl (fun _ => eq_refl)
             (fun w' => last (stdout w') = Some (Line "Bye."))) in Hr; [exact Hr |].
    intros w0 w1 [= <-]. cbn [stdout]. apply last_snoc.
Qed.




(** X8.  [simple_menu] answers a choice that is neither "0" nor one of
    its keys with "Invalid choice." and shows the menu again, sending
    nothing to the store; the choice is compared after stripping, and
    "0" returns.  So for choices it does not know followed by "0" it
    has shown the menu once per choice and once more, and leaves the
    lines after the "0" unread. *)
Theorem simple_menu_asks_again `{Lib} `{Backend} (title : string) (options : menu)
    (bad : list string) (zero_line : string) (rest : list string) (w : world) :
  stdin w = bad ++ zero_line :: rest ->
  Forall (fun l => strip l <> "0" /\ find (strip l) options = None) bad ->
  strip zero_line = "0" ->
  simple_menu (S (length bad)) title options w =
  Some (inr tt,
    {| stdin := rest;
       stdout := stdout w ++
         shown_again ([Line (String LF (title +:+ " Menu"))] ++ option_lines options ++
                      [Line "0) Back"]) bad ++
         [Line (String LF (title +:+ " Menu"))] ++ option_lines options ++
         [Line "0) Back"; Ask "Choose an option: "];
       database := database w |}).
Proof.
  intros Hin Hbad Hz.
  apply (loop_invalid (fun fuel => simple_menu fuel title options)
           (String LF (title +:+ " Menu")) "0) Back" options (ret tt)
           (fun _ => eq_refl) bad zero_line rest w Hin Hbad Hz).
Qed.

Lemma simple_menu_asks_again_witness :
  exists w',
    @teams_menu Demo.lib Demo.backend 3 (Demo.console ["9"; "teams"; " 0 "; "1"]) =
      Some (inr tt, w') /\
    stdin w' = ["1"] /\ database w' = Demo.fresh_db.
Proof.
  pose proof (@simple_menu_asks_again Demo.lib Demo.backend "Teams"
    (@teams_options Demo.lib Demo.backend)
    ["9"; "teams"] " 0 " ["1"] (Demo.console ["9"; "teams"; " 0 "; "1"]) eq_refl) as Hm.
  unfold teams_menu. cbn [length] in Hm. rewrite Hm.
  - eexists. split; [reflexivity |]. split; reflexivity.
  - repeat constructor; discriminate.
  - reflexivity.
Defined.

End MenuFacts.

(** ** The window: selection, confirmation and refused statements *)

Module WindowRuns.
Import Py Sql Db Eff Spec Gui Sends GuiFacts Shows.

Section Base.
Context `{Lib} `{Backend} {W : Type}.

Lemma selected_id_eq (u : ui W) : get_selected_id u = (inr (selected_id u), u).
Proof. reflexivity. Qed.

Lemma delete_nothing_selected (what tbl key_col : string) (refresh clear_form : G W unit)
    (u : ui W) :
  truthy (selected_id u) = false ->
  delete_selected what tbl key_col refresh clear_form u =
  error ("Select a " +:+ what +:+ " to delete") u.
Proof.
  intros Hid. unfold delete_selected, bind at 1. rewrite selected_id_eq. cbn [fst snd].
  now rewrite Hid.
Qed.

Lemma delete_declined (what tbl key_col : string) (refresh clear_form : G W unit)
    (u : ui W) :
  truthy (selected_id u) = true -> confirm u = false ->
  delete_selected what tbl key_col refresh clear_form u =
  (inr tt, asked u ("Delete selected " +:+ what +:+ "?")).
Proof.
  intros Hid Hno. unfold delete_selected, bind at 1. rewrite selected_id_eq. cbn [fst snd].
  rewrite Hid. cbn [negb]. unfold bind, askyesno. cbn [fst snd].
  assert (Hb : negb (confirm u) = true) by now rewrite Hno.
  now rewrite Hb.
Qed.

Lemma delete_turned_down (what tbl key_col : string) (refresh clear_form : G W unit)
    (u : ui W) (msg : string) :
  truthy (selected_id u) = true -> confirm u = true ->
  rejects (Delete tbl key_col (selected_id u)) (committed (database u)) = Some msg ->
  delete_selected what tbl key_col refresh clear_form u =
  (inr tt, turned_down (asked u ("Delete selected " +:+ what +:+ "?"))
             (Delete tbl key_col (selected_id u)) msg).
Proof.
  intros Hid Hyes Hrej. unfold delete_selected, bind at 1. rewrite selected_id_eq.
  cbn [fst snd]. rewrite Hid. cbn [negb]. unfold bind at 1, askyesno. cbn [fst snd].
  assert (Hb : negb (confirm u) = false) by now rewrite Hyes.
  rewrite Hb. unfold try_, bind at 1, call. cbn [database].
  rewrite Work.execute_eq, Hrej. reflexivity.
Qed.

End Base.

(** X9.  With no row selected the window's update and delete refuse
    and send nothing: each shows "Select a ... to update" or "Select a
    ... to delete" in an error box and on the status line, asks no
    confirmation and leaves the store, the rows and the form as they
    were.  A selected row whose id is 0 counts as no selection, the
    test being [if not id]. *)
Theorem nothing_selected_is_refused `{Lib} `{Backend} :
  (forall u : ui TeamsFrame.form, truthy (selected_id u) = false ->
     TeamsFrame.update u = (inr tt, refused u "Select a team to update") /\
     TeamsFrame.delete u = (inr tt, refused u "Select a team to delete")) /\
  (forall u : ui PlayersFrame.form, truthy (selected_id u) = false ->
     PlayersFrame.update u = (inr tt, refused u "Select a player to update") /\
     PlayersFrame.delete u = (inr tt, refused u "Select a player to delete")) /\
  (forall u : ui TournamentsFrame.form, truthy (selected_id u) = false ->
     TournamentsFrame.update u = (inr tt, refused u "Select a tournament to update") /\
     TournamentsFrame.delete u = (inr tt, refused u "Select a tournament to delete")) /\
  (forall u : ui MatchesFrame.form, truthy (selected_id u) = false ->
     MatchesFrame.update u = (inr tt, refused u "Select a match to update") /\
     MatchesFrame.delete u = (inr tt, refused u "Select a match to delete")) /\
  (forall u : ui ResultsFrame.form, truthy (selected_id u) = false ->
     ResultsFrame.delete u = (inr tt, refused u "Select a result to delete")).
Proof.
  repeat match goal with |- _ /\ _ => split end; intros u Hid;
    repeat match goal with |- _ /\ _ => split end;
    first
      [ unfold TeamsFrame.delete, PlayersFrame.delete, TournamentsFrame.delete,
          MatchesFrame.delete, ResultsFrame.delete;
        rewrite delete_nothing_selected by exact Hid; apply error_eq; reflexivity
      | unfold TeamsFrame.update, PlayersFrame.update, TournamentsFrame.update,
          MatchesFrame.update, bind at 1; rewrite selected_id_eq; cbn [fst snd];
        rewrite Hid; cbn [negb]; apply error_eq; reflexivity ].
Qed.

(** A row with id 0, as the teams tab would show it. *)
Example row_zero_is_no_selection :
  let u := Demo.window {| TeamsFrame.name := "New"; TeamsFrame.region := "";
                          TeamsFrame.founded := "" |}
             (Some [VInt 0; VStr "Zero"; VStr "EU"; VStr "-"]) in
  @TeamsFrame.update Demo.lib Demo.backend u =
    (inr tt, refused u "Select a team to update").
Proof. reflexivity. Qed.

(** X10.  A delete the user does not confirm does nothing: a row being
    selected and the answer to "Delete selected ...?" being no, each
    tab's delete returns with the confirmation box as the only trace;
    no statement is sent and the selection, the form and the status
    line stay. *)
Theorem unconfirmed_delete_does_nothing `{Lib} `{Backend} :
  (forall u : ui TeamsFrame.form,
     truthy (selected_id u) = true -> confirm u = false ->
     TeamsFrame.delete u = (inr tt, asked u "Delete selected team?")) /\
  (forall u : ui PlayersFrame.form,
     truthy (selected_id u) = true -> confirm u = false ->
     PlayersFrame.delete u = (inr tt, asked u "Delete selected player?")) /\
  (forall u : ui TournamentsFrame.form,
     truthy (selected_id u) = true -> confirm u = false ->
     TournamentsFrame.delete u = (inr tt, asked u "Delete selected tournament?")) /\
  (forall u : ui MatchesFrame.form,
     truthy (selected_id u) = true -> confirm u = false ->
     MatchesFrame.delete u = (inr tt, asked u "Delete selected match?")) /\
  (forall u : ui ResultsFrame.form,
     truthy (selected_id u) = true -> confirm u = false ->
     ResultsFrame.delete u = (inr tt, asked u "Delete selected result?")).
Proof.
  repeat match goal with |- _ /\ _ => split end; intros u Hid Hno;
    now apply delete_declined.
Qed.

(** X11.  A delete the store refuses is reported and changes nothing:
    a row being selected and the user confirming, when the store turns
    the DELETE down (a row still referenced, say) each tab's delete
    shows the translated message in an error box, puts the store's own
    message on the status line, and leaves the committed contents, the
    rows shown, the selection and the form as they were; the view is
    not refreshed. *)
Theorem refused_delete_is_reported `{Lib} `{Backend} :
  (forall (u : ui TeamsFrame.form) msg,
     truthy (selected_id u) = true -> confirm u = true ->
     rejects (Delete "teams" "team_id" (selected_id u)) (committed (database u)) = Some msg ->
     TeamsFrame.delete u =
       (inr tt, turned_down (asked u "Delete selected team?")
                  (Delete "teams" "team_id" (selected_id u)) msg)) /\
  (forall (u : ui PlayersFrame.form) msg,
     truthy (selected_id u) = true -> confirm u = true ->
     rejects (Delete "players" "player_id" (selected_id u)) (committed (database u)) =
       Some msg ->
     PlayersFrame.delete u =
       (inr tt, turned_down (asked u "Delete selected player?")
                  (Delete "players" "player_id" (selected_id u)) msg)) /\
  (forall (u : ui TournamentsFrame.form) msg,
     truthy (selected_id u) = true -> confirm u = true ->
     rejects (Delete "tournaments" "tournament_id" (selected_id u))
       (committed (database u)) = Some msg ->
     TournamentsFrame.delete u =
       (inr tt, turned_down (asked u "Delete selected tournament?")
                  (Delete "tournaments" "tournament_id" (selected_id u)) msg)) /\
  (forall (u : ui MatchesFrame.form) msg,
     truthy (selected_id u) = true -> confirm u = true ->
     rejects (Delete "matches" "match_id" (selected_id u)) (committed (database u)) =
       Some msg ->
     MatchesFrame.delete u =
       (inr tt, turned_down (asked u "Delete selected match?")
                  (Delete "matches" "match_id" (selected_id u)) msg)) /\
  (forall (u : ui ResultsFrame.form) msg,
     truthy (selected_id u) = true -> confirm u = true ->
     rejects (Delete "tournament_results" "result_id" (selected_id u))
       (committed (database u)) = Some msg ->
     ResultsFrame.delete u =
       (inr tt, turned_down (asked u "Delete selected result?")
                  (Delete "tournament_results" "result_id" (selected_id u)) msg)) /\
  (forall {W} (u : ui W) q msg,
     committed (database (turned_down u q msg)) = committed (database u) /\
     writes (log (database (turned_down u q msg))) =
       writes (log (database u)) ++ List.filter is_write [q]).
Proof.
  repeat match goal with |- _ /\ _ => split end;
    try (intros u msg Hid Hyes Hrej; now apply delete_turned_down).
  intros W u q msg. split; [reflexivity |].
  unfold turned_down, rolled_back. cbn [database log].
  now rewrite StoreFacts.writes_unit.
Qed.

(** Team 1 still has a player. *)
Lemma refused_delete_is_reported_witness :
  let u := Demo.window {| TeamsFrame.name := ""; TeamsFrame.region := "";
                          TeamsFrame.founded := "" |}
             (Some [VInt 1; VStr "Alpha"; VStr "EU"; VStr "2020"]) in
  dialogs (@TeamsFrame.delete Demo.lib Demo.backend u).2 =
    [AskYesNo "Delete selected team?";
     ShowError "update or delete on table teams violates foreign key constraint players_team_id_fkey"] /\
  committed (database (@TeamsFrame.delete Demo.lib Demo.backend u).2) = Demo.league.
Proof.
  intros u.
  destruct (@refused_delete_is_reported Demo.lib Demo.backend) as (Hteams & _).
  rewrite (Hteams u
    "update or delete on table teams violates foreign key constraint players_team_id_fkey"
    eq_refl eq_refl eq_refl).
  split; reflexivity.
Defined.

End WindowRuns.

(** ** The window: selecting a row and pressing Update *)

Module Selecting.
Import Py Sql Db Eff Spec Gui Sends GuiFacts Shows Prefill.

Section Teams.
Context `{Lib} `{Backend}.

Lemma teams_on_select_eq (u : ui TeamsFrame.form) id n r shown_year rest :
  selection u = Some (id :: VStr n :: VStr r :: shown_year :: rest) ->
  Prefill.TeamsFrame.on_select u =
  (inr tt,
   {| tree := tree u; selection := selection u; status_var := "Selected team " +:+ n;
      widgets := {| TeamsFrame.name := n; TeamsFrame.region := r;
                    TeamsFrame.founded :=
                      if not_dash shown_year then str_value shown_year else "" |};
      database := database u; dialogs := dialogs u; confirm := confirm u |}).
Proof.
  intros Hsel. destruct u as [t s st wd d dl cf]. cbn [selection] in Hsel. subst s.
  reflexivity.
Qed.

Lemma teams_update_keeps_shown_year (u : ui TeamsFrame.form) id n r current_year rest :
  selection u = Some (id :: VStr n :: VStr r :: current_year :: rest) ->
  truthy id = true ->
  blank (TeamsFrame.name (widgets u)) = false ->
  blank (TeamsFrame.region (widgets u)) = false ->
  blank (TeamsFrame.founded (widgets u)) = true ->
  writes (log (database (TeamsFrame.update u).2)) =
    writes (log (database u)) ++
    [Update "teams"
       [("team_name", VStr (strip (TeamsFrame.name (widgets u))));
        ("region", VStr (strip (TeamsFrame.region (widgets u))));
        ("founded_year", current_year)]
       "team_id" id].
Proof.
  intros Hsel Hid Hn Hr Hf.
  unfold TeamsFrame.update, bind at 1, get_selected_id. rewrite Hsel. cbn [fst snd].
  rewrite Hid. cbn [negb]. unfold bind at 1, get_widgets. cbn [fst snd].
  cbn [existsb]. rewrite Hn. cbn [negb orb].
  unfold bind at 1, get_selected_values. cbn [fst snd]. rewrite Hsel.
  cbn [default]. unfold or_value. cbn [truthy].
  unfold blank in Hn, Hr. rewrite Hn, Hr. cbn [negb orb truthy]. rewrite Hn, Hr.
  cbn [negb orb]. rewrite Hf. cbn [negb].
  match goal with |- context [try_ ?m ?h u] =>
    change m with (let* _ := call (execute
      (Update "teams"
         [("team_name", VStr (strip (TeamsFrame.name (widgets u))));
          ("region", VStr (strip (TeamsFrame.region (widgets u))));
          ("founded_year", current_year)] "team_id" id)) in
      let* _ := TeamsFrame.refresh in
      set_status ("Updated team " +:+ str_value id))
  end.
  match goal with |- context [try_ (let* _ := call (execute ?q) in ?k) ?h u] =>
    destruct (write_then_quiet q k h u eq_refl) as [Hw _]
  end.
  - pose proof teams_refresh_quiet. quietly; assumption.
  - intros e. apply quiet_error.
  - exact Hw.
Qed.

End Teams.

Section Players.
Context `{Lib} `{Backend}.

Lemma players_on_select_eq (u : ui PlayersFrame.form) id n c r team rest :
  selection u = Some (id :: n :: c :: r :: team :: rest) ->
  Prefill.PlayersFrame.on_select u =
  (inr tt,
   {| tree := tree u; selection := selection u;
      status_var := "Selected player " +:+ str_value n;
      widgets := {| PlayersFrame.entries :=
                      (if not_dash n then str_value n else "",
                       if not_dash c then str_value c else "",
                       if not_dash r then str_value r else "");
                    PlayersFrame.team_combo := "";
                    PlayersFrame.team_values := PlayersFrame.team_values (widgets u) |};
      database := database u; dialogs := dialogs u; confirm := confirm u |}).
Proof.
  intros Hsel. destruct u as [t s st [[[e1 e2] e3] tc tv] d dl cf].
  cbn [selection] in Hsel. subst s. reflexivity.
Qed.

Lemma players_update_clears_team (u : ui PlayersFrame.form) id name country role :
  truthy (selected_id u) = true -> selected_id u = id ->
  PlayersFrame.entries (widgets u) = (name, country, role) ->
  PlayersFrame.team_combo (widgets u) = "" ->
  blank name = false ->
  writes (log (database (PlayersFrame.update u).2)) =
    writes (log (database u)) ++
    [Update "players"
       [("player_name", VStr (strip name)); ("country", str_or_none country);
        ("role", str_or_none role); ("team_id", VNone)]
       "player_id" id].
Proof.
  intros Hid Hsel He Ht Hn.
  unfold PlayersFrame.update, bind at 1.
  change (get_selected_id u) with (inr (A:=exn) (selected_id u), u). cbn [fst snd].
  rewrite Hid, Hsel. cbn [negb]. unfold bind at 1, get_widgets. cbn [fst snd].
  rewrite He, Ht. cbn [existsb]. rewrite Hn. cbn [negb orb].
  unfold bind at 1, get_selected_values. cbn [fst snd].
  unfold or_value. cbn [truthy]. unfold blank in Hn. rewrite Hn. cbn [negb truthy].
  rewrite Hn. cbn [negb].
  match goal with |- context [try_ ?m ?h u] =>
    change m with (let* _ := call (execute
      (Update "players"
         [("player_name", VStr (strip name)); ("country", str_or_none country);
          ("role", str_or_none role); ("team_id", VNone)] "player_id" id)) in
      let* _ := PlayersFrame.refresh in
      set_status ("Updated player " +:+ str_value id))
  end.
  match goal with |- context [try_ (let* _ := call (execute ?q) in ?k) ?h u] =>
    destruct (write_then_quiet q k h u eq_refl) as [Hw _]
  end.
  - pose proof players_refresh_quiet. quietly; assumption.
  - intros e. apply quiet_error.
  - exact Hw.
Qed.

End Players.

(** X12.  In the teams tab a founded year left blank is filled from
    the row as it is displayed, placeholder included.  Selecting a team
    puts its name and region in the form and, when the row shows "-"
    for a team without a founded year, leaves the year entry empty;
    pressing Update then sends an UPDATE that sets [founded_year] to
    the text "-". *)
Theorem team_update_sends_the_placeholder `{Lib} `{Backend}
    (u : ui TeamsFrame.form) (id : value) (n r : string) (rest : tuple) :
  selection u = Some (id :: VStr n :: VStr r :: VStr "-" :: rest) ->
  truthy id = true -> blank n = false -> blank r = false ->
  let selected := (Prefill.TeamsFrame.on_select u).2 in
  (Prefill.TeamsFrame.on_select u).1 = inr tt /\
  widgets selected =
    {| TeamsFrame.name := n; TeamsFrame.region := r; TeamsFrame.founded := "" |} /\
  database selected = database u /\
  writes (log (database (TeamsFrame.update selected).2)) =
    writes (log (database u)) ++
    [Update "teams"
       [("team_name", VStr (strip n)); ("region", VStr (strip r));
        ("founded_year", VStr "-")]
       "team_id" id].
Proof.
  intros Hsel Hid Hn Hr selected. subst selected.
  rewrite (teams_on_select_eq u id n r (VStr "-") rest Hsel). cbn [fst snd].
  split; [reflexivity |]. split; [reflexivity |]. split; [reflexivity |].
  match goal with |- context [TeamsFrame.update ?u1] =>
    rewrite (teams_update_keeps_shown_year u1 id n r (VStr "-") rest)
  end; try reflexivity; assumption.
Qed.

Lemma team_update_sends_the_placeholder_witness :
  let u := Demo.window {| TeamsFrame.name := ""; TeamsFrame.region := "";
                          TeamsFrame.founded := "" |}
             (Some [VInt 2; VStr "Beta"; VStr "EU"; VStr "-"]) in
  writes (log (database
    (@TeamsFrame.update Demo.lib Demo.backend
       (@Prefill.TeamsFrame.on_select Demo.lib u).2).2)) =
  [Update "teams"
     [("team_name", VStr "Beta"); ("region", VStr "EU"); ("founded_year", VStr "-")]
     "team_id" (VInt 2)].
Proof.
  intros u.
  destruct (@team_update_sends_the_placeholder Demo.lib Demo.backend u (VInt 2) "Beta" "EU"
              [] eq_refl eq_refl eq_refl eq_refl) as (_ & _ & _ & Hw).
  exact Hw.
Defined.

(** X13.  In the players tab an update without a team picked takes the
    player off the team.  Selecting a player fills the name, country
    and role (a "-" shown for a missing one becomes an empty entry) and
    always empties the team dropdown; pressing Update then sends all
    four columns, with [team_id] set to NULL whatever team the row
    shows. *)
Theorem player_update_drops_the_team `{Lib} `{Backend}
    (u : ui PlayersFrame.form) (id : value) (n : string) (c r team : value) (rest : tuple) :
  selection u = Some (id :: VStr n :: c :: r :: team :: rest) ->
  truthy id = true -> blank n = false -> n <> "-" ->
  let selected := (Prefill.PlayersFrame.on_select u).2 in
  (Prefill.PlayersFrame.on_select u).1 = inr tt /\
  PlayersFrame.team_combo (widgets selected) = "" /\
  database selected = database u /\
  writes (log (database (PlayersFrame.update selected).2)) =
    writes (log (database u)) ++
    [Update "players"
       [("player_name", VStr (strip n));
        ("country", str_or_none (if not_dash c then str_value c else ""));
        ("role", str_or_none (if not_dash r then str_value r else ""));
        ("team_id", VNone)]
       "player_id" id].
Proof.
  intros Hsel Hid Hn Hdash selected. subst selected.
  rewrite (players_on_select_eq u id (VStr n) c r team rest Hsel). cbn [fst snd].
  split; [reflexivity |]. split; [reflexivity |]. split; [reflexivity |].
  assert (Hkeep : not_dash (VStr n) = true).
  { unfold not_dash. rewrite bool_decide_false; [reflexivity | congruence]. }
  match goal with |- context [PlayersFrame.update ?u1] =>
    rewrite (players_update_clears_team u1 id n
               (if not_dash c then str_value c else "")
               (if not_dash r then str_value r else ""))
  end; try reflexivity; try assumption.
  - unfold selected_id. cbn [selection]. now rewrite Hsel.
  - unfold selected_id. cbn [selection]. now rewrite Hsel.
  - cbn [widgets PlayersFrame.entries]. now rewrite Hkeep.
Qed.

Lemma player_update_drops_the_team_witness :
  let u := Demo.window {| PlayersFrame.entries := ("", "", "");
                          PlayersFrame.team_combo := "1 - Alpha";
                          PlayersFrame.team_values := [""; "1 - Alpha"; "2 - Beta"] |}
             (Some [VInt 7; VStr "Ann"; VStr "SE"; VStr "-"; VStr "Alpha"]) in
  writes (log (database
    (@PlayersFrame.update Demo.lib Demo.backend
       (@Prefill.PlayersFrame.on_select Demo.lib u).2).2)) =
  [Update "players"
     [("player_name", VStr "Ann"); ("country", VStr "SE"); ("role", VNone);
      ("team_id", VNone)]
     "player_id" (VInt 7)].
Proof.
  intros u.
  destruct (@player_update_drops_the_team Demo.lib Demo.backend u (VInt 7) "Ann"
              (VStr "SE") (VStr "-") (VStr "Alpha") [] eq_refl eq_refl eq_refl
              ltac:(discriminate)) as (_ & _ & _ & Hw).
  exact Hw.
Defined.

End Selecting.

(** ** Creating: what reaches the store *)

Module InsertFacts.
Import Py Sql Db Eff Spec.

Lemma fresh_key_above (t : table) (k : Z) (r : row) :
  t !! k = Some r -> k < fresh_key t.
Proof.
  unfold fresh_key.
  enough (Hle : forall k r, t !! k = Some r ->
            k <= map_fold (fun k (_ : row) m => Z.max k m) 0 t).
  { intros Hk. specialize (Hle k r Hk). lia. }
  clear k r.
  apply (map_fold_weak_ind
           (fun (m : Z) (t : table) => forall k r, t !! k = Some r -> k <= m)).
  - intros k r Hk. now rewrite lookup_empty in Hk.
  - intros i x m b Hi IH k r Hk.
    destruct (decide (i = k)) as [-> | Hne].
    + lia.
    + rewrite lookup_insert_ne in Hk by assumption. specialize (IH k r Hk). lia.
Qed.

Lemma fresh_key_absent (t : table) : t !! fresh_key t = None.
Proof.
  destruct (t !! fresh_key t) as [r|] eqn:Hk; [| reflexivity].
  apply fresh_key_above in Hk. lia.
Qed.

Section Engine.
Context `{Backend}.

Lemma insert_row_fresh (tbl : string) (s : store) :
  row_of s tbl (fresh_key (default ∅ (s !! tbl))) = None.
Proof.
  unfold row_of. destruct (s !! tbl) as [t|] eqn:Ht; [| reflexivity].
  apply fresh_key_absent.
Qed.

Lemma insert_row_row tbl cols vals returning (s : store) :
  let k := fresh_key (default ∅ (s !! tbl)) in
  row_of (insert_row tbl cols vals returning s).2 tbl k =
    Some (<[returning := VInt k]> (list_to_map (zip cols vals))).
Proof.
  cbv zeta. unfold insert_row, row_of. cbn [snd].
  rewrite lookup_insert_eq. apply lookup_insert_eq.
Qed.

Lemma insert_row_others tbl cols vals returning (s : store) tbl' k' :
  (tbl', k') <> (tbl, fresh_key (default ∅ (s !! tbl))) ->
  row_of (insert_row tbl cols vals returning s).2 tbl' k' = row_of s tbl' k'.
Proof.
  intros Hne. unfold insert_row, row_of. cbn [snd].
  destruct (decide (tbl = tbl')) as [<- | Ht].
  - rewrite lookup_insert_eq.
    assert (Hk : fresh_key (default ∅ (s !! tbl)) <> k') by congruence.
    rewrite lookup_insert_ne by assumption.
    destruct (s !! tbl) as [t|]; [reflexivity | apply lookup_empty].
  - now rewrite lookup_insert_ne.
Qed.

Lemma insert_row_returns tbl cols vals returning (s : store) :
  (insert_row tbl cols vals returning s).1 = [[VInt (fresh_key (default ∅ (s !! tbl)))]].
Proof. reflexivity. Qed.

End Engine.

End InsertFacts.
